(** * The detection-mode scheduler and analysis loop of
      [deteccao_lib/detector_pessoas_video.py]

    A shallow embedding of the classes [ModoDeteccao] and
    [DetectorPessoasVideo].  The Python code talks to the outside through
    [time.time()], the video stream, the motion detector, the person
    detector and the tracker; every such call is an effect on an explicit
    world: the world answers the call from an oracle (a function of the
    call number) and appends the call to a log.

    Timestamps and thresholds are Python floats; they are embedded as
    rationals, so the rounding of a float subtraction is not modelled.

    Exceptions.  [run] catches two exceptions of [stream.read()] and any
    exception of the detection; these are answers of the world.  The
    calls its loop makes on the tracker, on the registry, on the history
    and on the period control are inside no [try]: the world may have any
    of them raise, and so may [stream.read()] raise something else; such
    an exception leaves [run].  [_frame_tamanho_maximo] and
    [ModoDeteccao.atualiza_modo], which are functions of this file, are
    evaluated, and the calls [run] makes before and after its loop are
    taken to return. *)

From Stdlib Require Import QArith Lqa ZArith Lia Bool List String.
Import ListNotations.

Local Open Scope string_scope.

(** ** Python's comparison operators on numbers, as booleans *)

Definition Qgeb (a b : Q) : bool := Qle_bool b a.          (* a >= b *)
Definition Qgtb (a b : Q) : bool := negb (Qle_bool a b).   (* a >  b *)
Definition Qltb (a b : Q) : bool := negb (Qle_bool b a).   (* a <  b *)
Definition Qleb (a b : Q) : bool := Qle_bool a b.          (* a <= b *)

Arguments Qgeb : simpl never.
Arguments Qgtb : simpl never.
Arguments Qltb : simpl never.
Arguments Qleb : simpl never.

(** ** Data exchanged with the collaborators *)

(** A box [(x, y, w, h)] and a confidence. *)
Definition Caixa : Type := (Z * Z * Z * Z)%type.
Definition Peso : Type := Q.

(** A frame is a [numpy.ndarray]; only its shape is looked at here. *)
Record Frame := mkFrame {
  shape0 : Z;       (* height *)
  shape1 : Z;       (* width *)
  conteudo : nat    (* stands for the pixels *)
}.

(** Result of [stream.read()]: a frame, one of the two exceptions that
    [run] catches, or another exception, by type name and text. *)
Inductive Leitura :=
| LeuFrame (f : Frame)
| StreamClosedError
| StreamStoppedError
| OutraExcecao (nome texto : string).

(** Result of [detectorPessoas.detectar(frame)]: boxes and confidences, or
    an exception with its type name and text. *)
Inductive Deteccao :=
| Detectou (caixas : list Caixa) (pesos : list Peso)
| ErroDeteccao (nome texto : string).

(** An exception that nothing in [run] catches, by type name and text. *)
Inductive Levantada :=
| Levantou (nome texto : string).

(** Calls that leave the module, in the order they are made. *)
Inductive Evento :=
| EvTime (t : Q)                                   (* time.time() *)
| EvSleep (s : Q)                                  (* time.sleep(s) *)
| EvPrint (msg : string)                           (* print(msg) *)
| EvStreamStart                                    (* stream.start() *)
| EvStreamRead (r : Leitura)                       (* stream.read() *)
| EvStreamStop                                     (* stream.stop() *)
| EvMovStart                                       (* DetectorMovimento(..).recebe_video(..).start() *)
| EvMovMudanca (b : bool)                          (* detector_movimento.houve_mudanca() *)
| EvMovStop                                        (* detector_movimento.stop() *)
| EvDetectar (f : Frame) (r : Deteccao)            (* detectorPessoas.detectar(frame) *)
| EvRastreadorReiniciar                            (* rastreador.reiniciar() *)
| EvRastreadorAdiciona (f : Frame) (cx : list Caixa) (* rastreador.adiciona_rastreadores(..) *)
| EvRastreadorAtualiza (f : Frame) (cx : list Caixa) (* rastreador.atualiza(frame) *)
| EvReiniciar                                      (* pessoas_registradas.reiniciar() *)
| EvAtualizar (cx : list Caixa) (ps : list Peso) (caixas_paradas : bool)
                                                   (* pessoas_registradas.atualizar(..) *)
| EvAtualizaPeriodo (valor : nat)                  (* pessoas_historico.atualiza_periodo(..) *)
| EvForcePeriod.                                   (* controla_periodo_loop.force_minimum_loop_period() *)

(** ** The world and the effect monad *)

Module Mundo.

Record t := mk {
  (* oracles: the answer to the k-th call *)
  relogio : nat -> Q;               (* time.time() *)
  movimentos : nat -> bool;         (* houve_mudanca() *)
  leituras : nat -> Leitura;        (* stream.read() *)
  deteccoes : nat -> Deteccao;      (* detectar(frame) *)
  rastreios : nat -> list Caixa;    (* rastreador.atualiza(frame) *)
  paradas : nat -> bool;            (* has another thread called stop()
                                       by the k-th test of the loop? *)
  excecoes : nat -> option Levantada;
                                    (* the exception, if any, raised by
                                       the call that would be the k-th of
                                       the log, when no try encloses it *)
  (* number of calls answered so far *)
  n_relogio : nat;
  n_movimentos : nat;
  n_leituras : nat;
  n_deteccoes : nat;
  n_rastreios : nat;
  n_paradas : nat;
  (* log of the calls made *)
  eventos : list Evento
}.

Definition registra (e : Evento) (w : t) : t :=
  mk (relogio w) (movimentos w) (leituras w) (deteccoes w) (rastreios w)
     (paradas w) (excecoes w) (n_relogio w) (n_movimentos w)
     (n_leituras w) (n_deteccoes w) (n_rastreios w) (n_paradas w)
     (eventos w ++ [e]).

Definition avanca_relogio (w : t) : t :=
  mk (relogio w) (movimentos w) (leituras w) (deteccoes w) (rastreios w)
     (paradas w) (excecoes w) (S (n_relogio w)) (n_movimentos w)
     (n_leituras w) (n_deteccoes w) (n_rastreios w) (n_paradas w)
     (eventos w).

Definition avanca_movimentos (w : t) : t :=
  mk (relogio w) (movimentos w) (leituras w) (deteccoes w) (rastreios w)
     (paradas w) (excecoes w) (n_relogio w) (S (n_movimentos w))
     (n_leituras w) (n_deteccoes w) (n_rastreios w) (n_paradas w)
     (eventos w).

Definition avanca_leituras (w : t) : t :=
  mk (relogio w) (movimentos w) (leituras w) (deteccoes w) (rastreios w)
     (paradas w) (excecoes w) (n_relogio w) (n_movimentos w)
     (S (n_leituras w)) (n_deteccoes w) (n_rastreios w) (n_paradas w)
     (eventos w).

Definition avanca_deteccoes (w : t) : t :=
  mk (relogio w) (movimentos w) (leituras w) (deteccoes w) (rastreios w)
     (paradas w) (excecoes w) (n_relogio w) (n_movimentos w)
     (n_leituras w) (S (n_deteccoes w)) (n_rastreios w) (n_paradas w)
     (eventos w).

Definition avanca_rastreios (w : t) : t :=
  mk (relogio w) (movimentos w) (leituras w) (deteccoes w) (rastreios w)
     (paradas w) (excecoes w) (n_relogio w) (n_movimentos w)
     (n_leituras w) (n_deteccoes w) (S (n_rastreios w)) (n_paradas w)
     (eventos w).

Definition avanca_paradas (w : t) : t :=
  mk (relogio w) (movimentos w) (leituras w) (deteccoes w) (rastreios w)
     (paradas w) (excecoes w) (n_relogio w) (n_movimentos w)
     (n_leituras w) (n_deteccoes w) (n_rastreios w) (S (n_paradas w))
     (eventos w).


End Mundo.

(** A computation with effects on the world. *)
Definition M (A : Type) : Type := Mundo.t -> A * Mundo.t.

Definition ret {A} (a : A) : M A := fun w => (a, w).

Definition bind {A B} (c : M A) (k : A -> M B) : M B :=
  fun w => let (a, w1) := c w in k a w1.

Declare Scope mundo_scope.
Delimit Scope mundo_scope with mundo.
Notation "x <- c ;; k" := (bind c (fun x => k))
  (at level 61, c at next level, right associativity) : mundo_scope.
Notation "' pat <- c ;; k" :=
  (bind c (fun x => match x with pat => k end))
  (at level 61, pat pattern, c at next level, right associativity)
  : mundo_scope.
Notation "c ;;; k" := (bind c (fun _ => k))
  (at level 61, right associativity) : mundo_scope.
Local Open Scope mundo_scope.

(** The effects. *)

Definition evento (e : Evento) : M unit :=
  fun w => (tt, Mundo.registra e w).

Definition time_time : M Q :=
  fun w => let t := Mundo.relogio w (Mundo.n_relogio w) in
           (t, Mundo.registra (EvTime t) (Mundo.avanca_relogio w)).

Definition time_sleep (s : Q) : M unit := evento (EvSleep s).

Definition print (msg : string) : M unit := evento (EvPrint msg).

Definition houve_mudanca : M bool :=
  fun w => let b := Mundo.movimentos w (Mundo.n_movimentos w) in
           (b, Mundo.registra (EvMovMudanca b) (Mundo.avanca_movimentos w)).

Definition stream_read : M Leitura :=
  fun w => let r := Mundo.leituras w (Mundo.n_leituras w) in
           (r, Mundo.registra (EvStreamRead r) (Mundo.avanca_leituras w)).

Definition detectar (f : Frame) : M Deteccao :=
  fun w => let r := Mundo.deteccoes w (Mundo.n_deteccoes w) in
           (r, Mundo.registra (EvDetectar f r) (Mundo.avanca_deteccoes w)).

Definition rastreador_atualiza (f : Frame) : M (list Caixa) :=
  fun w => let cx := Mundo.rastreios w (Mundo.n_rastreios w) in
           (cx, Mundo.registra (EvRastreadorAtualiza f cx)
                               (Mundo.avanca_rastreios w)).

(** A call that no [try] of [run] encloses.  When the world has an
    exception in store for the call that would be logged next, the call
    raises it and is not logged; otherwise it is made. *)
Definition chamada {A} (c : M A) : M (Levantada + A) :=
  fun w => match Mundo.excecoes w (List.length (Mundo.eventos w)) with
           | Some e => (inl e, w)
           | None => let (a, w1) := c w in (inr a, w1)
           end.

(** Has [stop()] been called from outside by now?  Asked at each test of
    the loop condition. *)
Definition parada_externa : M bool :=
  fun w => (Mundo.paradas w (Mundo.n_paradas w), Mundo.avanca_paradas w).

(** ** class ModoDeteccao *)

Module ModoDeteccao.

Record t := mk {
  max_tempo_sem_deteccao : Q;
  max_tempo_parado : Q;
  max_tempo_sem_atualizar_modo : Q;
  usar_rastreamento : bool;
  tempo_em_que_parou : Q;
  tempo_ultima_deteccao : Q;
  modo : string;
  modo_anterior : string;
  tempo_ultima_checagem : Q;
  checagem_atual : option Q    (* attribute created by atualiza_modo *)
}.

(** [ModoDeteccao.__init__]; the reference to the motion detector is the
    world's. *)
Definition __init__ (max_tempo_sem_deteccao max_tempo_parado : Q)
    (usar_rastreamento : bool) (max_tempo_sem_atualizar_modo : Q) : M t :=
  t1 <- time_time ;;
  let tempo_em_que_parou := (t1 - max_tempo_parado)%Q in
  t2 <- time_time ;;
  let tempo_ultima_deteccao := (t2 - max_tempo_sem_deteccao)%Q in
  t3 <- time_time ;;
  ret (mk max_tempo_sem_deteccao max_tempo_parado
          max_tempo_sem_atualizar_modo usar_rastreamento
          tempo_em_que_parou tempo_ultima_deteccao "" "" t3 None).

(** The default of the last parameter of [__init__]. *)
Definition max_tempo_sem_atualizar_modo_padrao : Q := 1.

(** The branch on [modo_anterior] of [atualiza_modo]: the new value of
    [self.modo], given the four conditions computed before it. *)
Definition escolhe_modo (self : t) (modo_anterior : string)
    (teve_movimento parado_demais sem_detectar_demais
     max_tempo_checagem_excedido : bool) : string :=
  if modo_anterior =? "detectando" then
    if negb teve_movimento then "parado"
    else if negb (usar_rastreamento self) || max_tempo_checagem_excedido
         then "detectando"
         else "rastreando"
  else if modo_anterior =? "parado" then
    if teve_movimento || parado_demais then "detectando" else "parado"
  else if modo_anterior =? "rastreando" then
    if negb teve_movimento || sem_detectar_demais
       || max_tempo_checagem_excedido
    then "detectando"
    else modo self
  else "detectando".

Definition atualiza_modo (self : t) : M (string * t) :=
  let modo_anterior := modo self in
  checagem_atual <- time_time ;;
  teve_movimento <- houve_mudanca ;;
  ta <- time_time ;;
  let parado_demais :=
    Qgeb (ta - tempo_em_que_parou self) (max_tempo_parado self) in
  tb <- time_time ;;
  let sem_detectar_demais :=
    Qgeb (tb - tempo_ultima_deteccao self) (max_tempo_sem_deteccao self) in
  let max_tempo_checagem_excedido :=
    Qgtb (tempo_ultima_checagem self - checagem_atual)
         (max_tempo_sem_atualizar_modo self) in
  let modo' := escolhe_modo self modo_anterior teve_movimento parado_demais
                      sem_detectar_demais max_tempo_checagem_excedido in
  relogios <-
    (if (modo' =? "parado") && negb (modo_anterior =? "parado") then
       tc <- time_time ;; ret (tc, tempo_ultima_deteccao self)
     else if modo' =? "detectando" then
       tc <- time_time ;; ret (tempo_em_que_parou self, tc)
     else ret (tempo_em_que_parou self, tempo_ultima_deteccao self)) ;;
  td <- time_time ;;
  ret (modo',
       mk (max_tempo_sem_deteccao self) (max_tempo_parado self)
          (max_tempo_sem_atualizar_modo self) (usar_rastreamento self)
          (fst relogios) (snd relogios) modo' modo_anterior td
          (Some checagem_atual)).

Definition mudou_modo (self : t) : bool :=
  negb (modo self =? modo_anterior self).

End ModoDeteccao.

(** ** class CaixasObjetos (the registry of person boxes) *)

Module CaixasObjetos.

Record t := mk {
  caixas : list Caixa;
  pesos : list Peso
}.

(** Modelled from the spec: [CaixasObjetos.__init__], of
    [deteccao_lib/caixas_objetos_lib/caixas_objetos.py], is not among the
    sources; a new registry holds no box. *)
Definition __init__ : t := mk [] [].

(** Modelled from the spec: [CaixasObjetos.reiniciar] is not among the
    sources; "clears all held boxes immediately". *)
Definition reiniciar (self : t) : t := mk [] [].

(** Modelled from the spec: [CaixasObjetos.atualizar] is not among the
    sources; when [caixas_paradas] is false "the registry replaces its
    held set with the freshly supplied boxes", when it is true "the
    registry retains its previously held boxes and scores unchanged,
    ignoring the fresh input"; it "returns the resulting (boxes, scores)
    as currently held". *)
Definition atualizar (self : t) (cx : list Caixa) (ps : list Peso)
    (caixas_paradas : bool) : (list Caixa * list Peso) * t :=
  let self' := if caixas_paradas then self else mk cx ps in
  ((caixas self', pesos self'), self').

(** Modelled from the spec: [CaixasObjetos.pega_objetos(retorna_peso=False)]
    is not among the sources; "when includeScores is false only boxes
    are returned". *)
Definition pega_objetos_sem_peso (self : t) : list Caixa := caixas self.

(** Modelled from the spec: [len(registry)], "the number of currently
    held boxes". *)
Definition len (self : t) : nat := List.length (caixas self).

End CaixasObjetos.

(** ** class PessoasHistorico (the occupancy history) *)

Module PessoasHistorico.

(** Modelled from the spec: [PessoasHistorico], of
    [deteccao_lib/pessoas_historico.py], is not among the sources.  The
    period is kept as the samples recorded since the last report, each
    with the time it was recorded at; the aggregates of the period are
    functions of these. *)
Record t := mk {
  amostras : list (nat * Q)
}.

Definition __init__ : t := mk [].

(** Modelled from the spec: "Record count() into OccupancyHistory at the
    current time". *)
Definition atualiza_periodo (self : t) (valor : nat) : M t :=
  evento (EvAtualizaPeriodo valor) ;;;
  agora <- time_time ;;
  ret (mk (amostras self ++ [(valor, agora)])%list).

End PessoasHistorico.

(** ** class DetectorPessoasVideo *)

Inductive Excecao :=
| ValueError (msg : string)
| TypeError (msg : string).

(** A reference to an object built elsewhere (the video stream, the person
    detector), by a name. *)
Definition Objeto : Type := string.

(** Modelled from the spec: [ktools.resize], of [imagelib], is not among the
    sources; the frame brought to the given width ("optionally downscale
    it"), its height in proportion. *)
Definition ktools_resize (f : Frame) (largura : Z) : Frame :=
  mkFrame (shape0 f * largura / shape1 f) largura (conteudo f).

Module DetectorPessoasVideo.

Record t := mk {
  usar_rastreamento : bool;
  max_tempo_sem_deteccao : Q;
  max_tempo_parado : Q;
  max_largura_frame : Z;
  pessoas_historico : PessoasHistorico.t;
  pessoas_registradas : CaixasObjetos.t;
  frame : option Frame;
  stream : option Objeto;
  detectorPessoas : option Objeto;
  stopped : bool;
  stream_externo : bool;
  modo : string
}.

(** [DetectorPessoasVideo.__init__]: the three checks, in their order,
    each with its message. *)
Definition __init__ (max_tempo_sem_deteccao max_tempo_parado : Q)
    (max_largura_frame : Z) (usar_rastreamento : bool)
  : Excecao + t :=
  if Qltb max_tempo_sem_deteccao 0 then
    inl (ValueError "'max_tempo_sem_deteccao' deve ser um número positivo.")
  else if Qleb max_tempo_parado 0 then
    inl (ValueError
           "'max_tempo_parado' deve ser um número positivo ou zero.")
  else if (max_largura_frame <=? 0)%Z then
    inl (ValueError
           "'max_largura_frame' deve ser um número positivo ou zero.")
  else
    inr (mk usar_rastreamento max_tempo_sem_deteccao max_tempo_parado
            max_largura_frame PessoasHistorico.__init__
            CaixasObjetos.__init__ None None None false false "").

(** The defaults of the parameters of [__init__]. *)
Definition max_tempo_sem_deteccao_padrao : Q := 5.
Definition max_tempo_parado_padrao : Q := 60.
Definition max_largura_frame_padrao : Z := 700.
Definition usar_rastreamento_padrao : bool := false.

(** [recebe_video]; [herda] is the answer of
    [isinstance(stream, AbstractVideoStream)]. *)
Definition recebe_video (self : t) (s : Objeto) (herda : bool)
  : Excecao + t :=
  if negb herda then
    inl (TypeError "Stream deve herdar de 'AbstractVideoStream'.")
  else
    inr (mk (usar_rastreamento self) (max_tempo_sem_deteccao self)
            (max_tempo_parado self) (max_largura_frame self)
            (pessoas_historico self) (pessoas_registradas self)
            (frame self) (Some s) (detectorPessoas self) (stopped self)
            true (modo self)).

(** What [configura_video] and [configura_detector] leave in the object
    when they succeed. *)
Definition com_stream_interno (self : t) (s : Objeto) : t :=
  mk (usar_rastreamento self) (max_tempo_sem_deteccao self)
     (max_tempo_parado self) (max_largura_frame self)
     (pessoas_historico self) (pessoas_registradas self)
     (frame self) (Some s) (detectorPessoas self) (stopped self)
     false (modo self).

Definition com_detector (self : t) (d : Objeto) : t :=
  mk (usar_rastreamento self) (max_tempo_sem_deteccao self)
     (max_tempo_parado self) (max_largura_frame self)
     (pessoas_historico self) (pessoas_registradas self)
     (frame self) (stream self) (Some d) (stopped self)
     (stream_externo self) (modo self).

(** [stop]: [self.stopped = True]. *)
Definition stop (self : t) : t :=
  mk (usar_rastreamento self) (max_tempo_sem_deteccao self)
     (max_tempo_parado self) (max_largura_frame self)
     (pessoas_historico self) (pessoas_registradas self)
     (frame self) (stream self) (detectorPessoas self) true
     (stream_externo self) (modo self).

Definition _frame_tamanho_maximo (self : t) (f : Frame) : Frame :=
  ktools_resize f (Z.min (max_largura_frame self) (shape1 f)).

Definition MAX_TEMPO_ENTRE_REGISTROS : Q := 1.
Definition PERIODO_MINIMO : Q := 7 # 10.

(** The calls on [self.pessoas_registradas], logged. *)
Definition registradas_reiniciar (reg : CaixasObjetos.t)
  : M CaixasObjetos.t :=
  evento EvReiniciar ;;; ret (CaixasObjetos.reiniciar reg).

Definition registradas_atualizar (reg : CaixasObjetos.t)
    (cx : list Caixa) (ps : list Peso) (caixas_paradas : bool)
  : M ((list Caixa * list Peso) * CaixasObjetos.t) :=
  evento (EvAtualizar cx ps caixas_paradas) ;;;
  ret (CaixasObjetos.atualizar reg cx ps caixas_paradas).

(** What the end of an iteration writes to [self]. *)
Definition publica (self : t) (reg : CaixasObjetos.t) (f : Frame)
    (m : string) (hist : PessoasHistorico.t) : t :=
  mk (usar_rastreamento self) (max_tempo_sem_deteccao self)
     (max_tempo_parado self) (max_largura_frame self)
     hist reg (Some f) (stream self) (detectorPessoas self)
     (stopped self) (stream_externo self) m.

(** What line 253 and line 255 have written to [self] by the time they
    return: the registry. *)
Definition com_registradas (self : t) (reg : CaixasObjetos.t) : t :=
  mk (usar_rastreamento self) (max_tempo_sem_deteccao self)
     (max_tempo_parado self) (max_largura_frame self)
     (pessoas_historico self) reg (frame self) (stream self)
     (detectorPessoas self) (stopped self) (stream_externo self)
     (modo self).

(** How one pass through the body of the [while] ends. *)
Inductive Passo :=
| Continua (self : t) (modo_deteccao : ModoDeteccao.t)
| Interrompe (self : t) (modo_deteccao : ModoDeteccao.t)    (* break *)
| Escapa (e : Levantada) (self : t) (modo_deteccao : ModoDeteccao.t).
                                        (* an exception goes through *)

(** How the loop, and [run], are left: normally, or by an exception,
    with [self] as it is then. *)
Inductive Saida (A : Type) :=
| Retorna (a : A)
| Levanta (e : Levantada) (self : t).

Arguments Retorna {A} a.
Arguments Levanta {A} e self.

Definition tab : string := String (Ascii.ascii_of_nat 9) "".
Definition nl : string := String (Ascii.ascii_of_nat 10) "".

(** The branch on [modo] of the loop body: the boxes and confidences of
    this iteration, or [None] when the detector raised (and [run]
    caught it), or the exception that a call on the tracker raised. *)
Definition sensoria (self : t) (modo_deteccao : ModoDeteccao.t)
    (modo : string) (frame : Frame)
  : M (Levantada + option (list Caixa * list Peso)) :=
  if modo =? "detectando" then
    r <- detectar frame ;;
    match r with
    | Detectou caixas pesos => ret (inr (Some (caixas, pesos)))
    | ErroDeteccao nome texto =>
        print ("Erro de detecção:" ++ nl ++ tab ++ "[" ++ nome ++ "]: "
               ++ texto) ;;;
        ret (inr None)
    end
  else if modo =? "rastreando" then
    semeado <-
      (if ModoDeteccao.mudou_modo modo_deteccao then
         r <- chamada (evento EvRastreadorReiniciar) ;;
         match r with
         | inl e => ret (inl e)
         | inr _ =>
             chamada (evento (EvRastreadorAdiciona frame
                                (CaixasObjetos.pega_objetos_sem_peso
                                   (pessoas_registradas self))))
         end
       else ret (inr tt)) ;;
    match semeado with
    | inl e => ret (inl e)
    | inr _ =>
        r <- chamada (rastreador_atualiza frame) ;;
        match r with
        | inl e => ret (inl e)
        | inr caixas => ret (inr (Some (caixas, [])))
        end
    end
  else ret (inr (Some ([], []))).

(** Lines 252 to 264: the end of an iteration that began at
    [tempo_comeco_iteracao], with the boxes and confidences of its
    branch.  An exception finds [self] as the lines before have left
    it. *)
Definition registra_iteracao (self : t) (modo_deteccao : ModoDeteccao.t)
    (tempo_comeco_iteracao : Q) (frame : Frame) (modo : string)
    (caixas : list Caixa) (pesos : list Peso) : M Passo :=
  agora <- time_time ;;
  r <- (if Qgtb (agora - tempo_comeco_iteracao) MAX_TEMPO_ENTRE_REGISTROS
        then chamada (registradas_reiniciar (pessoas_registradas self))
        else ret (inr (pessoas_registradas self))) ;;
  match r with
  | inl e => ret (Escapa e self modo_deteccao)
  | inr reg =>
      r <- chamada (registradas_atualizar reg caixas pesos
                      (modo =? "parado")) ;;
      match r with
      | inl e => ret (Escapa e (com_registradas self reg) modo_deteccao)
      | inr (caixas, pesos, reg) =>
          r <- chamada (PessoasHistorico.atualiza_periodo
                          (pessoas_historico self) (List.length caixas)) ;;
          match r with
          | inl e =>
              ret (Escapa e (publica self reg frame modo
                               (pessoas_historico self))
                          modo_deteccao)
          | inr hist =>
              r <- chamada (evento EvForcePeriod) ;;
              match r with
              | inl e =>
                  ret (Escapa e (publica self reg frame modo hist)
                              modo_deteccao)
              | inr _ =>
                  ret (Continua (publica self reg frame modo hist)
                                modo_deteccao)
              end
          end
      end
  end.

(** The body of the [while] of [run]. *)
Definition iteracao (self : t) (modo_deteccao : ModoDeteccao.t)
  : M Passo :=
  tempo_comeco_iteracao <- time_time ;;
  lido <- stream_read ;;
  match lido with
  | StreamClosedError | StreamStoppedError =>
      print "Não foi possível ler frame." ;;;
      ret (Interrompe self modo_deteccao)
  | OutraExcecao nome texto =>
      ret (Escapa (Levantou nome texto) self modo_deteccao)
  | LeuFrame frame =>
      let frame := _frame_tamanho_maximo self frame in
      ' (modo, modo_deteccao) <- ModoDeteccao.atualiza_modo modo_deteccao ;;
      s <- sensoria self modo_deteccao modo frame ;;
      match s with
      | inl e => ret (Escapa e self modo_deteccao)
      | inr None => ret (Interrompe self modo_deteccao)
      | inr (Some (caixas, pesos)) =>
          registra_iteracao self modo_deteccao tempo_comeco_iteracao
                            frame modo caixas pesos
      end
  end.

(** The [while not self.stopped] of [run], for at most [n] tests of its
    condition; [None] when they are used up.  Another thread may have
    called [stop()] before a test. *)
Fixpoint laco (n : nat) (self : t) (modo_deteccao : ModoDeteccao.t)
  : M (option (Saida (t * ModoDeteccao.t))) :=
  match n with
  | O => ret None
  | S n' =>
      pedida <- parada_externa ;;
      let self := if pedida then stop self else self in
      if stopped self then ret (Some (Retorna (self, modo_deteccao)))
      else
        p <- iteracao self modo_deteccao ;;
        match p with
        | Interrompe self modo_deteccao =>
            ret (Some (Retorna (self, modo_deteccao)))
        | Escapa e self _ => ret (Some (Levanta e self))
        | Continua self modo_deteccao => laco n' self modo_deteccao
        end
  end.

(** What [run] does after the loop. *)
Definition encerra (self : t) : M t :=
  evento EvMovStop ;;;
  (if negb (stream_externo self) then evento EvStreamStop else ret tt) ;;;
  ret (stop self).

(** [run], its loop bounded by [n]: [None] when the bound is used up,
    else how [run] is left. *)
Definition run (n : nat) (self : t) : M (option (Saida t)) :=
  match stream self, detectorPessoas self with
  | Some _, Some _ =>
      evento EvStreamStart ;;;
      time_sleep 2 ;;;
      evento EvMovStart ;;;
      modo_deteccao <- ModoDeteccao.__init__
                         (max_tempo_sem_deteccao self)
                         (max_tempo_parado self) (usar_rastreamento self)
                         ModoDeteccao.max_tempo_sem_atualizar_modo_padrao ;;
      r <- laco n self modo_deteccao ;;
      match r with
      | None => ret None
      | Some (Levanta e self) => ret (Some (Levanta e self))
      | Some (Retorna (self, _)) =>
          self <- encerra self ;; ret (Some (Retorna self))
      end
  | _, _ =>
      print "Erro: stream ou detector de pessoas não configurado." ;;;
      ret (Some (Retorna self))
  end.

End DetectorPessoasVideo.


(** ** What one evaluation of the mode reads

    An evaluation that starts in world [w] reads the clock a first time for
    [checagem_atual], asks the motion detector, reads the clock a second
    time for [parado_demais] and a third time for [sem_detectar_demais].
    The spec's three durations are those readings against the stored
    timestamps. *)

Module Avaliacao.

Import ModoDeteccao.

Definition teve_movimento (w : Mundo.t) : bool :=
  Mundo.movimentos w (Mundo.n_movimentos w).

Definition leitura (k : nat) (w : Mundo.t) : Q :=
  Mundo.relogio w (k + Mundo.n_relogio w).

(** Time since the previous evaluation. *)
Definition delta_check (self : t) (w : Mundo.t) : Q :=
  leitura 0 w - tempo_ultima_checagem self.

(** Time since [tempo_em_que_parou]. *)
Definition delta_stop (self : t) (w : Mundo.t) : Q :=
  leitura 1 w - tempo_em_que_parou self.

(** Time since [tempo_ultima_deteccao]. *)
Definition delta_detect (self : t) (w : Mundo.t) : Q :=
  leitura 2 w - tempo_ultima_deteccao self.

(** What the code computes for [max_tempo_checagem_excedido]: the
    previous check minus the current one, against the threshold. *)
Definition checagem_excedida (self : t) (w : Mundo.t) : Prop :=
  (max_tempo_sem_atualizar_modo self
   < tempo_ultima_checagem self - leitura 0 w)%Q.

(** The mode, the object and the world after one evaluation. *)
Definition modo_apos (self : t) (w : Mundo.t) : string :=
  fst (fst (atualiza_modo self w)).

Definition apos (self : t) (w : Mundo.t) : t :=
  snd (fst (atualiza_modo self w)).

Definition mundo_apos (self : t) (w : Mundo.t) : Mundo.t :=
  snd (atualiza_modo self w).

(** Does the evaluation record the time of a stop, of a detection? *)
Definition entra_parado (self : t) (w : Mundo.t) : bool :=
  (modo_apos self w =? "parado") && negb (modo self =? "parado").

Definition detecta (self : t) (w : Mundo.t) : bool :=
  modo_apos self w =? "detectando".

(** The answer the motion detector gives to the [k]-th next call. *)
Definition movimento (k : nat) (w : Mundo.t) : bool :=
  Mundo.movimentos w (k + Mundo.n_movimentos w).

(** [w'] is [w] after [dr] more clock readings and [dm] more answers of
    the motion detector. *)
Definition adiante (dr dm : nat) (w w' : Mundo.t) : Prop :=
  Mundo.relogio w' = Mundo.relogio w
  /\ Mundo.movimentos w' = Mundo.movimentos w
  /\ Mundo.n_relogio w' = (dr + Mundo.n_relogio w)%nat
  /\ Mundo.n_movimentos w' = (dm + Mundo.n_movimentos w)%nat.

(** The clock of the world never runs backwards. *)
Definition relogio_monotono (w : Mundo.t) : Prop :=
  forall i j : nat, (i <= j)%nat -> (Mundo.relogio w i <= Mundo.relogio w j)%Q.

(** The parameters given to [__init__], which no method changes. *)
Definition config (self : t) : Q * Q * Q * bool :=
  (max_tempo_sem_deteccao self, max_tempo_parado self,
   max_tempo_sem_atualizar_modo self, usar_rastreamento self).

(** [n] evaluations in a row: the modes they return, in order. *)
Fixpoint avalia (n : nat) (self : t) : M (list string * t) :=
  match n with
  | O => ret ([], self)
  | S n' =>
      ' (m, self) <- atualiza_modo self ;;
      ' (ms, self) <- avalia n' self ;;
      ret (m :: ms, self)
  end.

(** A new [ModoDeteccao] and then [n] evaluations. *)
Definition cenario (max_tempo_sem_deteccao max_tempo_parado : Q)
    (usar_rastreamento : bool) (n : nat) : M (list string * t) :=
  self <- __init__ max_tempo_sem_deteccao max_tempo_parado
                   usar_rastreamento max_tempo_sem_atualizar_modo_padrao ;;
  avalia n self.

End Avaliacao.

(** ** Reading the log of [run] *)

Module Registro.

Import DetectorPessoasVideo.

(** Calls on the registry and on the history. *)
Definition de_registro (e : Evento) : bool :=
  match e with
  | EvReiniciar | EvAtualizar _ _ _ | EvAtualizaPeriodo _ => true
  | _ => false
  end.

(** A frame that could not be read, a detection that raised: the two
    failures that [run] catches. *)
Definition de_falha (e : Evento) : bool :=
  match e with
  | EvStreamRead StreamClosedError | EvStreamRead StreamStoppedError
  | EvDetectar _ (ErroDeteccao _ _) => true
  | _ => false
  end.

(** The motion detector or the video stream being stopped. *)
Definition de_encerramento (e : Evento) : bool :=
  match e with
  | EvMovStop | EvStreamStop => true
  | _ => false
  end.

(** Neither a failure nor a stop. *)
Definition corrente (e : Evento) : bool :=
  negb (de_falha e) && negb (de_encerramento e).

(** Did the read raise one of the two exceptions that [run] catches? *)
Definition falhou (r : Leitura) : bool :=
  match r with
  | LeuFrame _ | OutraExcecao _ _ => false
  | StreamClosedError | StreamStoppedError => true
  end.

(** What [run] does to its collaborators after the loop: the motion
    detector is stopped, and the stream too unless it came from outside. *)
Definition fim (self : t) : list Evento :=
  EvMovStop :: (if stream_externo self then [] else [EvStreamStop]).

(** What [run] does before the loop, given the three readings of the
    clock that [ModoDeteccao.__init__] makes. *)
Definition inicio (t1 t2 t3 : Q) : list Evento :=
  [EvStreamStart; EvSleep 2; EvMovStart; EvTime t1; EvTime t2; EvTime t3].

(** Was the iteration that started at [t0] too slow by [t1]? *)
Definition lenta (t0 t1 : Q) : bool :=
  Qgtb (t1 - t0) MAX_TEMPO_ENTRE_REGISTROS.

(** The calls at the end of an iteration that started at [t0]: the
    clock is read ([t1]), the registry is reset if the iteration was too
    slow, the boxes are merged, the count is recorded (at [t2]) and the
    loop is paced. *)
Definition fecho (t0 t1 : Q) (cx : list Caixa) (ps : list Peso)
    (caixas_paradas : bool) (valor : nat) (t2 : Q) : list Evento :=
  EvTime t1
  :: ((if lenta t0 t1 then [EvReiniciar] else [])
      ++ [EvAtualizar cx ps caixas_paradas; EvAtualizaPeriodo valor;
          EvTime t2; EvForcePeriod])%list.

Definition configurado (self : t) : Prop :=
  stream self <> None /\ detectorPessoas self <> None.

End Registro.


(** ** Concrete worlds and objects *)

Module Cenarios.

Import ModoDeteccao Avaliacao.

(** A world that has answered no call yet, and in which the calls that
    no [try] encloses raise nothing. *)
Definition mundo (relogio : nat -> Q) (movimentos : nat -> bool)
    (leituras : nat -> Leitura) (deteccoes : nat -> Deteccao)
    (rastreios : nat -> list Caixa) (paradas : nat -> bool) : Mundo.t :=
  Mundo.mk relogio movimentos leituras deteccoes rastreios paradas
           (fun _ => None) 0 0 0 0 0 0 [].

(** A world for the mode alone: a clock and a motion detector. *)
Definition mundo_modo (relogio : nat -> Q) (movimentos : nat -> bool)
  : Mundo.t :=
  mundo relogio movimentos (fun _ => StreamClosedError)
        (fun _ => Detectou [] []) (fun _ => []) (fun _ => false).

(** Tracking enabled, motion all the time.  The object is built and
    first evaluated at 10 s (readings 0 to 7), evaluated again at 10.5 s
    (readings 8 to 11), and then only at 12.5 s: two seconds without a
    mode check. *)
Definition relogio_tardio (i : nat) : Q :=
  if (i <? 8)%nat then 10 else if (i <? 12)%nat then 105 # 10
  else 125 # 10.

Definition mundo_tardio : Mundo.t := mundo_modo relogio_tardio (fun _ => true).

(** In [rastreando], before the late check. *)
Definition rastreando_tardio : ModoDeteccao.t * Mundo.t :=
  let r := cenario 5 60 true 2 mundo_tardio in (snd (fst r), snd r).

(** The object is built and first evaluated at 10 s, and then only at
    12.5 s. *)
Definition relogio_tardio' (i : nat) : Q :=
  if (i <? 8)%nat then 10 else 125 # 10.

Definition mundo_tardio' : Mundo.t :=
  mundo_modo relogio_tardio' (fun _ => true).

(** In [detectando], before the late check. *)
Definition detectando_tardio : ModoDeteccao.t * Mundo.t :=
  let r := cenario 5 60 true 1 mundo_tardio' in (snd (fst r), snd r).

(** No motion at all; one reading per second from 100 s on. *)
Definition relogio_segundos (i : nat) : Q := 100 + inject_Z (Z.of_nat i).

Definition mundo_quieto : Mundo.t :=
  mundo_modo relogio_segundos (fun _ => false).

(** In [parado], after two evaluations without motion. *)
Definition parado_quieto : ModoDeteccao.t * Mundo.t :=
  let r := cenario 5 60 true 2 mundo_quieto in (snd (fst r), snd r).

(** The defaults of [DetectorPessoasVideo]: no tracking.  Motion all the
    time, one reading per second from 100 s on. *)
Definition mundo_movimentado : Mundo.t :=
  mundo_modo relogio_segundos (fun _ => true).

(** In [detectando], after the first evaluation. *)
Definition detectando_sem_rastreamento : ModoDeteccao.t * Mundo.t :=
  let r := cenario 5 60 false 1 mundo_movimentado in (snd (fst r), snd r).

(** No tracking; motion at the first two checks and none afterwards. *)
Definition mundo_para : Mundo.t :=
  mundo_modo relogio_segundos (fun i => (i <? 2)%nat).

Definition detectando_antes_de_parar : ModoDeteccao.t * Mundo.t :=
  let r := cenario 5 60 false 1 mundo_para in (snd (fst r), snd r).

(** The scenario of the spec: checks 0.1 s apart from 100 s on, each check
    reading the clock within a millisecond, and a fourth check 5 s after
    the first. *)
Definition relogio_cenario (i : nat) : Q :=
  if (i <? 8)%nat then 100
  else if (i <? 12)%nat then 1001 # 10
  else if (i <? 16)%nat then 1002 # 10
  else 105.

Definition mundo_cenario : Mundo.t :=
  mundo_modo relogio_cenario (fun _ => true).

(** A [DetectorPessoasVideo] as [__init__] leaves it with its defaults:
    nothing configured yet. *)
Definition video_novo : DetectorPessoasVideo.t :=
  match DetectorPessoasVideo.__init__ 5 60 700 false with
  | inr self => self
  | inl _ =>
      DetectorPessoasVideo.mk false 5 60 700 PessoasHistorico.__init__
        CaixasObjetos.__init__ None None None false false ""
  end.

(** The same with a stream of its own and a detector, tracking enabled. *)
Definition video_configurado : DetectorPessoasVideo.t :=
  match DetectorPessoasVideo.__init__ 5 60 700 true with
  | inr self =>
      DetectorPessoasVideo.com_detector
        (DetectorPessoasVideo.com_stream_interno self "webcam") "yolo"
  | inl _ => video_novo
  end.

Definition quadro (k : nat) : Frame := mkFrame 480 640 k.

(** Frames arrive until the third read, which finds the stream closed;
    the detector finds one person; nobody calls [stop()]. *)
Definition mundo_stream_fecha : Mundo.t :=
  mundo relogio_segundos (fun _ => true)
        (fun k => if (k <? 2)%nat then LeuFrame (quadro k)
                  else StreamClosedError)
        (fun _ => Detectou [(10, 10, 50, 100)%Z] [9 # 10])
        (fun _ => [(12, 10, 50, 100)%Z]) (fun _ => false).

(** Frames keep arriving; the second detection raises. *)
Definition mundo_detector_falha : Mundo.t :=
  mundo relogio_segundos (fun _ => true)
        (fun k => LeuFrame (quadro k))
        (fun k => if (k <? 1)%nat then Detectou [(10, 10, 50, 100)%Z] [9 # 10]
                  else ErroDeteccao "error" "cv2")
        (fun _ => [(12, 10, 50, 100)%Z]) (fun _ => false).

(** Frames keep arriving, checks are 0.01 s apart; [stop()] is called
    before the third test of the loop. *)
Definition relogio_rapido (i : nat) : Q := 100 + inject_Z (Z.of_nat i) / 100.

Definition mundo_parada : Mundo.t :=
  mundo relogio_rapido (fun _ => true)
        (fun k => LeuFrame (quadro k))
        (fun _ => Detectou [(10, 10, 50, 100)%Z] [9 # 10])
        (fun _ => [(12, 10, 50, 100)%Z]) (fun k => (2 <=? k)%nat).



(** The first pass through the loop of [run] on
    [video_configurado], in a world where frames arrive. *)
Definition modo_inicial : ModoDeteccao.t :=
  fst (ModoDeteccao.__init__ 5 60 true 1 mundo_parada).

Definition mundo_inicial : Mundo.t :=
  snd (ModoDeteccao.__init__ 5 60 true 1 mundo_parada).

Definition primeira_iteracao : DetectorPessoasVideo.Passo * Mundo.t :=
  DetectorPessoasVideo.iteracao video_configurado modo_inicial
                                mundo_inicial.

End Cenarios.


(** ** Sequences of evaluations *)

Module Sequencia.

Import ModoDeteccao Avaliacao.

(** None of the three timestamps kept in the object is later than the
    next reading of the clock. *)
Definition em_dia (self : t) (w : Mundo.t) : Prop :=
  (tempo_em_que_parou self <= leitura 0 w)%Q
  /\ (tempo_ultima_deteccao self <= leitura 0 w)%Q
  /\ (tempo_ultima_checagem self <= leitura 0 w)%Q.

(** The mode [m] does not occur twice in a row in [l]. *)
Fixpoint sem_repetir (m : string) (l : list string) : Prop :=
  match l with
  | a :: (b :: _) as resto =>
      ~ (a = m /\ b = m) /\ sem_repetir m resto
  | _ => True
  end.

(** The object and the world after [n] evaluations. *)
Definition objeto_apos (n : nat) (self : t) (w : Mundo.t) : t :=
  snd (fst (avalia n self w)).

Definition mundo_depois (n : nat) (self : t) (w : Mundo.t) : Mundo.t :=
  snd (avalia n self w).

Definition modos (n : nat) (self : t) (w : Mundo.t) : list string :=
  fst (fst (avalia n self w)).

End Sequencia.

(** ** Counting the calls of an iteration *)

Module Chamadas.

Import DetectorPessoasVideo.

(** The calls logged between world [w] and a later world [w']. *)
Definition novos (w w' : Mundo.t) : list Evento :=
  skipn (List.length (Mundo.eventos w)) (Mundo.eventos w').

Definition quantos (p : Evento -> bool) (l : list Evento) : nat :=
  List.length (filter p l).

Definition de_relogio_ou_movimento (e : Evento) : bool :=
  match e with
  | EvTime _ | EvMovMudanca _ => true
  | _ => false
  end.

Definition de_leitura (e : Evento) : bool :=
  match e with
  | EvStreamRead _ => true
  | _ => false
  end.

Definition de_detector (e : Evento) : bool :=
  match e with
  | EvDetectar _ _ => true
  | _ => false
  end.

(** The tracker being advanced. *)
Definition de_rastreio (e : Evento) : bool :=
  match e with
  | EvRastreadorAtualiza _ _ => true
  | _ => false
  end.

(** The tracker being reset and given boxes to follow. *)
Definition de_semeadura (e : Evento) : bool :=
  match e with
  | EvRastreadorReiniciar | EvRastreadorAdiciona _ _ => true
  | _ => false
  end.

Definition de_stream_stop (e : Evento) : bool :=
  match e with
  | EvStreamStop => true
  | _ => false
  end.

(** The calls the branch on the mode makes, in world [w], when none of
    them lets an exception through: the detector in [detectando] (and a
    message if it raises), the tracker in [rastreando] (reset and seeded
    first if the mode has just changed), nothing otherwise. *)
Definition chamadas_sensoria (self : t) (md : ModoDeteccao.t)
    (m : string) (f : Frame) (w : Mundo.t) : list Evento :=
  if m =? "detectando" then
    let r := Mundo.deteccoes w (Mundo.n_deteccoes w) in
    EvDetectar f r
    :: match r with
       | Detectou _ _ => []
       | ErroDeteccao nome texto =>
           [EvPrint ("Erro de detecção:" ++ nl ++ tab ++ "[" ++ nome
                     ++ "]: " ++ texto)]
       end
  else if m =? "rastreando" then
    ((if ModoDeteccao.mudou_modo md
      then [EvRastreadorReiniciar;
            EvRastreadorAdiciona f
              (CaixasObjetos.pega_objetos_sem_peso
                 (pessoas_registradas self))]
      else [])
     ++ [EvRastreadorAtualiza f (Mundo.rastreios w (Mundo.n_rastreios w))])%list
  else [].

Definition de_atualizar (e : Evento) : bool :=
  match e with
  | EvAtualizar _ _ _ => true
  | _ => false
  end.

(** The [modo_deteccao] and the [self] a pass through the loop body
    leaves. *)
Definition modo_do_passo (p : Passo) : ModoDeteccao.t :=
  match p with
  | Continua _ md => md
  | Interrompe _ md => md
  | Escapa _ _ md => md
  end.

Definition self_do_passo (p : Passo) : t :=
  match p with
  | Continua self _ => self
  | Interrompe self _ => self
  | Escapa _ self _ => self
  end.

Definition de_rastreador (e : Evento) : bool :=
  de_semeadura e || de_rastreio e.

(** The world after an iteration that starts in [w] has read the clock
    and the frame. *)
Definition apos_leitura (w : Mundo.t) : Mundo.t :=
  Mundo.registra
    (EvStreamRead (Mundo.leituras w (Mundo.n_leituras w)))
    (Mundo.avanca_leituras
       (Mundo.registra (EvTime (Mundo.relogio w (Mundo.n_relogio w)))
                       (Mundo.avanca_relogio w))).

(** What the branch on the mode then hands to the registry: the answer
    of the detector in [detectando] (nothing if it raises), the answer of
    the tracker and no confidence in [rastreando], no box otherwise. *)
Definition resultado_sensoria (m : string) (w : Mundo.t)
  : option (list Caixa * list Peso) :=
  if m =? "detectando" then
    match Mundo.deteccoes w (Mundo.n_deteccoes w) with
    | Detectou caixas pesos => Some (caixas, pesos)
    | ErroDeteccao _ _ => None
    end
  else if m =? "rastreando" then
    Some (Mundo.rastreios w (Mundo.n_rastreios w), [])
  else Some ([], []).



End Chamadas.

(** ** Configuring the video input *)

(** The exceptions [configura_video] lets through by name. *)
Inductive ErroStream :=
| ImportError
| CannotOpenStreamError.

Module Configuracao.

Import DetectorPessoasVideo.

(** [DetectorPessoasVideo.configura_video]; [aberto] is the outcome of
    [VideoStream(tipo, **keywords)], of [videolib], which is not among
    the sources: the stream, or the exception it raised. *)
Definition configura_video (self : t) (aberto : ErroStream + Objeto)
  : M (ErroStream + t) :=
  match aberto with
  | inl e => ret (inl e)
  | inr s =>
      let self := com_stream_interno self s in
      time_sleep 2 ;;;
      ret (inr self)
  end.

End Configuracao.

(** ** More concrete worlds *)

Module Cenarios2.

Import DetectorPessoasVideo.

(** The object, the mode and the world after
    [Cenarios.primeira_iteracao]. *)
Definition apos_primeira
  : DetectorPessoasVideo.t * ModoDeteccao.t * Mundo.t :=
  match Cenarios.primeira_iteracao with
  | (Continua self md, w) => (self, md, w)
  | (Interrompe self md, w) => (self, md, w)
  | (Escapa _ self md, w) => (self, md, w)
  end.

Definition self1 : DetectorPessoasVideo.t := fst (fst apos_primeira).
Definition md1 : ModoDeteccao.t := snd (fst apos_primeira).
Definition w1 : Mundo.t := snd apos_primeira.

(** The second pass through the loop: the mode becomes [rastreando]. *)
Definition segunda_iteracao : Passo * Mundo.t := iteracao self1 md1 w1.

End Cenarios2.


(** ** class DetectorPessoas, of [deteccao_pessoas_lib/detector_pessoas.py] *)

Module DetectorPessoas.

(** What the class takes from outside: [os.path], [os.getcwd], and the
    constructor of [DetectorObjetosYolo], which is not among the sources
    and returns the detector or raises (type name and text). *)
Record Ambiente := mkAmbiente {
  isdir : string -> bool;
  getcwd : string;
  join : string -> string -> string;
  abspath : string -> string;
  DetectorObjetosYolo :
    string -> list string -> Q -> Q -> (string * string) + Objeto
}.

Definition DEFAULT_PRECISAO_DETECCAO : Q := 4 # 10.
Definition DEFAULT_SUPRESSAO_DETECCAO : Q := 3 # 10.

(** What [__init__] raises: its own [ValueError], or what the
    constructor of the yolo detector raised. *)
Inductive Erro :=
| ErroValor (e : Excecao)
| ErroModelo (nome texto : string).

Record t := mk {
  detector : Objeto
}.

Definition __init__ (amb : Ambiente) (path_modelo tipo_modelo : string)
    (precisao supressao : Q) : Erro + t :=
  let path_modelo :=
    if negb (isdir amb path_modelo)
    then join amb (getcwd amb) path_modelo
    else path_modelo in
  let path_modelo := abspath amb path_modelo in
  if tipo_modelo =? "yolo" then
    match DetectorObjetosYolo amb path_modelo ["person"] precisao
                              supressao with
    | inr d => inr (mk d)
    | inl (nome, texto) => inl (ErroModelo nome texto)
    end
  else inl (ErroValor (ValueError "Tipo do modelo invalido.")).

(** The dictionary [self.detector.detectar(img)] returns: for each label,
    boxes and confidences. *)
Definition Rotulados : Type := list (string * (list Caixa * list Peso)).

(** [d[chave]] *)
Fixpoint consulta (d : Rotulados) (chave : string)
  : option (list Caixa * list Peso) :=
  match d with
  | [] => None
  | (k, v) :: resto => if k =? chave then Some v else consulta resto chave
  end.

Definition aspas : string := String (Ascii.ascii_of_nat 39) "".

(** [detectar]: the entry of the dictionary for ['person'];
    [resposta] is what [self.detector.detectar(input_image)] did: the
    dictionary, or the exception raised.  A missing key is a [KeyError],
    whose text is the key between quotes. *)
Definition detectar (resposta : (string * string) + Rotulados) : Deteccao :=
  match resposta with
  | inl (nome, texto) => ErroDeteccao nome texto
  | inr d =>
      match consulta d "person" with
      | Some (caixas, precisoes) => Detectou caixas precisoes
      | None => ErroDeteccao "KeyError" (aspas ++ "person" ++ aspas)
      end
  end.

End DetectorPessoas.

(** ** class BaseDetectorPessoas, of
       [pessoas_lib/detector_pessoas_lib/detector_pessoas_base.py] *)

Module BaseDetectorPessoas.

Record t := mk {
  precisao_minima : Q;
  supressao_caixas : Q
}.

Definition DEFAULT_PRECISAO_DETECCAO : Q := 1 # 2.
Definition DEFAULT_SUPRESSAO_DETECCAO : Q := 1 # 2.

Definition __init__ (precisao_minima supressao_caixas : Q) : t :=
  mk precisao_minima supressao_caixas.

(** The two abstract methods: what a subclass must provide. *)
Class Subclasse (Img Dados : Type) := {
  _analisa_imagem : t -> Img -> Dados;
  _seleciona_pessoas : t -> Img -> Dados -> list Caixa * list Peso
}.

(** The two functions of [imagelib.ktools] the class calls; [ktools] is
    not among the sources.  Both are taken to return, and
    [non_maxima_suppression] to return the indices to keep as a flat
    list of integers. *)
Class Ktools (Img : Type) := {
  draw_rectangles : Img -> list (Caixa * Peso) -> Img;
  non_maxima_suppression :
    list Caixa -> list Peso -> Q -> Q -> list Z
}.

Definition detecta_pessoas {Img Dados : Type} `{Subclasse Img Dados}
    `{Ktools Img} (self : t) (img : Img) (desenha_retangulos : bool)
  : Img * list (Caixa * Peso) :=
  let dados_relevantes := _analisa_imagem self img in
  let (caixas, precisoes) := _seleciona_pessoas self img dados_relevantes in
  let caixas_com_peso := combine caixas precisoes in
  if desenha_retangulos then
    let nova_img := draw_rectangles img caixas_com_peso in
    (nova_img, caixas_com_peso)
  else (img, caixas_com_peso).

(** What reading a list at an integer index can raise. *)
Inductive ErroIndice :=
| IndexError (msg : string).

(** [l[i]] on a Python list: a negative index counts from the end. *)
Definition item {A : Type} (l : list A) (i : Z) : ErroIndice + A :=
  let n := Z.of_nat (List.length l) in
  let j := if (i <? 0)%Z then (i + n)%Z else i in
  if ((j <? 0) || (n <=? j))%Z then
    inl (IndexError "list index out of range")
  else
    match nth_error l (Z.to_nat j) with
    | Some a => inr a
    | None => inl (IndexError "list index out of range")
    end.

(** [[l[i] for i in idxs]] *)
Fixpoint itens {A : Type} (l : list A) (idxs : list Z)
  : ErroIndice + list A :=
  match idxs with
  | [] => inr []
  | i :: resto =>
      match item l i with
      | inl e => inl e
      | inr a =>
          match itens l resto with
          | inl e => inl e
          | inr t => inr (a :: t)
          end
      end
  end.

Definition _non_maxima_suppression {Img : Type} `{Ktools Img} (self : t)
    (caixas : list Caixa) (precisoes : list Peso)
  : ErroIndice + (list Caixa * list Peso) :=
  let idxs := non_maxima_suppression caixas precisoes
                (precisao_minima self) (supressao_caixas self) in
  match itens caixas idxs with
  | inl e => inl e
  | inr caixas =>
      match itens precisoes idxs with
      | inl e => inl e
      | inr precisoes => inr (caixas, precisoes)
      end
  end.

(** Is [i] an index of a list of length [n]? *)
Definition indice_valido (n : nat) (i : Z) : Prop :=
  (- Z.of_nat n <= i < Z.of_nat n)%Z.

End BaseDetectorPessoas.

Module Cenarios3.

Import BaseDetectorPessoas.

(** A subclass on frames: the analysis finds two boxes, the selection
    returns them with three confidences (one too many). *)
#[local] Instance subclasse_fixa : Subclasse Frame nat := {
  _analisa_imagem := fun _ f => conteudo f;
  _seleciona_pessoas := fun _ _ _ =>
    ([(0, 0, 10, 20)%Z; (5, 5, 10, 20)%Z], [9 # 10; 8 # 10; 1 # 10])
}.

(** [ktools]: drawing leaves the frame alone; the suppression keeps the
    indices of the confidences that reach the minimum. *)
Fixpoint indices_acima (k : Z) (ps : list Peso) (minimo : Q) : list Z :=
  match ps with
  | [] => []
  | p :: resto =>
      if Qgeb p minimo then k :: indices_acima (k + 1) resto minimo
      else indices_acima (k + 1) resto minimo
  end.

#[local] Instance ktools_fixo : Ktools Frame := {
  draw_rectangles := fun f _ => f;
  non_maxima_suppression := fun _ ps minimo _ => indices_acima 0 ps minimo
}.

(** An environment in which the model directory does not exist and the
    yolo constructor succeeds. *)
Definition ambiente : DetectorPessoas.Ambiente :=
  DetectorPessoas.mkAmbiente
    (fun _ => false) "/home/lcc"
    (fun a b => a ++ "/" ++ b) (fun p => p)
    (fun path _ _ _ => inr ("yolo:" ++ path)).

(** The inner detector answers with a dictionary that has cars only;
    frames keep arriving. *)
Definition so_carros : DetectorPessoas.Rotulados :=
  [("car", ([(1, 2, 30, 20)%Z], [7 # 10]))].

Definition mundo_sem_rotulo : Mundo.t :=
  Cenarios.mundo Cenarios.relogio_rapido (fun _ => true)
    (fun k => LeuFrame (Cenarios.quadro k))
    (fun _ => DetectorPessoas.detectar (inr so_carros))
    (fun _ => []) (fun _ => false).

Definition modo_novo : ModoDeteccao.t :=
  fst (ModoDeteccao.__init__ 5 60 true 1 mundo_sem_rotulo).

Definition mundo_novo : Mundo.t :=
  snd (ModoDeteccao.__init__ 5 60 true 1 mundo_sem_rotulo).

End Cenarios3.


(** * Properties of [ModoDeteccao] *)

Section ComparacoesQ.

Lemma Qgeb_true (a b : Q) : Qgeb a b = true <-> (b <= a)%Q.
Proof. unfold Qgeb. apply Qle_bool_iff. Qed.

Lemma Qgeb_false (a b : Q) : Qgeb a b = false <-> (a < b)%Q.
Proof.
  unfold Qgeb. split; intro H.
  - apply Qnot_le_lt. intro Hle. apply Qle_bool_iff in Hle. congruence.
  - destruct (Qle_bool b a) eqn:E; [|reflexivity].
    apply Qle_bool_iff in E. exfalso. apply (Qlt_not_le _ _ H E).
Qed.

Lemma Qgtb_true (a b : Q) : Qgtb a b = true <-> (b < a)%Q.
Proof.
  unfold Qgtb. rewrite negb_true_iff. apply (Qgeb_false b a).
Qed.

Lemma Qgtb_false (a b : Q) : Qgtb a b = false <-> (a <= b)%Q.
Proof.
  unfold Qgtb. rewrite negb_false_iff. apply Qle_bool_iff.
Qed.

Lemma Qltb_true (a b : Q) : Qltb a b = true <-> (a < b)%Q.
Proof. apply (Qgtb_true b a). Qed.

Lemma Qltb_false (a b : Q) : Qltb a b = false <-> (b <= a)%Q.
Proof. apply (Qgtb_false b a). Qed.

Lemma Qleb_true (a b : Q) : Qleb a b = true <-> (a <= b)%Q.
Proof. apply Qle_bool_iff. Qed.

Lemma Qleb_false (a b : Q) : Qleb a b = false <-> (b < a)%Q.
Proof. apply (Qgeb_false b a). Qed.

End ComparacoesQ.

Section UmaAvaliacao.

Import ModoDeteccao Avaliacao.

Variable self : ModoDeteccao.t.
Variable w : Mundo.t.

(** The four conditions of [atualiza_modo], on what the evaluation reads. *)
Let parado_demais := Qgeb (delta_stop self w) (max_tempo_parado self).
Let sem_detectar_demais :=
  Qgeb (delta_detect self w) (max_tempo_sem_deteccao self).
Let max_tempo_checagem_excedido :=
  Qgtb (tempo_ultima_checagem self - leitura 0 w)
       (max_tempo_sem_atualizar_modo self).

Lemma modo_apos_eq :
  modo_apos self w =
  escolhe_modo self (modo self) (teve_movimento w) parado_demais
               sem_detectar_demais max_tempo_checagem_excedido.
Proof.
  unfold modo_apos, atualiza_modo, bind, time_time, houve_mudanca, ret.
  cbn.
  repeat match goal with
         | |- context [if ?b then _ else _] => destruct b
         end; reflexivity.
Qed.

(** Unfolds one evaluation and splits on the tests it makes after the
    mode is chosen. *)
Ltac roda :=
  unfold entra_parado, detecta; rewrite ?modo_apos_eq;
  unfold parado_demais, sem_detectar_demais, max_tempo_checagem_excedido,
    delta_stop, delta_detect, teve_movimento,
    modo_apos, apos, mundo_apos, atualiza_modo,
    bind, time_time, houve_mudanca, ret, leitura;
  cbn -[andb orb escolhe_modo];
  let m := fresh "m" in
  match goal with
  | |- context [escolhe_modo ?a ?b ?c ?d ?e ?f] =>
      generalize (escolhe_modo a b c d e f); intros m
  end;
  destruct (m =? "parado") eqn:Ep;
  destruct (modo self =? "parado") eqn:Ea;
  destruct (m =? "detectando") eqn:Ed;
  cbn; try reflexivity.

Lemma modo_de_apos : modo (apos self w) = modo_apos self w.
Proof. roda. Qed.

Lemma modo_anterior_de_apos : modo_anterior (apos self w) = modo self.
Proof. roda. Qed.

Lemma config_de_apos :
  max_tempo_sem_deteccao (apos self w) = max_tempo_sem_deteccao self /\
  max_tempo_parado (apos self w) = max_tempo_parado self /\
  max_tempo_sem_atualizar_modo (apos self w)
    = max_tempo_sem_atualizar_modo self /\
  usar_rastreamento (apos self w) = usar_rastreamento self.
Proof. roda; repeat split. Qed.

Lemma tempo_em_que_parou_de_apos :
  tempo_em_que_parou (apos self w) =
  if entra_parado self w then leitura 3 w else tempo_em_que_parou self.
Proof. roda. Qed.

Lemma entra_parado_nao_detecta :
  entra_parado self w = true -> detecta self w = false.
Proof.
  unfold entra_parado, detecta. intros H.
  apply andb_true_iff in H. destruct H as [H _].
  apply String.eqb_eq in H. rewrite H. reflexivity.
Qed.

Lemma tempo_ultima_deteccao_de_apos :
  tempo_ultima_deteccao (apos self w) =
  if detecta self w then leitura 3 w else tempo_ultima_deteccao self.
Proof.
  roda. apply String.eqb_eq in Ep, Ed. congruence.
Qed.

Lemma tempo_ultima_checagem_de_apos :
  tempo_ultima_checagem (apos self w) =
  if entra_parado self w || detecta self w then leitura 4 w
  else leitura 3 w.
Proof. roda. Qed.

Lemma n_relogio_de_apos :
  Mundo.n_relogio (mundo_apos self w) =
  ((if entra_parado self w || detecta self w then 5 else 4)
   + Mundo.n_relogio w)%nat.
Proof. roda. Qed.

Lemma oraculos_de_apos :
  Mundo.relogio (mundo_apos self w) = Mundo.relogio w /\
  Mundo.movimentos (mundo_apos self w) = Mundo.movimentos w /\
  Mundo.n_movimentos (mundo_apos self w) = S (Mundo.n_movimentos w).
Proof. roda; repeat split. Qed.

(** An evaluation only reads the clock and asks the motion detector. *)
Lemma eventos_de_apos :
  exists evs : list Evento,
    Mundo.eventos (mundo_apos self w) = (Mundo.eventos w ++ evs)%list
    /\ Forall (fun e => Registro.corrente e = true
                        /\ Registro.de_registro e = false) evs.
Proof.
  roda; rewrite <- !app_assoc; eexists; (split; [reflexivity|]);
    repeat constructor.
Qed.

Lemma leituras_de_apos :
  Mundo.leituras (mundo_apos self w) = Mundo.leituras w
  /\ Mundo.n_leituras (mundo_apos self w) = Mundo.n_leituras w.
Proof. roda; split; reflexivity. Qed.

Lemma excecoes_de_apos :
  Mundo.excecoes (mundo_apos self w) = Mundo.excecoes w.
Proof. roda; reflexivity. Qed.

End UmaAvaliacao.

Section Transicoes.

Import ModoDeteccao Avaliacao.

Variable self : ModoDeteccao.t.
Variable w : Mundo.t.

(** With a clock that did not run backwards since the previous check and
    a threshold that is not negative, the condition never holds. *)
Lemma checagem_nunca_excedida :
  (tempo_ultima_checagem self <= leitura 0 w)%Q ->
  (0 <= max_tempo_sem_atualizar_modo self)%Q ->
  Qgtb (tempo_ultima_checagem self - leitura 0 w)
       (max_tempo_sem_atualizar_modo self) = false.
Proof.
  intros Hrel Hmax. apply Qgtb_false. lra.
Qed.

Lemma de_detectando :
  modo self = "detectando" ->
  modo_apos self w =
  if negb (teve_movimento w) then "parado"
  else if negb (usar_rastreamento self)
          || Qgtb (tempo_ultima_checagem self - leitura 0 w)
                  (max_tempo_sem_atualizar_modo self)
       then "detectando" else "rastreando".
Proof.
  intros H. rewrite modo_apos_eq. unfold escolhe_modo. rewrite H.
  reflexivity.
Qed.

Lemma de_parado :
  modo self = "parado" ->
  modo_apos self w =
  if teve_movimento w
     || Qgeb (delta_stop self w) (max_tempo_parado self)
  then "detectando" else "parado".
Proof.
  intros H. rewrite modo_apos_eq. unfold escolhe_modo. rewrite H.
  reflexivity.
Qed.

Lemma de_rastreando :
  modo self = "rastreando" ->
  modo_apos self w =
  if negb (teve_movimento w)
     || Qgeb (delta_detect self w) (max_tempo_sem_deteccao self)
     || Qgtb (tempo_ultima_checagem self - leitura 0 w)
             (max_tempo_sem_atualizar_modo self)
  then "detectando" else "rastreando".
Proof.
  intros H. rewrite modo_apos_eq. unfold escolhe_modo. rewrite H.
  reflexivity.
Qed.

Lemma de_outro :
  modo self <> "detectando" -> modo self <> "parado" ->
  modo self <> "rastreando" ->
  modo_apos self w = "detectando".
Proof.
  intros Hd Hp Hr. rewrite modo_apos_eq. unfold escolhe_modo.
  apply String.eqb_neq in Hd, Hp, Hr. rewrite Hd, Hp, Hr. reflexivity.
Qed.

(** The code's rule for [rastreando], condition by condition. *)
Lemma rastreando_transicao :
  modo self = "rastreando" ->
  (modo_apos self w = "detectando" <->
   teve_movimento w = false
   \/ (max_tempo_sem_deteccao self <= delta_detect self w)%Q
   \/ checagem_excedida self w)
  /\ (modo_apos self w <> "detectando" -> modo_apos self w = "rastreando").
Proof.
  intros H. rewrite (de_rastreando H). unfold checagem_excedida.
  destruct (teve_movimento w); cbn.
  - destruct (Qgeb (delta_detect self w) _) eqn:Ed; cbn.
    + apply Qgeb_true in Ed. split; [|congruence].
      split; auto.
    + apply Qgeb_false in Ed.
      destruct (Qgtb _ _) eqn:Ec.
      * apply Qgtb_true in Ec. split; [|congruence]. split; auto.
      * apply Qgtb_false in Ec. split; [|reflexivity].
        split; [discriminate|].
        intros [Hf|[Hf|Hf]]; [discriminate| |]; exfalso; lra.
  - split; [|congruence]. split; auto.
Qed.

(** The code's rule for [detectando], condition by condition. *)
Lemma detectando_transicao :
  modo self = "detectando" ->
  (teve_movimento w = false -> modo_apos self w = "parado")
  /\ (teve_movimento w = true ->
      usar_rastreamento self = false \/ checagem_excedida self w ->
      modo_apos self w = "detectando")
  /\ (teve_movimento w = true -> usar_rastreamento self = true ->
      ~ checagem_excedida self w ->
      modo_apos self w = "rastreando").
Proof.
  intros H. rewrite (de_detectando H). unfold checagem_excedida.
  repeat split.
  - intros ->. reflexivity.
  - intros -> [->|Hc]; cbn; [reflexivity|].
    apply Qgtb_true in Hc. rewrite Hc, orb_true_r. reflexivity.
  - intros -> -> Hc. cbn.
    destruct (Qgtb _ _) eqn:Ec; [|reflexivity].
    apply Qgtb_true in Ec. contradiction.
Qed.

Lemma escolhe_modo_tres :
  modo_apos self w = "detectando" \/ modo_apos self w = "rastreando"
  \/ modo_apos self w = "parado".
Proof.
  rewrite modo_apos_eq. unfold escolhe_modo.
  destruct (modo self =? "detectando").
  { repeat match goal with
           | |- context [if ?b then _ else _] => destruct b
           end; auto. }
  destruct (modo self =? "parado").
  { repeat match goal with
           | |- context [if ?b then _ else _] => destruct b
           end; auto. }
  destruct (modo self =? "rastreando") eqn:Er; [|auto].
  apply String.eqb_eq in Er.
  repeat match goal with
         | |- context [if ?b then _ else _] => destruct b
         end; auto.
Qed.

End Transicoes.

Section Sequencias.

Import ModoDeteccao Avaliacao.

Lemma atualiza_modo_par (self : ModoDeteccao.t) (w : Mundo.t) :
  atualiza_modo self w = ((modo_apos self w, apos self w), mundo_apos self w).
Proof.
  unfold modo_apos, apos, mundo_apos.
  destruct (atualiza_modo self w) as [[m s] w']. reflexivity.
Qed.

Lemma avalia_S (k : nat) (self : ModoDeteccao.t) (w : Mundo.t) :
  avalia (S k) self w =
  let r := avalia k (apos self w) (mundo_apos self w) in
  ((modo_apos self w :: fst (fst r), snd (fst r)), snd r).
Proof.
  cbn [avalia]. unfold bind at 1. rewrite atualiza_modo_par.
  unfold bind, ret.
  destruct (avalia k (apos self w) (mundo_apos self w)) as [[ms s] w'].
  reflexivity.
Qed.

Lemma mundo_apos_adiante (self : ModoDeteccao.t) (w : Mundo.t) :
  adiante (if entra_parado self w || detecta self w then 5 else 4) 1
          w (mundo_apos self w).
Proof.
  unfold adiante. rewrite n_relogio_de_apos.
  destruct (oraculos_de_apos self w) as (Hr & Hm & Hn).
  rewrite Hr, Hm, Hn. repeat split.
Qed.

Lemma leitura_adiante (dr dm k : nat) (w w' : Mundo.t) :
  adiante dr dm w w' -> leitura k w' = leitura (k + dr) w.
Proof.
  intros (Hr & _ & Hn & _). unfold leitura. rewrite Hr, Hn.
  f_equal. lia.
Qed.

Lemma movimento_adiante (dr dm k : nat) (w w' : Mundo.t) :
  adiante dr dm w w' -> movimento k w' = movimento (k + dm) w.
Proof.
  intros (_ & Hm & _ & Hn). unfold movimento. rewrite Hm, Hn.
  f_equal. lia.
Qed.

Lemma adiante_trans (dr1 dm1 dr2 dm2 : nat) (w1 w2 w3 : Mundo.t) :
  adiante dr1 dm1 w1 w2 -> adiante dr2 dm2 w2 w3 ->
  adiante (dr2 + dr1) (dm2 + dm1) w1 w3.
Proof.
  intros (Hr1 & Hm1 & Hn1 & Hk1) (Hr2 & Hm2 & Hn2 & Hk2).
  unfold adiante. rewrite Hr2, Hm2, Hn2, Hk2, Hr1, Hm1, Hn1, Hk1.
  repeat split; lia.
Qed.

(** Evaluations that do not return [detectando] leave
    [tempo_ultima_deteccao] alone. *)
Lemma sem_deteccao_preserva (k : nat) :
  forall (self : ModoDeteccao.t) (w : Mundo.t),
    Forall (fun m => m <> "detectando") (fst (fst (avalia k self w))) ->
    tempo_ultima_deteccao (snd (fst (avalia k self w)))
    = tempo_ultima_deteccao self.
Proof.
  induction k as [|k IH]; intros self w H.
  - reflexivity.
  - rewrite avalia_S in *. cbn in *.
    inversion H as [|m ms Hm Hms]; subst.
    rewrite (IH _ _ Hms), tempo_ultima_deteccao_de_apos.
    unfold detecta. apply String.eqb_neq in Hm. rewrite Hm. reflexivity.
Qed.

Lemma config_de_apos_eq (self : ModoDeteccao.t) (w : Mundo.t) :
  config (apos self w) = config self.
Proof.
  unfold config. destruct (config_de_apos self w) as (-> & -> & -> & ->).
  reflexivity.
Qed.

Lemma config_campos (self : ModoDeteccao.t) (a b c : Q) (d : bool) :
  config self = (a, b, c, d) ->
  max_tempo_sem_deteccao self = a /\ max_tempo_parado self = b
  /\ max_tempo_sem_atualizar_modo self = c /\ usar_rastreamento self = d.
Proof. unfold config. intros H. inversion H. auto. Qed.

Lemma init_adiante (sd mp : Q) (ur : bool) (mc : Q) (w : Mundo.t) :
  adiante 3 0 w (snd (__init__ sd mp ur mc w)).
Proof. unfold adiante. cbn. repeat split. Qed.

Lemma cenario_eq (sd mp : Q) (ur : bool) (n : nat) (w : Mundo.t) :
  cenario sd mp ur n w =
  avalia n (fst (__init__ sd mp ur max_tempo_sem_atualizar_modo_padrao w))
           (snd (__init__ sd mp ur max_tempo_sem_atualizar_modo_padrao w)).
Proof.
  unfold cenario, bind.
  destruct (__init__ sd mp ur max_tempo_sem_atualizar_modo_padrao w).
  reflexivity.
Qed.

Lemma leitura_monotona (w : Mundo.t) (i j : nat) :
  relogio_monotono w -> (i <= j)%nat -> (leitura i w <= leitura j w)%Q.
Proof. intros H Hij. apply H. lia. Qed.

(** An evaluation that returns [detectando]: what it leaves. *)
Lemma passo_detecta (self : ModoDeteccao.t) (w : Mundo.t) :
  modo_apos self w = "detectando" ->
  modo (apos self w) = "detectando"
  /\ tempo_ultima_deteccao (apos self w) = leitura 3 w
  /\ tempo_ultima_checagem (apos self w) = leitura 4 w
  /\ config (apos self w) = config self
  /\ adiante 5 1 w (mundo_apos self w).
Proof.
  intros H.
  assert (Hd : detecta self w = true) by (unfold detecta; now rewrite H).
  pose proof (mundo_apos_adiante self w) as Ha.
  rewrite modo_de_apos, tempo_ultima_deteccao_de_apos,
    tempo_ultima_checagem_de_apos, config_de_apos_eq.
  rewrite Hd, orb_true_r in *. auto.
Qed.

(** An evaluation that returns [rastreando]: what it leaves. *)
Lemma passo_rastreia (self : ModoDeteccao.t) (w : Mundo.t) :
  modo_apos self w = "rastreando" ->
  modo (apos self w) = "rastreando"
  /\ tempo_ultima_deteccao (apos self w) = tempo_ultima_deteccao self
  /\ tempo_ultima_checagem (apos self w) = leitura 3 w
  /\ config (apos self w) = config self
  /\ adiante 4 1 w (mundo_apos self w).
Proof.
  intros H.
  assert (Hd : detecta self w = false) by (unfold detecta; now rewrite H).
  assert (He : entra_parado self w = false)
    by (unfold entra_parado; now rewrite H).
  pose proof (mundo_apos_adiante self w) as Ha.
  rewrite modo_de_apos, tempo_ultima_deteccao_de_apos,
    tempo_ultima_checagem_de_apos, config_de_apos_eq.
  rewrite Hd, He in *. auto.
Qed.

(** With tracking enabled, motion, a clock that has not run backwards
    and, when already tracking, a recent enough detection, the evaluation
    returns [rastreando]. *)
Lemma rastreia (self : ModoDeteccao.t) (w : Mundo.t) :
  modo self = "detectando"
  \/ (modo self = "rastreando"
      /\ (delta_detect self w < max_tempo_sem_deteccao self)%Q) ->
  usar_rastreamento self = true ->
  (0 <= max_tempo_sem_atualizar_modo self)%Q ->
  (tempo_ultima_checagem self <= leitura 0 w)%Q ->
  teve_movimento w = true ->
  modo_apos self w = "rastreando".
Proof.
  intros Hm Hur Hmax Hrel Hmov.
  pose proof (checagem_nunca_excedida self w Hrel Hmax) as Hc.
  destruct Hm as [Hm|[Hm Hdet]].
  - rewrite (de_detectando self w Hm), Hmov, Hur, Hc. reflexivity.
  - rewrite (de_rastreando self w Hm), Hmov, Hc.
    apply Qgeb_false in Hdet. rewrite Hdet. reflexivity.
Qed.

End Sequencias.

Section Afirmacoes.

Import ModoDeteccao Avaliacao.

(** C1.  From [rastreando], with motion present and less than
    [max_tempo_sem_deteccao] since the last detection, the code stays in
    [rastreando] however long ago the previous check was: as long as the
    clock has not run backwards and the threshold is not negative, the
    time since the previous check plays no part.  The claim has the mode
    go to [detectando] once that time exceeds
    [max_tempo_sem_atualizar_modo]. *)
Theorem rastreando_nao_ve_checagem_tardia (self : ModoDeteccao.t)
    (w : Mundo.t) :
  modo self = "rastreando" ->
  teve_movimento w = true ->
  (delta_detect self w < max_tempo_sem_deteccao self)%Q ->
  (tempo_ultima_checagem self <= leitura 0 w)%Q ->
  (0 <= max_tempo_sem_atualizar_modo self)%Q ->
  modo_apos self w = "rastreando".
Proof.
  intros Hm Hmov Hdet Hrel Hmax.
  rewrite (de_rastreando self w Hm), Hmov.
  rewrite (checagem_nunca_excedida self w Hrel Hmax).
  apply Qgeb_false in Hdet. rewrite Hdet. reflexivity.
Qed.

(** At 12.5 s, two seconds after the previous check and 2.5 s after the
    last detection, the mode stays [rastreando]. *)
Lemma rastreando_nao_ve_checagem_tardia_witness :
  let self := fst Cenarios.rastreando_tardio in
  let w := snd Cenarios.rastreando_tardio in
  (max_tempo_sem_atualizar_modo self < delta_check self w)%Q
  /\ (delta_check self w == 2)%Q
  /\ modo_apos self w = "rastreando".
Proof.
  cbv zeta. split; [vm_compute; reflexivity|].
  split; [vm_compute; reflexivity|].
  apply rastreando_nao_ve_checagem_tardia.
  - vm_compute; reflexivity.
  - vm_compute; reflexivity.
  - vm_compute; reflexivity.
  - vm_compute; discriminate.
  - vm_compute; discriminate.
Defined.

(** C2.  From [detectando], with motion present and tracking enabled,
    the code goes to [rastreando] however long ago the previous check
    was (clock not running backwards, threshold not negative).  The
    claim has the mode stay [detectando] once that time exceeds
    [max_tempo_sem_atualizar_modo]. *)
Theorem detectando_nao_ve_checagem_tardia (self : ModoDeteccao.t)
    (w : Mundo.t) :
  modo self = "detectando" ->
  teve_movimento w = true ->
  usar_rastreamento self = true ->
  (tempo_ultima_checagem self <= leitura 0 w)%Q ->
  (0 <= max_tempo_sem_atualizar_modo self)%Q ->
  modo_apos self w = "rastreando".
Proof.
  intros Hm Hmov Hur Hrel Hmax.
  rewrite (de_detectando self w Hm), Hmov, Hur.
  rewrite (checagem_nunca_excedida self w Hrel Hmax). reflexivity.
Qed.

(** At 12.5 s, 2.5 s after the previous check, the mode becomes
    [rastreando]. *)
Lemma detectando_nao_ve_checagem_tardia_witness :
  let self := fst Cenarios.detectando_tardio in
  let w := snd Cenarios.detectando_tardio in
  (max_tempo_sem_atualizar_modo self < delta_check self w)%Q
  /\ modo_apos self w = "rastreando".
Proof.
  cbv zeta. split; [vm_compute; reflexivity|].
  apply detectando_nao_ve_checagem_tardia.
  - vm_compute; reflexivity.
  - vm_compute; reflexivity.
  - vm_compute; reflexivity.
  - vm_compute; discriminate.
  - vm_compute; discriminate.
Defined.

(** C3.  From [parado] the next mode is [detectando] exactly when there
    was motion or [max_tempo_parado] has passed since
    [tempo_em_que_parou], and [parado] otherwise; and
    [tempo_em_que_parou] is written, with the time read then, exactly by
    an evaluation that yields [parado] from another mode. *)
Theorem parado_transicao (self : ModoDeteccao.t) (w : Mundo.t) :
  (modo self = "parado" ->
     (modo_apos self w = "detectando" <->
      teve_movimento w = true
      \/ (max_tempo_parado self <= delta_stop self w)%Q)
     /\ (modo_apos self w <> "detectando" -> modo_apos self w = "parado"))
  /\ (modo_apos self w = "parado" /\ modo self <> "parado" ->
      tempo_em_que_parou (apos self w) = leitura 3 w)
  /\ (~ (modo_apos self w = "parado" /\ modo self <> "parado") ->
      tempo_em_que_parou (apos self w) = tempo_em_que_parou self).
Proof.
  split; [|split].
  - intros Hm. rewrite (de_parado self w Hm).
    destruct (teve_movimento w); cbn.
    + split; [|congruence]. split; auto.
    + destruct (Qgeb _ _) eqn:E.
      * apply Qgeb_true in E. split; [|congruence]. split; auto.
      * apply Qgeb_false in E. split; [|reflexivity].
        split; [discriminate|].
        intros [Hf|Hf]; [discriminate|exfalso; lra].
  - intros [Hp Ha]. rewrite tempo_em_que_parou_de_apos.
    unfold entra_parado. rewrite Hp.
    apply String.eqb_neq in Ha. rewrite Ha. reflexivity.
  - intros Hn. rewrite tempo_em_que_parou_de_apos.
    unfold entra_parado.
    destruct (modo_apos self w =? "parado") eqn:Ep; [|reflexivity].
    destruct (modo self =? "parado") eqn:Ea; [reflexivity|].
    apply String.eqb_eq in Ep. apply String.eqb_neq in Ea.
    exfalso. apply Hn. split; assumption.
Qed.

(** One second after stopping, with no motion: still [parado]. *)
Lemma parado_transicao_witness :
  let self := fst Cenarios.parado_quieto in
  let w := snd Cenarios.parado_quieto in
  modo self = "parado"
  /\ (modo_apos self w = "detectando" <->
      teve_movimento w = true
      \/ (max_tempo_parado self <= delta_stop self w)%Q)
  /\ (modo_apos self w <> "detectando" -> modo_apos self w = "parado").
Proof.
  cbv zeta. split; [reflexivity|].
  apply (proj1 (parado_transicao _ _)). reflexivity.
Defined.

(** C9.  The first evaluation of a new [ModoDeteccao] returns
    [detectando], whatever the thresholds, the clock and the motion
    detector; and every evaluation, from any state, returns the mode it
    leaves in the object, which is one of the three. *)
Theorem primeira_avaliacao_detecta :
  (forall (max_tempo_sem_deteccao max_tempo_parado : Q)
          (usar_rastreamento : bool) (max_tempo_sem_atualizar_modo : Q)
          (w : Mundo.t),
      let novo := __init__ max_tempo_sem_deteccao max_tempo_parado
                           usar_rastreamento max_tempo_sem_atualizar_modo
                           w in
      modo (fst novo) = ""
      /\ modo_apos (fst novo) (snd novo) = "detectando")
  /\ (forall (self : ModoDeteccao.t) (w : Mundo.t),
         modo (apos self w) = modo_apos self w
         /\ (modo_apos self w = "detectando"
             \/ modo_apos self w = "rastreando"
             \/ modo_apos self w = "parado")).
Proof.
  split.
  - intros sd mp ur mc w novo. split; [reflexivity|].
    apply de_outro; subst novo; cbn; discriminate.
  - intros self w. split; [apply modo_de_apos|apply escolhe_modo_tres].
Qed.

(** C4.  A new [ModoDeteccao] with thresholds 5 and 60 and tracking
    enabled, motion at every check and a clock that never runs backwards.
    The first evaluation records the detection at the seventh reading of
    the clock.  If the third evaluation compares the detection with a
    reading less than 5 s later (checks 0.1 s apart do), the first three
    evaluations return detectando, rastreando, rastreando; and if the
    fourth compares it with a reading 5 s later or more, the fourth
    returns detectando. *)
Theorem cenario_detecta_rastreia_detecta (w : Mundo.t) :
  relogio_monotono w ->
  (forall k : nat, (k < 4)%nat -> movimento k w = true) ->
  (leitura 14 w - leitura 6 w < 5)%Q ->
  (5 <= leitura 18 w - leitura 6 w)%Q ->
  fst (fst (cenario 5 60 true 3 w))
  = ["detectando"; "rastreando"; "rastreando"]
  /\ fst (fst (cenario 5 60 true 4 w))
     = ["detectando"; "rastreando"; "rastreando"; "detectando"].
Proof.
  intros Hmono Hmov H3 H4.
  rewrite !cenario_eq.
  pose proof (init_adiante 5 60 true max_tempo_sem_atualizar_modo_padrao w)
    as A0.
  assert (G0 : config (fst (__init__ 5 60 true
                              max_tempo_sem_atualizar_modo_padrao w))
               = (5, 60, 1, true)) by reflexivity.
  assert (M0 : modo (fst (__init__ 5 60 true
                            max_tempo_sem_atualizar_modo_padrao w)) = "")
    by reflexivity.
  set (s0 := fst (__init__ 5 60 true max_tempo_sem_atualizar_modo_padrao w))
    in *.
  set (w0 := snd (__init__ 5 60 true max_tempo_sem_atualizar_modo_padrao w))
    in *.
  (* first evaluation *)
  assert (E1 : modo_apos s0 w0 = "detectando")
    by (apply de_outro; rewrite M0; discriminate).
  destruct (passo_detecta s0 w0 E1) as (M1 & D1 & C1 & G1 & A1).
  pose proof (adiante_trans _ _ _ _ _ _ _ A0 A1) as B1.
  rewrite (leitura_adiante _ _ _ _ _ A0) in D1.
  rewrite (leitura_adiante _ _ _ _ _ A0) in C1.
  rewrite G0 in G1. clear A1.
  set (s1 := apos s0 w0) in *. set (w1 := mundo_apos s0 w0) in *.
  (* second evaluation *)
  assert (E2 : modo_apos s1 w1 = "rastreando").
  { destruct (config_campos _ _ _ _ _ G1) as (_ & _ & Gc & Gu).
    apply rastreia; auto.
    - rewrite Gc. lra.
    - rewrite C1, (leitura_adiante _ _ _ _ _ B1).
      apply leitura_monotona; [assumption|cbn; lia].
    - change (teve_movimento w1) with (movimento 0 w1).
      rewrite (movimento_adiante _ _ _ _ _ B1). apply Hmov. cbn. lia. }
  destruct (passo_rastreia s1 w1 E2) as (M2 & D2 & C2 & G2 & A2).
  pose proof (adiante_trans _ _ _ _ _ _ _ B1 A2) as B2.
  rewrite (leitura_adiante _ _ _ _ _ B1) in C2.
  rewrite D1 in D2. rewrite G1 in G2. clear A2.
  set (s2 := apos s1 w1) in *. set (w2 := mundo_apos s1 w1) in *.
  (* third evaluation *)
  assert (E3 : modo_apos s2 w2 = "rastreando").
  { destruct (config_campos _ _ _ _ _ G2) as (Gd & _ & Gc & Gu).
    apply rastreia; auto.
    - right. split; [assumption|].
      unfold delta_detect.
      rewrite D2, Gd, (leitura_adiante _ _ _ _ _ B2). exact H3.
    - rewrite Gc. lra.
    - rewrite C2, (leitura_adiante _ _ _ _ _ B2).
      apply leitura_monotona; [assumption|cbn; lia].
    - change (teve_movimento w2) with (movimento 0 w2).
      rewrite (movimento_adiante _ _ _ _ _ B2). apply Hmov. cbn. lia. }
  destruct (passo_rastreia s2 w2 E3) as (M3 & D3 & C3 & G3 & A3).
  pose proof (adiante_trans _ _ _ _ _ _ _ B2 A3) as B3.
  rewrite D2 in D3. rewrite G2 in G3. clear A3.
  set (s3 := apos s2 w2) in *. set (w3 := mundo_apos s2 w2) in *.
  (* fourth evaluation *)
  assert (E4 : modo_apos s3 w3 = "detectando").
  { destruct (config_campos _ _ _ _ _ G3) as (Gd & _ & _ & _).
    apply (rastreando_transicao s3 w3 M3). right. left.
    unfold delta_detect.
    rewrite D3, Gd, (leitura_adiante _ _ _ _ _ B3). exact H4. }
  split.
  - rewrite !avalia_S. cbv zeta. cbn [avalia]. unfold ret. cbn [fst snd].
    fold s1 w1. fold s2 w2. rewrite E1, E2, E3. reflexivity.
  - rewrite !avalia_S. cbv zeta. cbn [avalia]. unfold ret. cbn [fst snd].
    fold s1 w1. fold s2 w2. fold s3 w3.
    rewrite E1, E2, E3, E4. reflexivity.
Qed.

(** The clock of [Cenarios.mundo_cenario]: checks at 100 s, 100.1 s and
    100.2 s, and a fourth at 105 s. *)
Lemma cenario_detecta_rastreia_detecta_witness :
  fst (fst (Avaliacao.cenario 5 60 true 3 Cenarios.mundo_cenario))
  = ["detectando"; "rastreando"; "rastreando"]
  /\ fst (fst (Avaliacao.cenario 5 60 true 4 Cenarios.mundo_cenario))
     = ["detectando"; "rastreando"; "rastreando"; "detectando"].
Proof.
  apply cenario_detecta_rastreia_detecta.
  - intros i j Hij. cbn. unfold Cenarios.relogio_cenario.
    destruct (Nat.ltb_spec i 8); destruct (Nat.ltb_spec j 8);
      destruct (Nat.ltb_spec i 12); destruct (Nat.ltb_spec j 12);
      destruct (Nat.ltb_spec i 16); destruct (Nat.ltb_spec j 16);
      try lia; vm_compute; discriminate.
  - intros k Hk. reflexivity.
  - vm_compute; reflexivity.
  - vm_compute; discriminate.
Defined.

(** C5, refuted as stated.  With the defaults of [DetectorPessoasVideo]
    (no tracking) and motion present, an evaluation that starts in
    [detectando] and stays there is not an entry, and still it
    overwrites [tempo_ultima_deteccao]: 106 s, the time of the entry, is
    replaced by 111 s. *)
Lemma relogio_deteccao_reescrito_sem_entrar :
  let self := fst Cenarios.detectando_sem_rastreamento in
  let w := snd Cenarios.detectando_sem_rastreamento in
  modo self = "detectando"
  /\ modo_apos self w = "detectando"
  /\ tempo_ultima_deteccao self = 106
  /\ tempo_ultima_deteccao (apos self w) = 111
  /\ ~ (tempo_ultima_deteccao (apos self w) == tempo_ultima_deteccao self)%Q.
Proof.
  cbv zeta. repeat split; try (vm_compute; reflexivity).
  vm_compute. discriminate.
Qed.

(** C5, amended.  [tempo_ultima_deteccao] is written, with the time read
    then, by every evaluation that returns [detectando], whatever the
    mode before, and by no other; so after an evaluation that returned
    [detectando] and any number of evaluations that did not, it holds
    the time of that evaluation: the most recent one that returned
    [detectando]. *)
Theorem relogio_deteccao_ultima_avaliacao (self : ModoDeteccao.t)
    (w : Mundo.t) :
  tempo_ultima_deteccao (apos self w)
  = (if modo_apos self w =? "detectando" then leitura 3 w
     else tempo_ultima_deteccao self)
  /\ (forall k : nat,
        modo_apos self w = "detectando" ->
        Forall (fun m => m <> "detectando")
               (fst (fst (avalia k (apos self w) (mundo_apos self w)))) ->
        tempo_ultima_deteccao
          (snd (fst (avalia k (apos self w) (mundo_apos self w))))
        = leitura 3 w).
Proof.
  split.
  - apply tempo_ultima_deteccao_de_apos.
  - intros k Hd Hk. rewrite (sem_deteccao_preserva k _ _ Hk).
    rewrite tempo_ultima_deteccao_de_apos. unfold detecta.
    rewrite Hd. reflexivity.
Qed.

(** Already in [detectando]; the evaluation stays there and the two after
    it return [parado]: the time kept is that of the evaluation, 111 s. *)
Lemma relogio_deteccao_ultima_avaliacao_witness :
  let self := fst Cenarios.detectando_antes_de_parar in
  let w := snd Cenarios.detectando_antes_de_parar in
  modo self = "detectando"
  /\ fst (fst (avalia 2 (apos self w) (mundo_apos self w)))
     = ["parado"; "parado"]
  /\ leitura 3 w = 111
  /\ tempo_ultima_deteccao
       (snd (fst (avalia 2 (apos self w) (mundo_apos self w))))
     = leitura 3 w.
Proof.
  cbv zeta. split; [reflexivity|]. split; [vm_compute; reflexivity|].
  split; [vm_compute; reflexivity|].
  apply (proj2 (relogio_deteccao_ultima_avaliacao _ _) 2%nat).
  - vm_compute; reflexivity.
  - vm_compute. repeat constructor; discriminate.
Defined.

End Afirmacoes.


(** * Properties of [DetectorPessoasVideo] *)

Section Construcao.

Import DetectorPessoasVideo.

(** C6, refuted as stated.  A zero [max_tempo_sem_deteccao] is accepted:
    the constructor returns the object. *)
Lemma limiar_zero_aceito :
  exists self : DetectorPessoasVideo.t,
    DetectorPessoasVideo.__init__ 0 60 700 false = inr self
    /\ max_tempo_sem_deteccao self = 0.
Proof. eexists. split; reflexivity. Qed.

(** C6, amended.  The constructor raises [ValueError] exactly when
    [max_tempo_sem_deteccao] is negative, or [max_tempo_parado] is zero
    or negative, or [max_largura_frame] is zero or negative; it returns
    the object exactly when [max_tempo_sem_deteccao] is zero or positive
    and the two others are positive. *)
Theorem limiares_validados (max_tempo_sem_deteccao max_tempo_parado : Q)
    (max_largura_frame : Z) (usar_rastreamento : bool) :
  ((exists msg : string,
       DetectorPessoasVideo.__init__ max_tempo_sem_deteccao
         max_tempo_parado max_largura_frame usar_rastreamento
       = inl (ValueError msg))
   <-> (max_tempo_sem_deteccao < 0)%Q \/ (max_tempo_parado <= 0)%Q
       \/ (max_largura_frame <= 0)%Z)
  /\ ((exists self : DetectorPessoasVideo.t,
          DetectorPessoasVideo.__init__ max_tempo_sem_deteccao
            max_tempo_parado max_largura_frame usar_rastreamento
          = inr self)
      <-> (0 <= max_tempo_sem_deteccao)%Q /\ (0 < max_tempo_parado)%Q
          /\ (0 < max_largura_frame)%Z).
Proof.
  unfold DetectorPessoasVideo.__init__.
  destruct (Qltb max_tempo_sem_deteccao 0) eqn:E1.
  { apply Qltb_true in E1. split; split.
    - auto.
    - intros _. eexists. reflexivity.
    - intros [self H]. discriminate.
    - intros [H _]. exfalso. lra. }
  apply Qltb_false in E1.
  destruct (Qleb max_tempo_parado 0) eqn:E2.
  { apply Qleb_true in E2. split; split.
    - auto.
    - intros _. eexists. reflexivity.
    - intros [self H]. discriminate.
    - intros (_ & H & _). exfalso. lra. }
  apply Qleb_false in E2.
  destruct (Z.leb_spec max_largura_frame 0) as [E3|E3].
  { split; split.
    - auto.
    - intros _. eexists. reflexivity.
    - intros [self H]. discriminate.
    - intros (_ & _ & H). exfalso. lia. }
  split; split.
  - intros [msg H]. discriminate.
  - intros [H|[H|H]]; exfalso; [lra|lra|lia].
  - auto.
  - intros _. eexists. reflexivity.
Qed.

End Construcao.

Section SemConfiguracao.

Import DetectorPessoasVideo.

(** C10.  Without a stream or without a detector, [run] returns at once,
    whatever the bound on its loop: the object is as it was, registry and
    history included, and the world has only seen the message printed:
    nothing was started, no frame was read. *)
Theorem run_sem_configuracao (n : nat) (self : DetectorPessoasVideo.t)
    (w : Mundo.t) :
  stream self = None \/ detectorPessoas self = None ->
  run n self w
  = (Some (Retorna self),
     Mundo.registra
       (EvPrint "Erro: stream ou detector de pessoas não configurado.") w).
Proof.
  intros [H|H]; unfold run; rewrite H.
  - reflexivity.
  - destruct (stream self); reflexivity.
Qed.

(** A new object, run before any configuration. *)
Lemma run_sem_configuracao_witness :
  stream Cenarios.video_novo = None
  /\ run 10 Cenarios.video_novo Cenarios.mundo_stream_fecha
     = (Some (Retorna Cenarios.video_novo),
        Mundo.registra
          (EvPrint "Erro: stream ou detector de pessoas não configurado.")
          Cenarios.mundo_stream_fecha).
Proof.
  split; [reflexivity|].
  apply run_sem_configuracao. left. reflexivity.
Defined.

End SemConfiguracao.

(** * Calls outside any [try] *)

(** Sequencing, world by world. *)
Lemma bind_eq {A B : Type} (c : M A) (k : A -> M B) (w : Mundo.t) :
  bind c k w = k (fst (c w)) (snd (c w)).
Proof. unfold bind. destruct (c w); reflexivity. Qed.

(** A call that no [try] encloses, world by world. *)
Lemma chamada_eq {A : Type} (c : M A) (w : Mundo.t) :
  chamada c w
  = match Mundo.excecoes w (List.length (Mundo.eventos w)) with
    | Some e => (inl e, w)
    | None => (inr (fst (c w)), snd (c w))
    end.
Proof.
  unfold chamada. destruct (Mundo.excecoes w _); [reflexivity|].
  destruct (c w); reflexivity.
Qed.

(** Proof steps for code that makes calls outside any [try]: unfold one
    call, and split on whether the world has it raise. *)
Ltac avanca :=
  repeat (rewrite ?bind_eq, ?chamada_eq;
          unfold ret, evento, rastreador_atualiza, time_time,
            DetectorPessoasVideo.registradas_reiniciar,
            DetectorPessoasVideo.registradas_atualizar,
            PessoasHistorico.atualiza_periodo, CaixasObjetos.atualizar;
          cbn [fst snd]; cbv beta iota).

Ltac caso_excecao :=
  match goal with
  | |- context [match Mundo.excecoes ?w ?k with _ => _ end] =>
      destruct (Mundo.excecoes w k) eqn:?
  end.

Section UmaIteracao.

Import DetectorPessoasVideo Registro.

Lemma Forall_corrente_app (l1 l2 : list Evento) :
  Forall (fun e => corrente e = true) l1 ->
  Forall (fun e => corrente e = true) l2 ->
  Forall (fun e => corrente e = true) (l1 ++ l2).
Proof. intros H1 H2. apply Forall_app. split; assumption. Qed.

(** What holds of all the calls of a list holds of the first [k]. *)
Lemma Forall_primeiros {A : Type} (P : A -> Prop) (k : nat) (l : list A) :
  Forall P l -> Forall P (firstn k l).
Proof.
  intros H. rewrite <- (firstn_skipn k l) in H.
  apply Forall_app in H. exact (proj1 H).
Qed.

Lemma fecho_corrente (t0 t1 : Q) (cx : list Caixa) (ps : list Peso)
    (b : bool) (n : nat) (t2 : Q) :
  Forall (fun e => corrente e = true) (fecho t0 t1 cx ps b n t2).
Proof. unfold fecho. destruct (lenta t0 t1); repeat constructor. Qed.

(** The branch on the mode: it returns boxes, or lets an exception of the
    tracker through, after calls that are no failure; or it returns
    nothing after a detection that raised and the message printed for
    it.  It reads no frame and touches neither the registry nor the
    history. *)
Lemma sensoria_casos (self : DetectorPessoasVideo.t)
    (md : ModoDeteccao.t) (m : string) (f : Frame) (w : Mundo.t) :
  let r := sensoria self md m f w in
  Mundo.leituras (snd r) = Mundo.leituras w
  /\ Mundo.n_leituras (snd r) = Mundo.n_leituras w
  /\ exists evs : list Evento,
      Mundo.eventos (snd r) = (Mundo.eventos w ++ evs)%list
      /\ Forall (fun e => de_registro e = false) evs
      /\ ((fst r <> inr None /\ Forall (fun e => corrente e = true) evs)
          \/ (fst r = inr None
              /\ exists (e : Evento) (msg : string),
                  evs = [e; EvPrint msg] /\ de_falha e = true)).
Proof.
  unfold sensoria.
  destruct (m =? "detectando").
  { unfold bind, detectar, print, evento, ret. cbn.
    destruct (Mundo.deteccoes w (Mundo.n_deteccoes w)) as [cx ps|nome texto];
      cbn; (split; [reflexivity|]); (split; [reflexivity|]).
    - eexists. split; [reflexivity|]. split; [repeat constructor|].
      left. split; [discriminate|repeat constructor].
    - rewrite <- app_assoc. eexists. split; [reflexivity|].
      split; [repeat constructor|].
      right. split; [reflexivity|]. eexists. eexists.
      split; reflexivity. }
  destruct (m =? "rastreando").
  { destruct (ModoDeteccao.mudou_modo md);
      repeat (avanca; try caso_excecao);
      cbn; (split; [reflexivity|]); (split; [reflexivity|]);
      rewrite <- ?app_assoc;
      (eexists; split; [reflexivity|]) || (exists []; rewrite app_nil_r; split; [reflexivity|]);
      (split; [repeat constructor|]);
      left; (split; [discriminate|repeat constructor]). }
  unfold ret. cbn. split; [reflexivity|]. split; [reflexivity|].
  exists []. rewrite app_nil_r. split; [reflexivity|].
  split; [constructor|]. left. split; [discriminate|constructor].
Qed.


Local Arguments Avaliacao.modo_apos : simpl never.
Local Arguments Avaliacao.apos : simpl never.
Local Arguments Avaliacao.mundo_apos : simpl never.
Local Arguments sensoria : simpl never.
Local Arguments registra_iteracao : simpl never.
Local Arguments _frame_tamanho_maximo : simpl never.

(** The end of an iteration, from world [w]: the calls of [fecho], all
    of them if it goes to its end, the first ones if one of them
    raises.  It reads no frame. *)
Lemma registra_iteracao_casos (self : DetectorPessoasVideo.t)
    (md : ModoDeteccao.t) (t0 : Q) (f : Frame) (m : string)
    (cx : list Caixa) (ps : list Peso) (w : Mundo.t) :
  let r := registra_iteracao self md t0 f m cx ps w in
  let t1 := Mundo.relogio w (Mundo.n_relogio w) in
  let t2 := Mundo.relogio w (S (Mundo.n_relogio w)) in
  let res := CaixasObjetos.atualizar
               (if lenta t0 t1
                then CaixasObjetos.reiniciar (pessoas_registradas self)
                else pessoas_registradas self)
               cx ps (m =? "parado") in
  let valor := List.length (fst (fst res)) in
  let todos := fecho t0 t1 cx ps (m =? "parado") valor t2 in
  Mundo.leituras (snd r) = Mundo.leituras w
  /\ Mundo.n_leituras (snd r) = Mundo.n_leituras w
  /\ Mundo.paradas (snd r) = Mundo.paradas w
  /\ Mundo.n_paradas (snd r) = Mundo.n_paradas w
  /\ (exists k : nat,
         Mundo.eventos (snd r) = (Mundo.eventos w ++ firstn k todos)%list)
  /\ match fst r with
     | Continua self' md' =>
         md' = md
         /\ self' = publica self (snd res) f m
                      (PessoasHistorico.mk
                         (PessoasHistorico.amostras (pessoas_historico self)
                          ++ [(valor, t2)])%list)
         /\ Mundo.eventos (snd r) = (Mundo.eventos w ++ todos)%list
     | Interrompe _ _ => False
     | Escapa _ self' md' =>
         md' = md
         /\ stream_externo self' = stream_externo self
         /\ stopped self' = stopped self
     end.
Proof.
  cbv zeta. unfold registra_iteracao, fecho, lenta.
  destruct (Qgtb _ _) eqn:El; avanca; rewrite ?El;
    repeat (avanca; try caso_excecao).
  all: cbn; rewrite <- ?app_assoc; cbn [app];
    do 4 (split; [reflexivity|]);
    (split;
     [first [ exists 1%nat; reflexivity | exists 2%nat; reflexivity
            | exists 3%nat; reflexivity | exists 4%nat; reflexivity
            | exists 5%nat; reflexivity | exists 6%nat; reflexivity ]
     |repeat split; reflexivity]).
Qed.

(** The body of the loop, world by world. *)
Lemma iteracao_eq (self : DetectorPessoasVideo.t) (md : ModoDeteccao.t)
    (w : Mundo.t) :
  iteracao self md w =
  let t0 := Mundo.relogio w (Mundo.n_relogio w) in
  let lido := Mundo.leituras w (Mundo.n_leituras w) in
  let w1 := Mundo.registra (EvStreamRead lido)
              (Mundo.avanca_leituras
                 (Mundo.registra (EvTime t0) (Mundo.avanca_relogio w))) in
  match lido with
  | LeuFrame f =>
      let frame := _frame_tamanho_maximo self f in
      let m := Avaliacao.modo_apos md w1 in
      let md' := Avaliacao.apos md w1 in
      let s := sensoria self md' m frame (Avaliacao.mundo_apos md w1) in
      match fst s with
      | inl e => (Escapa e self md', snd s)
      | inr None => (Interrompe self md', snd s)
      | inr (Some (cx, ps)) =>
          registra_iteracao self md' t0 frame m cx ps (snd s)
      end
  | OutraExcecao nome texto => (Escapa (Levantou nome texto) self md, w1)
  | _ =>
      (Interrompe self md,
       Mundo.registra (EvPrint "Não foi possível ler frame.") w1)
  end.
Proof.
  unfold iteracao, bind at 1 2, time_time, stream_read. cbv zeta.
  cbn [Mundo.leituras Mundo.n_leituras Mundo.registra Mundo.avanca_relogio
       Mundo.avanca_leituras Mundo.relogio Mundo.n_relogio].
  destruct (Mundo.leituras w (Mundo.n_leituras w)) as [f| | |nome texto];
    [|reflexivity|reflexivity|reflexivity].
  unfold bind at 1. rewrite atualiza_modo_par. unfold bind at 1.
  destruct (sensoria _ _ _ _ _) as [[e|[[cx ps]|]] w3]; reflexivity.
Qed.

(** One pass through the body of the loop.  It reads exactly one frame.
    Either it goes to its end: the frame was read, and after calls that
    are no failure and leave registry and history alone come the calls
    of [fecho]; or it breaks, leaving the object as it was, after a
    failure and the message printed for it; or an exception goes
    through it, after calls that are no failure. *)
Lemma iteracao_casos (self : DetectorPessoasVideo.t) (md : ModoDeteccao.t)
    (w : Mundo.t) :
  let r := iteracao self md w in
  let t0 := Mundo.relogio w (Mundo.n_relogio w) in
  Mundo.leituras (snd r) = Mundo.leituras w
  /\ Mundo.n_leituras (snd r) = S (Mundo.n_leituras w)
  /\ match fst r with
     | Continua self' md' =>
         falhou (Mundo.leituras w (Mundo.n_leituras w)) = false
         /\ stream_externo self' = stream_externo self
         /\ stopped self' = stopped self
         /\ modo self' = ModoDeteccao.modo md'
         /\ exists (antes : list Evento) (t1 t2 : Q) (cx : list Caixa)
                   (ps : list Peso),
             Mundo.eventos (snd r)
             = (Mundo.eventos w
                ++ EvTime t0
                   :: antes
                   ++ fecho t0 t1 cx ps (modo self' =? "parado")
                        (CaixasObjetos.len (pessoas_registradas self')) t2)%list
             /\ Forall (fun e => corrente e = true
                                 /\ de_registro e = false) antes
             /\ pessoas_registradas self'
                = snd (CaixasObjetos.atualizar
                         (if lenta t0 t1
                          then CaixasObjetos.reiniciar
                                 (pessoas_registradas self)
                          else pessoas_registradas self)
                         cx ps (modo self' =? "parado"))
             /\ PessoasHistorico.amostras (pessoas_historico self')
                = (PessoasHistorico.amostras (pessoas_historico self)
                   ++ [(CaixasObjetos.len (pessoas_registradas self'), t2)])%list
     | Interrompe self' md' =>
         self' = self
         /\ exists (antes : list Evento) (e : Evento) (msg : string),
             Mundo.eventos (snd r)
             = (Mundo.eventos w ++ antes ++ [e; EvPrint msg])%list
             /\ Forall (fun e => corrente e = true) antes
             /\ de_falha e = true
     | Escapa _ self' md' =>
         falhou (Mundo.leituras w (Mundo.n_leituras w)) = false
         /\ stream_externo self' = stream_externo self
         /\ stopped self' = stopped self
         /\ exists novo : list Evento,
             Mundo.eventos (snd r) = (Mundo.eventos w ++ novo)%list
             /\ Forall (fun e => corrente e = true) novo
     end.
Proof.
  cbv zeta. rewrite iteracao_eq. cbv zeta.
  set (t0 := Mundo.relogio w (Mundo.n_relogio w)).
  destruct (Mundo.leituras w (Mundo.n_leituras w))
    as [f| | |nome texto] eqn:El.
  - set (w1 := Mundo.registra (EvStreamRead (LeuFrame f)) _).
    assert (Hev1 : Mundo.eventos w1
                   = (Mundo.eventos w
                      ++ [EvTime t0; EvStreamRead (LeuFrame f)])%list)
      by (cbn; rewrite <- app_assoc; reflexivity).
    assert (Hl1 : Mundo.leituras w1 = Mundo.leituras w) by reflexivity.
    assert (Hn1 : Mundo.n_leituras w1 = S (Mundo.n_leituras w))
      by reflexivity.
    destruct (eventos_de_apos md w1) as (evm & Hevm & Fevm).
    destruct (leituras_de_apos md w1) as (Hlm & Hnm).
    pose proof (sensoria_casos self (Avaliacao.apos md w1)
                  (Avaliacao.modo_apos md w1) (_frame_tamanho_maximo self f)
                  (Avaliacao.mundo_apos md w1)) as Hs.
    cbv zeta in Hs. destruct Hs as (Hls & Hns & evs & Hevs & Fevs & Hcaso).
    destruct (sensoria _ _ _ _ _) as [s w3]. cbn [fst snd] in *.
    destruct s as [e|[[cx ps]|]].
    + destruct Hcaso as [[_ Fc]|[Hf _]]; [|discriminate].
      cbn [fst snd].
      split; [congruence|]. split; [congruence|].
      split; [reflexivity|]. split; [reflexivity|].
      split; [reflexivity|].
      exists ([EvTime t0; EvStreamRead (LeuFrame f)] ++ evm ++ evs)%list.
      split.
      * rewrite Hevs, Hevm, Hev1. rewrite <- !app_assoc. reflexivity.
      * apply Forall_app. split; [repeat constructor|].
        apply Forall_app. split; [|exact Fc].
        rewrite Forall_forall in *. intros e' He'. apply Fevm, He'.
    + destruct Hcaso as [[_ Fc]|[Hf _]]; [|discriminate].
      pose proof (registra_iteracao_casos self (Avaliacao.apos md w1) t0
                    (_frame_tamanho_maximo self f)
                    (Avaliacao.modo_apos md w1) cx ps w3) as Hr.
      cbv zeta in Hr.
      set (t1 := Mundo.relogio w3 (Mundo.n_relogio w3)) in *.
      set (t2 := Mundo.relogio w3 (S (Mundo.n_relogio w3))) in *.
      destruct Hr as (Hlr & Hnr & _ & _ & (k & Hevk) & Hr).
      destruct (registra_iteracao _ _ _ _ _ _ _ _) as [p w4].
      cbn [fst snd] in *.
      split; [congruence|]. split; [congruence|].
      destruct p as [self' md'|self' md'|e self' md'].
      * destruct Hr as (-> & -> & Hev).
        split; [reflexivity|]. split; [reflexivity|].
        split; [reflexivity|].
        split; [cbn; symmetry; apply modo_de_apos|].
        exists (EvStreamRead (LeuFrame f) :: evm ++ evs)%list, t1, t2.
        exists cx, ps.
        split; [|split; [|split]].
        -- rewrite Hev, Hevs, Hevm, Hev1.
           rewrite <- ?app_assoc; cbn; rewrite <- ?app_assoc.
           unfold CaixasObjetos.len, CaixasObjetos.atualizar.
           destruct (lenta t0 t1);
             destruct (Avaliacao.modo_apos md w1 =? "parado");
             reflexivity.
        -- constructor; [split; reflexivity|].
           apply Forall_app. split; [assumption|].
           rewrite Forall_forall in *. intros e He. split; auto.
        -- reflexivity.
        -- cbn. unfold CaixasObjetos.len, CaixasObjetos.atualizar.
           destruct (lenta t0 t1);
             destruct (Avaliacao.modo_apos md w1 =? "parado");
             reflexivity.
      * contradiction.
      * destruct Hr as (_ & Hx & Hst).
        split; [reflexivity|]. split; [exact Hx|]. split; [exact Hst|].
        eexists. split.
        -- rewrite Hevk, Hevs, Hevm, Hev1. rewrite <- !app_assoc.
           reflexivity.
        -- apply Forall_app. split; [repeat constructor|].
           apply Forall_app. split.
           { rewrite Forall_forall in *. intros e' He'. apply Fevm, He'. }
           apply Forall_app. split; [exact Fc|].
           apply Forall_primeiros, fecho_corrente.
    + destruct Hcaso as [[Hf _]|[_ (e & msg & -> & He)]];
        [now elim Hf|].
      cbn [fst snd].
      split; [congruence|]. split; [congruence|].
      split; [reflexivity|].
      exists ([EvTime t0; EvStreamRead (LeuFrame f)] ++ evm)%list, e, msg.
      split; [|split].
      * rewrite Hevs, Hevm, Hev1. rewrite <- !app_assoc. reflexivity.
      * apply Forall_app. split; [repeat constructor|].
        rewrite Forall_forall in *. intros e' He'. apply Fevm, He'.
      * assumption.
  - split; [reflexivity|]. split; [reflexivity|].
    split; [reflexivity|].
    exists [EvTime t0], (EvStreamRead StreamClosedError).
    eexists. split; [|split].
    + cbn. rewrite <- !app_assoc. reflexivity.
    + repeat constructor.
    + reflexivity.
  - split; [reflexivity|]. split; [reflexivity|].
    split; [reflexivity|].
    exists [EvTime t0], (EvStreamRead StreamStoppedError).
    eexists. split; [|split].
    + cbn. rewrite <- !app_assoc. reflexivity.
    + repeat constructor.
    + reflexivity.
  - split; [reflexivity|]. split; [reflexivity|].
    split; [reflexivity|]. split; [reflexivity|]. split; [reflexivity|].
    exists [EvTime t0; EvStreamRead (OutraExcecao nome texto)].
    split.
    + cbn. rewrite <- !app_assoc. reflexivity.
    + repeat constructor.
Qed.

(** C7.  An iteration that goes to its end.  After its first reading of
    the clock, [t0], and calls that leave the registry and the history
    alone, it reads the clock again, [t1]; if [t1 - t0] exceeds
    [MAX_TEMPO_ENTRE_REGISTROS] it resets the registry; then it calls
    [atualizar] with [caixas_paradas] equal to (mode = parado), the mode
    being the one this iteration decided and published; then it records
    into the history the number of boxes the registry holds after that
    merge. *)
Theorem iteracao_registra (self : DetectorPessoasVideo.t)
    (md : ModoDeteccao.t) (w : Mundo.t)
    (self' : DetectorPessoasVideo.t) (md' : ModoDeteccao.t) :
  fst (iteracao self md w) = Continua self' md' ->
  let w' := snd (iteracao self md w) in
  let t0 := Mundo.relogio w (Mundo.n_relogio w) in
  modo self' = ModoDeteccao.modo md'
  /\ exists (antes : list Evento) (t1 t2 : Q) (cx : list Caixa)
            (ps : list Peso),
      Mundo.eventos w'
      = (Mundo.eventos w
         ++ EvTime t0
            :: antes
            ++ EvTime t1
               :: (if Qgtb (t1 - t0) MAX_TEMPO_ENTRE_REGISTROS
                   then [EvReiniciar] else [])
               ++ [EvAtualizar cx ps (modo self' =? "parado");
                   EvAtualizaPeriodo
                     (CaixasObjetos.len (pessoas_registradas self'));
                   EvTime t2; EvForcePeriod])%list
      /\ Forall (fun e => de_registro e = false) antes
      /\ pessoas_registradas self'
         = snd (CaixasObjetos.atualizar
                  (if Qgtb (t1 - t0) MAX_TEMPO_ENTRE_REGISTROS
                   then CaixasObjetos.reiniciar (pessoas_registradas self)
                   else pessoas_registradas self)
                  cx ps (modo self' =? "parado"))
      /\ PessoasHistorico.amostras (pessoas_historico self')
         = (PessoasHistorico.amostras (pessoas_historico self)
            ++ [(CaixasObjetos.len (pessoas_registradas self'), t2)])%list.
Proof.
  intros H w' t0.
  destruct (iteracao_casos self md w) as (_ & _ & Hc).
  rewrite H in Hc.
  destruct Hc as (_ & _ & _ & Hm & antes & t1 & t2 & cx & ps
                  & Hev & Fa & Hreg & Hhist).
  split; [assumption|].
  exists antes, t1, t2, cx, ps.
  split; [exact Hev|]. split; [|split; assumption].
  rewrite Forall_forall in *. intros e He. apply Fa, He.
Qed.

(** The first iteration of [Cenarios.primeira_iteracao]: the mode is
    detectando, one box is found, merged and counted. *)
Lemma iteracao_registra_witness :
  exists (self' : DetectorPessoasVideo.t) (md' : ModoDeteccao.t),
    (fst Cenarios.primeira_iteracao = Continua self' md'
     /\ modo self' = "detectando"
     /\ CaixasObjetos.len (pessoas_registradas self') = 1%nat)
    /\ modo self' = ModoDeteccao.modo md'
    /\ exists (antes : list Evento) (t1 t2 : Q) (cx : list Caixa)
              (ps : list Peso),
        Mundo.eventos (snd Cenarios.primeira_iteracao)
        = (Mundo.eventos Cenarios.mundo_inicial
           ++ EvTime (Mundo.relogio Cenarios.mundo_inicial
                        (Mundo.n_relogio Cenarios.mundo_inicial))
              :: antes
              ++ EvTime t1
                 :: (if Qgtb (t1 - Mundo.relogio Cenarios.mundo_inicial
                                     (Mundo.n_relogio Cenarios.mundo_inicial))
                             MAX_TEMPO_ENTRE_REGISTROS
                     then [EvReiniciar] else [])
                 ++ [EvAtualizar cx ps (modo self' =? "parado");
                     EvAtualizaPeriodo
                       (CaixasObjetos.len (pessoas_registradas self'));
                     EvTime t2; EvForcePeriod])%list
        /\ Forall (fun e => de_registro e = false) antes
        /\ pessoas_registradas self'
           = snd (CaixasObjetos.atualizar
                    (if Qgtb (t1 - Mundo.relogio Cenarios.mundo_inicial
                                     (Mundo.n_relogio Cenarios.mundo_inicial))
                             MAX_TEMPO_ENTRE_REGISTROS
                     then CaixasObjetos.reiniciar
                            (pessoas_registradas Cenarios.video_configurado)
                     else pessoas_registradas Cenarios.video_configurado)
                    cx ps (modo self' =? "parado"))
        /\ PessoasHistorico.amostras (pessoas_historico self')
           = (PessoasHistorico.amostras
                (pessoas_historico Cenarios.video_configurado)
              ++ [(CaixasObjetos.len (pessoas_registradas self'), t2)])%list.
Proof.
  eexists. eexists. split.
  - split; [vm_compute; reflexivity|]. split; reflexivity.
  - apply (iteracao_registra Cenarios.video_configurado
             Cenarios.modo_inicial Cenarios.mundo_inicial).
    vm_compute. reflexivity.
Defined.

End UmaIteracao.



Section Laco.

Import DetectorPessoasVideo Registro.

Lemma falha_nao_encerra (e : Evento) :
  de_falha e = true -> de_encerramento e = false.
Proof. destruct e; try discriminate; reflexivity. Qed.

Lemma corrente_sem_falha (e : Evento) :
  corrente e = true -> de_falha e = false /\ de_encerramento e = false.
Proof.
  unfold corrente. intros H. apply andb_true_iff in H.
  destruct H as [H1 H2]. apply negb_true_iff in H1, H2. auto.
Qed.

Lemma correntes_sem_encerramento (l : list Evento) :
  Forall (fun e => corrente e = true) l ->
  Forall (fun e => de_encerramento e = false) l.
Proof.
  intros F. rewrite Forall_forall in *. intros e He.
  apply corrente_sem_falha, F, He.
Qed.





(** One test of the loop condition and one pass through the body. *)
Lemma laco_S (n : nat) (self : DetectorPessoasVideo.t)
    (md : ModoDeteccao.t) (w : Mundo.t) :
  laco (S n) self md w =
  let self1 := if Mundo.paradas w (Mundo.n_paradas w) then stop self
               else self in
  let w1 := Mundo.avanca_paradas w in
  if stopped self1 then (Some (Retorna (self1, md)), w1)
  else match iteracao self1 md w1 with
       | (Continua self2 md2, w2) => laco n self2 md2 w2
       | (Interrompe self2 md2, w2) => (Some (Retorna (self2, md2)), w2)
       | (Escapa e self2 _, w2) => (Some (Levanta e self2), w2)
       end.
Proof.
  cbn [laco]. unfold bind at 1, parada_externa. cbv zeta.
  destruct (stopped _); [reflexivity|].
  unfold bind.
  destruct (iteracao _ _ _) as [[self2 md2|self2 md2|e self2 md2] w2];
    reflexivity.
Qed.

(** The loop.  It leaves [stream_externo] alone.  If its bound is used
    up, no call so far was a failure or a stop.  If it ends, either that
    holds too and the object is marked stopped, or the log ends with a
    failure and the message printed for it.  If an exception goes
    through it, no call was a failure or a stop either, and the object
    is not marked stopped. *)
Lemma laco_casos (n : nat) :
  forall (self : DetectorPessoasVideo.t) (md : ModoDeteccao.t)
         (w : Mundo.t),
    let r := laco n self md w in
    exists novo : list Evento,
      Mundo.eventos (snd r) = (Mundo.eventos w ++ novo)%list
      /\ match fst r with
         | None => Forall (fun e => corrente e = true) novo
         | Some (Retorna (self', _)) =>
             stream_externo self' = stream_externo self
             /\ (Forall (fun e => corrente e = true) novo
                 \/ exists (antes : list Evento) (e : Evento)
                           (msg : string),
                     novo = (antes ++ [e; EvPrint msg])%list
                     /\ Forall (fun e => corrente e = true) antes
                     /\ de_falha e = true)
         | Some (Levanta _ self') =>
             stream_externo self' = stream_externo self
             /\ stopped self' = false
             /\ Forall (fun e => corrente e = true) novo
         end.
Proof.
  induction n as [|n IH]; intros self md w; cbv zeta.
  - exists []. cbn [laco]. unfold ret. cbn [fst snd]. rewrite app_nil_r.
    split; [reflexivity|constructor].
  - rewrite laco_S. cbv zeta.
    set (w1 := Mundo.avanca_paradas w).
    set (self1 := if Mundo.paradas w (Mundo.n_paradas w) then stop self
                  else self).
    assert (Hx : stream_externo self1 = stream_externo self)
      by (unfold self1; destruct (Mundo.paradas w _); reflexivity).
    destruct (stopped self1) eqn:Hst.
    { exists []. cbn [fst snd]. rewrite app_nil_r.
      split; [reflexivity|].
      split; [assumption|]. left. constructor. }
    pose proof (iteracao_casos self1 md w1) as Hi. cbv zeta in Hi.
    destruct Hi as (_ & _ & Hi).
    destruct (iteracao self1 md w1)
      as [[self2 md2|self2 md2|e2 self2 md2] w2]; cbn [fst snd] in *.
    + destruct Hi as (_ & Hx2 & _ & _ & antes & t1 & t2 & cx & ps
                      & Hev & Fa & _).
      specialize (IH self2 md2 w2). cbv zeta in IH.
      destruct IH as (novo2 & Hev2 & Hc2).
      set (novo1 := (EvTime (Mundo.relogio w1 (Mundo.n_relogio w1))
                     :: antes
                     ++ fecho (Mundo.relogio w1 (Mundo.n_relogio w1)) t1
                          cx ps (modo self2 =? "parado")
                          (CaixasObjetos.len (pessoas_registradas self2))
                          t2)%list) in *.
      assert (F1 : Forall (fun e => corrente e = true) novo1).
      { unfold novo1. constructor; [reflexivity|].
        apply Forall_app. split; [|apply fecho_corrente].
        rewrite Forall_forall in *. intros e He. apply Fa, He. }
      exists (novo1 ++ novo2)%list.
      split; [rewrite Hev2, Hev, app_assoc; reflexivity|].
      destruct (fst (laco n self2 md2 w2)) as [[[self3 md3]|e3 self3]|].
      * destruct Hc2 as (Hx3 & Hc2). split; [congruence|].
        destruct Hc2 as [F2|(antes2 & e & msg & -> & F2 & He)].
        -- left. apply Forall_app. split; assumption.
        -- right. exists (novo1 ++ antes2)%list, e, msg.
           split; [rewrite app_assoc; reflexivity|].
           split; [apply Forall_app; split; assumption|assumption].
      * destruct Hc2 as (Hx3 & Hs3 & F2).
        split; [congruence|]. split; [exact Hs3|].
        apply Forall_app. split; assumption.
      * apply Forall_app. split; assumption.
    + destruct Hi as (-> & antes & e & msg & Hev & Fa & He).
      exists (antes ++ [e; EvPrint msg])%list.
      split; [exact Hev|]. split; [assumption|].
      right. exists antes, e, msg. auto.
    + destruct Hi as (_ & Hx2 & Hs2 & novo & Hev & F).
      exists novo. split; [exact Hev|].
      split; [congruence|]. split; [congruence|exact F].
Qed.


(** [run] on a configured object, world by world. *)
Lemma run_eq (n : nat) (self : DetectorPessoasVideo.t) (w : Mundo.t) :
  configurado self ->
  run n self w =
  let w0 := Mundo.registra EvMovStart
              (Mundo.registra (EvSleep 2)
                 (Mundo.registra EvStreamStart w)) in
  let i := ModoDeteccao.__init__ (max_tempo_sem_deteccao self)
             (max_tempo_parado self) (usar_rastreamento self)
             ModoDeteccao.max_tempo_sem_atualizar_modo_padrao w0 in
  let r := laco n self (fst i) (snd i) in
  match fst r with
  | None => (None, snd r)
  | Some (Levanta e self') => (Some (Levanta e self'), snd r)
  | Some (Retorna (self', _)) =>
      let w2 := Mundo.registra EvMovStop (snd r) in
      (Some (Retorna (stop self')),
       if stream_externo self' then w2 else Mundo.registra EvStreamStop w2)
  end.
Proof.
  intros [Hs Hd]. unfold run.
  destruct (stream self) as [s|]; [|congruence].
  destruct (detectorPessoas self) as [d|]; [|congruence].
  cbv zeta. unfold encerra, time_sleep.
  repeat (unfold bind, evento, ret; cbv beta iota).
  destruct (ModoDeteccao.__init__ _ _ _ _ _) as [md w1]. cbn [fst snd].
  destruct (laco n self md w1) as [[[[self' md']|e self']|] w2];
    cbn [fst snd]; [|reflexivity|reflexivity].
  destruct (stream_externo self'); reflexivity.
Qed.




End Laco.


(** * More on [ModoDeteccao]: what sequences of evaluations keep *)

Section ModosEmSequencia.

Import ModoDeteccao Avaliacao Sequencia.

Lemma modos_S (n : nat) (self : ModoDeteccao.t) (w : Mundo.t) :
  modos (S n) self w
  = modo_apos self w :: modos n (apos self w) (mundo_apos self w).
Proof. unfold modos. rewrite avalia_S. reflexivity. Qed.

Lemma objeto_apos_S (n : nat) (self : ModoDeteccao.t) (w : Mundo.t) :
  objeto_apos (S n) self w
  = objeto_apos n (apos self w) (mundo_apos self w).
Proof. unfold objeto_apos. rewrite avalia_S. reflexivity. Qed.

Lemma mundo_depois_S (n : nat) (self : ModoDeteccao.t) (w : Mundo.t) :
  mundo_depois (S n) self w
  = mundo_depois n (apos self w) (mundo_apos self w).
Proof. unfold mundo_depois. rewrite avalia_S. reflexivity. Qed.

Lemma relogio_monotono_apos (self : ModoDeteccao.t) (w : Mundo.t) :
  relogio_monotono w -> relogio_monotono (mundo_apos self w).
Proof.
  intros H i j Hij. destruct (oraculos_de_apos self w) as (-> & _).
  apply H, Hij.
Qed.

(** Without tracking, and not in [rastreando], one evaluation returns
    [detectando] or [parado]. *)
Lemma sem_rastreamento_passo (self : ModoDeteccao.t) (w : Mundo.t) :
  usar_rastreamento self = false ->
  modo self <> "rastreando" ->
  modo_apos self w = "detectando" \/ modo_apos self w = "parado".
Proof.
  intros Hu Hr.
  destruct (String.eqb_spec (modo self) "detectando") as [Hd|Hd].
  { rewrite (de_detectando self w Hd), Hu.
    destruct (teve_movimento w); auto. }
  destruct (String.eqb_spec (modo self) "parado") as [Hp|Hp].
  { rewrite (de_parado self w Hp).
    destruct (_ || _); auto. }
  left. apply de_outro; assumption.
Qed.

(** X1.  With tracking disabled, an object that is not in [rastreando]
    never gets there: every evaluation of any sequence returns
    [detectando] or [parado]. *)
Theorem sem_rastreamento_nunca_rastreia (n : nat) :
  forall (self : ModoDeteccao.t) (w : Mundo.t),
    usar_rastreamento self = false ->
    modo self <> "rastreando" ->
    Forall (fun m => m = "detectando" \/ m = "parado") (modos n self w).
Proof.
  induction n as [|n IH]; intros self w Hu Hr.
  - constructor.
  - rewrite modos_S.
    pose proof (sem_rastreamento_passo self w Hu Hr) as Hp.
    constructor; [exact Hp|].
    apply IH.
    + destruct (config_de_apos self w) as (_ & _ & _ & ->). exact Hu.
    + rewrite modo_de_apos. destruct Hp as [-> | ->]; discriminate.
Qed.

(** A new object with the defaults of [DetectorPessoasVideo] (no
    tracking), motion all the time, six evaluations. *)
Lemma sem_rastreamento_nunca_rastreia_witness :
  Forall (fun m => m = "detectando" \/ m = "parado")
         (modos 6 (fst (__init__ 5 60 false 1 Cenarios.mundo_movimentado))
                  (snd (__init__ 5 60 false 1 Cenarios.mundo_movimentado))).
Proof.
  apply sem_rastreamento_nunca_rastreia.
  - reflexivity.
  - discriminate.
Defined.

(** X2.  [rastreando] and [parado] are entered from [detectando] only:
    an evaluation that changes the mode to one of them started in
    [detectando]; the motion detector reported motion exactly when the
    new mode is [rastreando], and then tracking is enabled. *)
Theorem entra_so_por_detectando (self : ModoDeteccao.t) (w : Mundo.t) :
  modo_apos self w <> modo self ->
  modo_apos self w = "rastreando" \/ modo_apos self w = "parado" ->
  modo self = "detectando"
  /\ teve_movimento w = (modo_apos self w =? "rastreando")
  /\ (modo_apos self w = "rastreando" -> usar_rastreamento self = true).
Proof.
  intros Hdif Hnovo.
  destruct (String.eqb_spec (modo self) "detectando") as [Hd|Hd].
  - split; [assumption|].
    rewrite (de_detectando self w Hd) in *.
    destruct (teve_movimento w); cbn in *.
    + destruct (usar_rastreamento self); cbn in *.
      * destruct (Qgtb _ _); cbn in *.
        -- destruct Hnovo; discriminate.
        -- split; reflexivity.
      * destruct Hnovo; discriminate.
    + split; [reflexivity|discriminate].
  - exfalso.
    destruct (String.eqb_spec (modo self) "parado") as [Hp|Hp].
    { rewrite (de_parado self w Hp) in *.
      destruct (_ || _); [destruct Hnovo; discriminate|].
      apply Hdif. symmetry. exact Hp. }
    destruct (String.eqb_spec (modo self) "rastreando") as [Hr|Hr].
    { rewrite (de_rastreando self w Hr) in *.
      destruct (_ || _); [destruct Hnovo; discriminate|].
      apply Hdif. symmetry. exact Hr. }
    rewrite (de_outro self w Hd Hp Hr) in Hnovo.
    destruct Hnovo; discriminate.
Qed.

(** The evaluation of [Cenarios.detectando_tardio]: from [detectando] to
    [rastreando]. *)
Lemma entra_so_por_detectando_witness :
  let self := fst Cenarios.detectando_tardio in
  let w := snd Cenarios.detectando_tardio in
  modo_apos self w = "rastreando"
  /\ modo self = "detectando"
  /\ teve_movimento w = (modo_apos self w =? "rastreando")
  /\ (modo_apos self w = "rastreando" -> usar_rastreamento self = true).
Proof.
  cbv zeta. split; [vm_compute; reflexivity|].
  apply entra_so_por_detectando.
  - vm_compute. discriminate.
  - left. vm_compute. reflexivity.
Defined.

(** One evaluation under a clock that never runs backwards: timestamps
    that were not in the future are not after it, and none decreased. *)
Lemma carimbos_passo (self : ModoDeteccao.t) (w : Mundo.t) :
  relogio_monotono w ->
  em_dia self w ->
  em_dia (apos self w) (mundo_apos self w)
  /\ (tempo_em_que_parou self <= tempo_em_que_parou (apos self w))%Q
  /\ (tempo_ultima_deteccao self <= tempo_ultima_deteccao (apos self w))%Q
  /\ (tempo_ultima_checagem self <= tempo_ultima_checagem (apos self w))%Q.
Proof.
  intros Hm (Hp & Hd & Hc).
  pose proof (mundo_apos_adiante self w) as Ha.
  pose proof (leitura_monotona w 0 3 Hm ltac:(lia)) as H03.
  pose proof (leitura_monotona w 0 4 Hm ltac:(lia)) as H04.
  pose proof (leitura_monotona w 3 4 Hm ltac:(lia)) as H34.
  pose proof (leitura_monotona w 3 5 Hm ltac:(lia)) as H35.
  pose proof (leitura_monotona w 4 5 Hm ltac:(lia)) as H45.
  unfold em_dia.
  rewrite (leitura_adiante _ _ 0 _ _ Ha).
  rewrite tempo_em_que_parou_de_apos, tempo_ultima_deteccao_de_apos,
    tempo_ultima_checagem_de_apos.
  pose proof (entra_parado_nao_detecta self w) as Hx.
  destruct (entra_parado self w); destruct (detecta self w);
    try (discriminate (Hx eq_refl)); cbn [orb plus];
    repeat split; lra.
Qed.

(** X3.  Under a clock that never runs backwards, a sequence of
    evaluations keeps the three timestamps of the object in order: if
    none was later than the clock before, none is later than the clock
    after, and none has decreased. *)
Theorem carimbos_nao_recuam (n : nat) :
  forall (self : ModoDeteccao.t) (w : Mundo.t),
    relogio_monotono w ->
    em_dia self w ->
    em_dia (objeto_apos n self w) (mundo_depois n self w)
    /\ (tempo_em_que_parou self
        <= tempo_em_que_parou (objeto_apos n self w))%Q
    /\ (tempo_ultima_deteccao self
        <= tempo_ultima_deteccao (objeto_apos n self w))%Q
    /\ (tempo_ultima_checagem self
        <= tempo_ultima_checagem (objeto_apos n self w))%Q.
Proof.
  induction n as [|n IH]; intros self w Hm He.
  - unfold objeto_apos, mundo_depois. cbn.
    split; [exact He|]. repeat split; lra.
  - rewrite objeto_apos_S, mundo_depois_S.
    destruct (carimbos_passo self w Hm He) as (He' & Hp & Hd & Hc).
    destruct (IH _ _ (relogio_monotono_apos self w Hm) He')
      as (He'' & Hp' & Hd' & Hc').
    split; [exact He''|]. repeat split; lra.
Qed.

(** A new object in a world with motion at the first two checks only,
    the clock one second further at each reading; eight evaluations. *)
Lemma carimbos_nao_recuam_witness :
  let self := fst (__init__ 5 60 true 1 Cenarios.mundo_para) in
  let w := snd (__init__ 5 60 true 1 Cenarios.mundo_para) in
  em_dia (objeto_apos 8 self w) (mundo_depois 8 self w)
  /\ (tempo_em_que_parou self
      <= tempo_em_que_parou (objeto_apos 8 self w))%Q
  /\ (tempo_ultima_deteccao self
      <= tempo_ultima_deteccao (objeto_apos 8 self w))%Q
  /\ (tempo_ultima_checagem self
      <= tempo_ultima_checagem (objeto_apos 8 self w))%Q.
Proof.
  cbv zeta. apply carimbos_nao_recuam.
  - intros i j Hij. cbn. unfold Cenarios.relogio_segundos.
    apply Qplus_le_r. rewrite <- Zle_Qle. lia.
  - repeat split; vm_compute; discriminate.
Defined.

(** With [max_tempo_sem_deteccao] zero or less, an evaluation in
    [rastreando] returns [detectando]. *)
Lemma limiar_nulo_passo (self : ModoDeteccao.t) (w : Mundo.t) :
  relogio_monotono w ->
  em_dia self w ->
  (max_tempo_sem_deteccao self <= 0)%Q ->
  modo self = "rastreando" ->
  modo_apos self w = "detectando".
Proof.
  intros Hm (_ & Hd & _) Hmax Hr.
  apply (rastreando_transicao self w Hr). right. left.
  unfold delta_detect.
  pose proof (leitura_monotona w 0 2 Hm ltac:(lia)). lra.
Qed.

(** X4.  With [max_tempo_sem_deteccao] zero (or less) and a clock that
    never runs backwards, the mode is never [rastreando] twice in a row:
    every evaluation in [rastreando] returns [detectando]. *)
Theorem limiar_nulo_nao_repete_rastreando (n : nat) :
  forall (self : ModoDeteccao.t) (w : Mundo.t),
    relogio_monotono w ->
    em_dia self w ->
    (max_tempo_sem_deteccao self <= 0)%Q ->
    sem_repetir "rastreando" (modo self :: modos n self w).
Proof.
  induction n as [|n IH]; intros self w Hm He Hmax.
  - exact I.
  - rewrite modos_S. cbn [sem_repetir]. split.
    + intros [Ha Hb].
      rewrite (limiar_nulo_passo self w Hm He Hmax Ha) in Hb.
      discriminate.
    + rewrite <- modo_de_apos. apply IH.
      * apply relogio_monotono_apos, Hm.
      * apply (carimbos_passo self w Hm He).
      * destruct (config_de_apos self w) as (-> & _). exact Hmax.
Qed.

(** Threshold zero, tracking enabled, motion all the time: the modes
    alternate. *)
Lemma limiar_nulo_nao_repete_rastreando_witness :
  let self := fst (__init__ 0 60 true 1 Cenarios.mundo_movimentado) in
  let w := snd (__init__ 0 60 true 1 Cenarios.mundo_movimentado) in
  modos 5 self w
  = ["detectando"; "rastreando"; "detectando"; "rastreando"; "detectando"]
  /\ sem_repetir "rastreando" (modo self :: modos 5 self w).
Proof.
  cbv zeta. split; [vm_compute; reflexivity|].
  apply limiar_nulo_nao_repete_rastreando.
  - intros i j Hij. cbn. unfold Cenarios.relogio_segundos.
    apply Qplus_le_r. rewrite <- Zle_Qle. lia.
  - repeat split; vm_compute; discriminate.
  - vm_compute. discriminate.
Defined.

End ModosEmSequencia.


(** * More on the loop body: which collaborator works in which mode *)

Section ChamadasDaIteracao.

Import DetectorPessoasVideo Registro Chamadas.

Lemma novos_app (w w' : Mundo.t) (l : list Evento) :
  Mundo.eventos w' = (Mundo.eventos w ++ l)%list -> novos w w' = l.
Proof.
  intros H. unfold novos. rewrite H.
  rewrite skipn_app, skipn_all, Nat.sub_diag. reflexivity.
Qed.

Lemma quantos_app (p : Evento -> bool) (l1 l2 : list Evento) :
  quantos p (l1 ++ l2) = (quantos p l1 + quantos p l2)%nat.
Proof. unfold quantos. rewrite filter_app, length_app. reflexivity. Qed.

Lemma quantos_nenhum (p q : Evento -> bool) (l : list Evento) :
  (forall e, q e = true -> p e = false) ->
  Forall (fun e => q e = true) l ->
  quantos p l = 0%nat.
Proof.
  intros Hpq Hl. unfold quantos.
  induction Hl as [|e l He _ IH]; [reflexivity|].
  cbn. rewrite (Hpq e He). exact IH.
Qed.

(** An evaluation of the mode logs readings of the clock and one answer
    of the motion detector, nothing else. *)
Lemma eventos_modo_relogio (md : ModoDeteccao.t) (w : Mundo.t) :
  exists evs : list Evento,
    Mundo.eventos (Avaliacao.mundo_apos md w)
    = (Mundo.eventos w ++ evs)%list
    /\ Forall (fun e => de_relogio_ou_movimento e = true) evs
    /\ Mundo.deteccoes (Avaliacao.mundo_apos md w) = Mundo.deteccoes w
    /\ Mundo.n_deteccoes (Avaliacao.mundo_apos md w) = Mundo.n_deteccoes w
    /\ Mundo.rastreios (Avaliacao.mundo_apos md w) = Mundo.rastreios w
    /\ Mundo.n_rastreios (Avaliacao.mundo_apos md w) = Mundo.n_rastreios w.
Proof.
  unfold Avaliacao.mundo_apos, ModoDeteccao.atualiza_modo, bind,
    time_time, houve_mudanca, ret.
  cbn -[andb orb ModoDeteccao.escolhe_modo].
  match goal with
  | |- context [ModoDeteccao.escolhe_modo ?a ?b ?c ?d ?e ?f] =>
      generalize (ModoDeteccao.escolhe_modo a b c d e f); intros m
  end.
  destruct (m =? "parado"); destruct (ModoDeteccao.modo md =? "parado");
    destruct (m =? "detectando"); cbn;
    rewrite <- ?app_assoc; eexists; (split; [reflexivity|]);
    (split; [repeat constructor|]); repeat split.
Qed.

(** The branch on the mode logs the first calls of [chamadas_sensoria]:
    all of them, with the result of [resultado_sensoria], unless a call
    on the tracker raises. *)
Lemma sensoria_chamadas (self : DetectorPessoasVideo.t)
    (md : ModoDeteccao.t) (m : string) (f : Frame) (w : Mundo.t) :
  let s := sensoria self md m f w in
  (exists k : nat,
      Mundo.eventos (snd s)
      = (Mundo.eventos w ++ firstn k (chamadas_sensoria self md m f w))%list)
  /\ forall x : option (list Caixa * list Peso),
      fst s = inr x ->
      x = resultado_sensoria m w
      /\ Mundo.eventos (snd s)
         = (Mundo.eventos w ++ chamadas_sensoria self md m f w)%list.
Proof.
  unfold sensoria, chamadas_sensoria, resultado_sensoria.
  destruct (m =? "detectando").
  { unfold bind, detectar, print, evento, ret. cbn.
    destruct (Mundo.deteccoes w (Mundo.n_deteccoes w)); cbn;
      rewrite <- ?app_assoc; cbn [app];
      (split; [exists 2%nat; reflexivity|]);
      intros x H; injection H as <-; split; reflexivity. }
  destruct (m =? "rastreando").
  { destruct (ModoDeteccao.mudou_modo md);
      repeat (avanca; try caso_excecao);
      cbn; rewrite <- ?app_assoc; cbn [app];
      (split;
       [first [ exists 0%nat; cbn; rewrite app_nil_r; reflexivity
              | exists 1%nat; reflexivity
              | exists 2%nat; reflexivity
              | exists 3%nat; reflexivity ]
       |intros x H; try discriminate H; injection H as <-;
        split; reflexivity]). }
  unfold ret. cbn. rewrite app_nil_r.
  split; [exists 0%nat; rewrite app_nil_r; reflexivity|].
  intros x H. injection H as <-. split; reflexivity.
Qed.

Local Arguments Avaliacao.modo_apos : simpl never.
Local Arguments Avaliacao.apos : simpl never.
Local Arguments Avaliacao.mundo_apos : simpl never.
Local Arguments sensoria : simpl never.
Local Arguments registra_iteracao : simpl never.
Local Arguments chamadas_sensoria : simpl never.
Local Arguments resultado_sensoria : simpl never.
Local Arguments _frame_tamanho_maximo : simpl never.

(** An iteration that goes to its end, call by call. *)
Lemma iteracao_completa (self : DetectorPessoasVideo.t)
    (md : ModoDeteccao.t) (w : Mundo.t)
    (self' : DetectorPessoasVideo.t) (md' : ModoDeteccao.t) :
  fst (iteracao self md w) = Continua self' md' ->
  let t0 := Mundo.relogio w (Mundo.n_relogio w) in
  let wm := Avaliacao.mundo_apos md (apos_leitura w) in
  exists (f0 : Frame) (evm : list Evento) (t1 t2 : Q) (cx : list Caixa)
         (ps : list Peso),
    Mundo.leituras w (Mundo.n_leituras w) = LeuFrame f0
    /\ md' = Avaliacao.apos md (apos_leitura w)
    /\ modo self' = Avaliacao.modo_apos md (apos_leitura w)
    /\ frame self' = Some (_frame_tamanho_maximo self f0)
    /\ resultado_sensoria (modo self') wm = Some (cx, ps)
    /\ Forall (fun e => de_relogio_ou_movimento e = true) evm
    /\ novos w (snd (iteracao self md w))
       = (EvTime t0 :: EvStreamRead (LeuFrame f0) :: evm
          ++ chamadas_sensoria self md' (modo self')
               (_frame_tamanho_maximo self f0) wm
          ++ fecho t0 t1 cx ps (modo self' =? "parado")
               (CaixasObjetos.len (pessoas_registradas self')) t2)%list.
Proof.
  cbv zeta. rewrite iteracao_eq. cbv zeta.
  fold (apos_leitura w).
  set (t0 := Mundo.relogio w (Mundo.n_relogio w)).
  assert (Hev1 : forall f, Mundo.leituras w (Mundo.n_leituras w) = LeuFrame f ->
                 Mundo.eventos (apos_leitura w)
                 = (Mundo.eventos w
                    ++ [EvTime t0; EvStreamRead (LeuFrame f)])%list).
  { intros f Hf. unfold apos_leitura. rewrite Hf. cbn.
    rewrite <- app_assoc. reflexivity. }
  destruct (Mundo.leituras w (Mundo.n_leituras w))
    as [f0| | |nome texto] eqn:El;
    [|discriminate|discriminate|discriminate].
  specialize (Hev1 f0 eq_refl).
  set (w1 := apos_leitura w) in *.
  destruct (eventos_modo_relogio md w1) as (evm & Hevm & Fevm & _).
  pose proof (sensoria_chamadas self (Avaliacao.apos md w1)
                (Avaliacao.modo_apos md w1) (_frame_tamanho_maximo self f0)
                (Avaliacao.mundo_apos md w1)) as Hs.
  cbv zeta in Hs. destruct Hs as (_ & Hs).
  destruct (sensoria _ _ _ _ _) as [s w3]. cbn [fst snd] in *.
  destruct s as [e|[[cx ps]|]]; [discriminate| |discriminate].
  destruct (Hs _ eq_refl) as (Hres & Hevs). clear Hs.
  pose proof (registra_iteracao_casos self (Avaliacao.apos md w1) t0
                (_frame_tamanho_maximo self f0)
                (Avaliacao.modo_apos md w1) cx ps w3) as Hr.
  cbv zeta in Hr.
  set (t1 := Mundo.relogio w3 (Mundo.n_relogio w3)) in *.
  set (t2 := Mundo.relogio w3 (S (Mundo.n_relogio w3))) in *.
  destruct Hr as (_ & _ & _ & _ & _ & Hr).
  destruct (registra_iteracao _ _ _ _ _ _ _ _) as [p w4].
  cbn [fst snd] in *. intros H. subst p.
  destruct Hr as (-> & -> & Hev).
  exists f0, evm, t1, t2, cx, ps.
  split; [reflexivity|]. split; [reflexivity|]. split; [reflexivity|].
  split; [reflexivity|]. split; [symmetry; exact Hres|].
  split; [exact Fevm|].
  apply novos_app. rewrite Hev, Hevs, Hevm, Hev1.
  rewrite <- ?app_assoc; cbn; rewrite <- ?app_assoc.
  unfold CaixasObjetos.len, CaixasObjetos.atualizar.
  destruct (lenta t0 t1);
    destruct (Avaliacao.modo_apos md w1 =? "parado"); reflexivity.
Qed.

Lemma quantos_cons (p : Evento -> bool) (e : Evento) (l : list Evento) :
  quantos p (e :: l) = ((if p e then 1 else 0) + quantos p l)%nat.
Proof. unfold quantos. cbn. destruct (p e); reflexivity. Qed.

Lemma quantos_fecho (p : Evento -> bool) (t0 t1 : Q) (cx : list Caixa)
    (ps : list Peso) (b : bool) (n : nat) (t2 : Q) :
  (forall e, de_registro e = true -> p e = false) ->
  (forall t, p (EvTime t) = false) ->
  p EvForcePeriod = false ->
  quantos p (fecho t0 t1 cx ps b n t2) = 0%nat.
Proof.
  intros Hr Ht Hf. unfold fecho.
  destruct (lenta t0 t1); cbn [app]; rewrite !quantos_cons;
    rewrite ?Ht, ?Hf, ?(Hr EvReiniciar eq_refl),
      ?(Hr (EvAtualizar cx ps b) eq_refl),
      ?(Hr (EvAtualizaPeriodo n) eq_refl); reflexivity.
Qed.

(** X5.  An iteration that goes to its end reads exactly one frame,
    calls the detector exactly once when the mode it decided is
    [detectando] and not at all otherwise, and advances the tracker
    exactly once when that mode is [rastreando] and not at all
    otherwise: in [parado] neither is called. *)
Theorem trabalho_por_modo (self : DetectorPessoasVideo.t)
    (md : ModoDeteccao.t) (w : Mundo.t)
    (self' : DetectorPessoasVideo.t) (md' : ModoDeteccao.t) :
  fst (iteracao self md w) = Continua self' md' ->
  let l := novos w (snd (iteracao self md w)) in
  quantos de_leitura l = 1%nat
  /\ quantos de_detector l
     = (if modo self' =? "detectando" then 1%nat else 0%nat)
  /\ quantos de_rastreio l
     = (if modo self' =? "rastreando" then 1%nat else 0%nat).
Proof.
  intros H l. subst l.
  destruct (iteracao_completa self md w self' md' H)
    as (f0 & evm & t1 & t2 & cx & ps & _ & _ & _ & _ & _ & Fevm & ->).
  rewrite !quantos_cons, !quantos_app. cbn [de_leitura de_detector de_rastreio].
  rewrite (quantos_nenhum de_leitura de_relogio_ou_movimento evm
             ltac:(intros [] He; try discriminate He; reflexivity) Fevm).
  rewrite (quantos_nenhum de_detector de_relogio_ou_movimento evm
             ltac:(intros [] He; try discriminate He; reflexivity) Fevm).
  rewrite (quantos_nenhum de_rastreio de_relogio_ou_movimento evm
             ltac:(intros [] He; try discriminate He; reflexivity) Fevm).
  rewrite !quantos_fecho
    by (try (intros [] He); try discriminate; reflexivity).
  unfold chamadas_sensoria.
  destruct (String.eqb_spec (modo self') "detectando") as [Hd|Hd].
  { rewrite Hd. cbn [String.eqb].
    destruct (Mundo.deteccoes _ _); repeat split; reflexivity. }
  destruct (modo self' =? "rastreando").
  - destruct (ModoDeteccao.mudou_modo md'); repeat split; reflexivity.
  - repeat split; reflexivity.
Qed.

(** The first iteration of [Cenarios.primeira_iteracao], in
    [detectando]: one read, one detection, no tracking. *)
Lemma trabalho_por_modo_witness :
  exists (self' : DetectorPessoasVideo.t) (md' : ModoDeteccao.t),
    (fst Cenarios.primeira_iteracao = Continua self' md'
     /\ modo self' = "detectando")
    /\ quantos de_leitura
         (novos Cenarios.mundo_inicial (snd Cenarios.primeira_iteracao))
       = 1%nat
    /\ quantos de_detector
         (novos Cenarios.mundo_inicial (snd Cenarios.primeira_iteracao))
       = (if modo self' =? "detectando" then 1%nat else 0%nat)
    /\ quantos de_rastreio
         (novos Cenarios.mundo_inicial (snd Cenarios.primeira_iteracao))
       = (if modo self' =? "rastreando" then 1%nat else 0%nat).
Proof.
  eexists. eexists. split.
  - split; [vm_compute; reflexivity|reflexivity].
  - eapply (trabalho_por_modo Cenarios.video_configurado
              Cenarios.modo_inicial Cenarios.mundo_inicial).
    vm_compute. reflexivity.
Defined.

Lemma filter_nenhum (p q : Evento -> bool) (l : list Evento) :
  (forall e, q e = true -> p e = false) ->
  Forall (fun e => q e = true) l ->
  filter p l = [].
Proof.
  intros Hpq Hl.
  induction Hl as [|e l He _ IH]; [reflexivity|].
  cbn. rewrite (Hpq e He). exact IH.
Qed.

Lemma filter_fecho_nenhum (p : Evento -> bool) (t0 t1 : Q)
    (cx : list Caixa) (ps : list Peso) (b : bool) (n : nat) (t2 : Q) :
  (forall e, de_registro e = true -> p e = false) ->
  (forall t, p (EvTime t) = false) ->
  p EvForcePeriod = false ->
  filter p (fecho t0 t1 cx ps b n t2) = [].
Proof.
  intros Hr Ht Hf. unfold fecho.
  destruct (lenta t0 t1); cbn;
    rewrite ?Ht, ?Hf, ?(Hr EvReiniciar eq_refl),
      ?(Hr (EvAtualizar cx ps b) eq_refl),
      ?(Hr (EvAtualizaPeriodo n) eq_refl); reflexivity.
Qed.

(** [rastreando] is entered from [detectando]. *)
Lemma rastreando_vem_de_detectando (md : ModoDeteccao.t) (w : Mundo.t) :
  Avaliacao.modo_apos md w = "rastreando" ->
  ModoDeteccao.modo md <> "rastreando" ->
  ModoDeteccao.modo md = "detectando".
Proof.
  intros Hn Hr.
  destruct (String.eqb_spec (ModoDeteccao.modo md) "detectando")
    as [Hd|Hd]; [assumption|exfalso].
  destruct (String.eqb_spec (ModoDeteccao.modo md) "parado") as [Hp|Hp].
  - rewrite (de_parado md w Hp) in Hn.
    destruct (_ || _); discriminate.
  - rewrite (de_outro md w Hd Hp Hr) in Hn. discriminate.
Qed.

(** X6.  The calls an iteration that goes to its end makes on the
    tracker.  None unless the mode it decided is [rastreando].  In
    [rastreando], the tracker is advanced once on the frame of the
    iteration; before that, exactly when the mode before was
    [detectando] (the mode has just changed), it is reset and given the
    boxes the registry held when the iteration began. *)
Theorem rastreador_semeado_ao_entrar (self : DetectorPessoasVideo.t)
    (md : ModoDeteccao.t) (w : Mundo.t)
    (self' : DetectorPessoasVideo.t) (md' : ModoDeteccao.t) :
  fst (iteracao self md w) = Continua self' md' ->
  exists f : Frame,
    frame self' = Some f
    /\ filter de_rastreador (novos w (snd (iteracao self md w)))
       = if modo self' =? "rastreando" then
           ((if ModoDeteccao.modo md =? "detectando"
             then [EvRastreadorReiniciar;
                   EvRastreadorAdiciona f
                     (CaixasObjetos.caixas (pessoas_registradas self))]
             else [])
            ++ [EvRastreadorAtualiza f
                  (Mundo.rastreios w (Mundo.n_rastreios w))])%list
         else [].
Proof.
  intros H.
  destruct (iteracao_completa self md w self' md' H)
    as (f0 & evm & t1 & t2 & cx & ps & _ & Hmd & Hm & Hf & _ & Fevm & ->).
  exists (_frame_tamanho_maximo self f0). split; [exact Hf|].
  cbn [filter de_rastreador de_semeadura de_rastreio orb].
  rewrite !filter_app.
  rewrite (filter_nenhum de_rastreador de_relogio_ou_movimento evm
             ltac:(intros [] He; try discriminate He; reflexivity) Fevm).
  rewrite filter_fecho_nenhum
    by (try (intros [] He); try discriminate; reflexivity).
  rewrite app_nil_r. cbn [app].
  destruct (eventos_modo_relogio md (apos_leitura w))
    as (_ & _ & _ & _ & _ & Hr & Hn).
  unfold chamadas_sensoria.
  destruct (String.eqb_spec (modo self') "detectando") as [Hd|Hd].
  { rewrite Hd. cbn [String.eqb].
    destruct (Mundo.deteccoes _ _); reflexivity. }
  destruct (String.eqb_spec (modo self') "rastreando") as [Hra|Hra];
    [|reflexivity].
  rewrite Hr, Hn. cbn [apos_leitura Mundo.rastreios Mundo.n_rastreios
                       Mundo.registra Mundo.avanca_leituras
                       Mundo.avanca_relogio].
  assert (Hmud : ModoDeteccao.mudou_modo md'
                 = (ModoDeteccao.modo md =? "detectando")).
  { unfold ModoDeteccao.mudou_modo. rewrite Hmd.
    rewrite modo_de_apos, modo_anterior_de_apos, <- Hm, Hra.
    destruct (String.eqb_spec "rastreando" (ModoDeteccao.modo md))
      as [He|He].
    - rewrite <- He. reflexivity.
    - rewrite Hra in Hm.
      rewrite (rastreando_vem_de_detectando md (apos_leitura w)
                 (eq_sym Hm) (fun E => He (eq_sym E))).
      reflexivity. }
  rewrite Hmud.
  destruct (ModoDeteccao.modo md =? "detectando"); reflexivity.
Qed.

(** The second iteration on [Cenarios.video_configurado]: from
    [detectando] to [rastreando], the tracker is reset, seeded with the
    box the detector found, and advanced. *)
Lemma rastreador_semeado_ao_entrar_witness :
  exists (self' : DetectorPessoasVideo.t) (md' : ModoDeteccao.t),
    (fst Cenarios2.segunda_iteracao = Continua self' md'
     /\ modo self' = "rastreando"
     /\ ModoDeteccao.modo Cenarios2.md1 = "detectando"
     /\ CaixasObjetos.caixas (pessoas_registradas Cenarios2.self1)
        = [(10, 10, 50, 100)%Z])
    /\ exists f : Frame,
        frame self' = Some f
        /\ filter de_rastreador
             (novos Cenarios2.w1 (snd (iteracao Cenarios2.self1
                                         Cenarios2.md1 Cenarios2.w1)))
           = if modo self' =? "rastreando" then
               ((if ModoDeteccao.modo Cenarios2.md1 =? "detectando"
                 then [EvRastreadorReiniciar;
                       EvRastreadorAdiciona f
                         (CaixasObjetos.caixas
                            (pessoas_registradas Cenarios2.self1))]
                 else [])
                ++ [EvRastreadorAtualiza f
                      (Mundo.rastreios Cenarios2.w1
                         (Mundo.n_rastreios Cenarios2.w1))])%list
             else [].
Proof.
  eexists. eexists. split.
  - split; [vm_compute; reflexivity|].
    split; [reflexivity|].
    split; vm_compute; reflexivity.
  - eapply (rastreador_semeado_ao_entrar Cenarios2.self1 Cenarios2.md1
              Cenarios2.w1).
    vm_compute. reflexivity.
Defined.

(** X7.  What an iteration that goes to its end hands to the registry:
    [atualizar] is called exactly once, with (mode = parado) as
    [caixas_paradas] and with the answer of the detector when the mode is
    [detectando], the boxes of the tracker and no confidence when it is
    [rastreando], no box and no confidence when it is [parado]. *)
Theorem registro_recebe_por_modo (self : DetectorPessoasVideo.t)
    (md : ModoDeteccao.t) (w : Mundo.t)
    (self' : DetectorPessoasVideo.t) (md' : ModoDeteccao.t) :
  fst (iteracao self md w) = Continua self' md' ->
  exists (cx : list Caixa) (ps : list Peso),
    filter de_atualizar (novos w (snd (iteracao self md w)))
    = [EvAtualizar cx ps (modo self' =? "parado")]
    /\ (modo self' = "detectando" ->
        Mundo.deteccoes w (Mundo.n_deteccoes w) = Detectou cx ps)
    /\ (modo self' = "rastreando" ->
        cx = Mundo.rastreios w (Mundo.n_rastreios w) /\ ps = [])
    /\ (modo self' = "parado" -> cx = [] /\ ps = []).
Proof.
  intros H.
  destruct (iteracao_completa self md w self' md' H)
    as (f0 & evm & t1 & t2 & cx & ps & _ & _ & _ & _ & Hres & Fevm & ->).
  exists cx, ps. split.
  - cbn [filter de_atualizar]. rewrite !filter_app.
    rewrite (filter_nenhum de_atualizar de_relogio_ou_movimento evm
               ltac:(intros [] He; try discriminate He; reflexivity) Fevm).
    assert (Hs : filter de_atualizar
                   (chamadas_sensoria self md' (modo self')
                      (_frame_tamanho_maximo self f0)
                      (Avaliacao.mundo_apos md (apos_leitura w))) = []).
    { unfold chamadas_sensoria.
      destruct (modo self' =? "detectando").
      { destruct (Mundo.deteccoes _ _); reflexivity. }
      destruct (modo self' =? "rastreando"); [|reflexivity].
      destruct (ModoDeteccao.mudou_modo md'); reflexivity. }
    rewrite Hs. unfold fecho. destruct (lenta _ t1); reflexivity.
  - destruct (eventos_modo_relogio md (apos_leitura w))
      as (_ & _ & _ & Hd & Hnd & Hr & Hnr).
    unfold resultado_sensoria in Hres.
    rewrite Hd, Hnd, Hr, Hnr in Hres.
    cbn [apos_leitura Mundo.rastreios Mundo.n_rastreios Mundo.deteccoes
         Mundo.n_deteccoes Mundo.registra Mundo.avanca_leituras
         Mundo.avanca_relogio] in Hres.
    split; [|split]; intros Hm; rewrite Hm in Hres;
      cbn [String.eqb Ascii.eqb Bool.eqb] in Hres.
    + destruct (Mundo.deteccoes w (Mundo.n_deteccoes w));
        [|discriminate]. injection Hres as -> ->. reflexivity.
    + injection Hres as <- <-. split; reflexivity.
    + injection Hres as <- <-. split; reflexivity.
Qed.

(** The second iteration on [Cenarios.video_configurado], in
    [rastreando]: the registry gets the box of the tracker. *)
Lemma registro_recebe_por_modo_witness :
  exists (self' : DetectorPessoasVideo.t) (md' : ModoDeteccao.t),
    (fst Cenarios2.segunda_iteracao = Continua self' md'
     /\ modo self' = "rastreando")
    /\ exists (cx : list Caixa) (ps : list Peso),
        filter de_atualizar
          (novos Cenarios2.w1 (snd (iteracao Cenarios2.self1
                                      Cenarios2.md1 Cenarios2.w1)))
        = [EvAtualizar cx ps (modo self' =? "parado")]
        /\ (modo self' = "detectando" ->
            Mundo.deteccoes Cenarios2.w1 (Mundo.n_deteccoes Cenarios2.w1)
            = Detectou cx ps)
        /\ (modo self' = "rastreando" ->
            cx = Mundo.rastreios Cenarios2.w1
                   (Mundo.n_rastreios Cenarios2.w1)
            /\ ps = [])
        /\ (modo self' = "parado" -> cx = [] /\ ps = []).
Proof.
  eexists. eexists. split.
  - split; [vm_compute; reflexivity|reflexivity].
  - eapply (registro_recebe_por_modo Cenarios2.self1 Cenarios2.md1
              Cenarios2.w1).
    vm_compute. reflexivity.
Defined.

End ChamadasDaIteracao.


(** * More on [run]: its edges and the stream it is given *)

Section ExtremosDeRun.

Import DetectorPessoasVideo Registro Chamadas.

(** The three readings of the clock that [run] makes before its loop. *)
Let inicio_de (w : Mundo.t) : list Evento :=
  inicio (Mundo.relogio w (Mundo.n_relogio w))
         (Mundo.relogio w (S (Mundo.n_relogio w)))
         (Mundo.relogio w (S (S (Mundo.n_relogio w)))).

(** What [ModoDeteccao.__init__] does to the world: three readings of
    the clock. *)
Lemma init_mundo (sd mp : Q) (ur : bool) (mc : Q) (w : Mundo.t) :
  let w' := snd (ModoDeteccao.__init__ sd mp ur mc w) in
  Mundo.eventos w'
  = (Mundo.eventos w
     ++ [EvTime (Mundo.relogio w (Mundo.n_relogio w));
         EvTime (Mundo.relogio w (S (Mundo.n_relogio w)));
         EvTime (Mundo.relogio w (S (S (Mundo.n_relogio w))))])%list
  /\ Mundo.relogio w' = Mundo.relogio w
  /\ Mundo.n_relogio w' = S (S (S (Mundo.n_relogio w)))
  /\ Mundo.paradas w' = Mundo.paradas w
  /\ Mundo.n_paradas w' = Mundo.n_paradas w
  /\ Mundo.leituras w' = Mundo.leituras w
  /\ Mundo.n_leituras w' = Mundo.n_leituras w.
Proof.
  cbn. rewrite <- !app_assoc. repeat split.
Qed.

(** The loop when the object is marked stopped at its first test. *)
Lemma laco_parado (n : nat) (self : DetectorPessoasVideo.t)
    (md : ModoDeteccao.t) (w : Mundo.t) :
  stopped self = true \/ Mundo.paradas w (Mundo.n_paradas w) = true ->
  laco (S n) self md w
  = (Some (Retorna (if Mundo.paradas w (Mundo.n_paradas w)
                    then stop self else self,
                    md)),
     Mundo.avanca_paradas w).
Proof.
  intros Hp. rewrite laco_S. cbv zeta.
  destruct (Mundo.paradas w (Mundo.n_paradas w)); [reflexivity|].
  destruct Hp as [Hp|Hp]; [|discriminate]. rewrite Hp. reflexivity.
Qed.

(** The loop when its first read fails. *)
Lemma laco_primeira_falha (n : nat) (self : DetectorPessoasVideo.t)
    (md : ModoDeteccao.t) (w : Mundo.t) :
  stopped self = false ->
  Mundo.paradas w (Mundo.n_paradas w) = false ->
  falhou (Mundo.leituras w (Mundo.n_leituras w)) = true ->
  laco (S n) self md w
  = (Some (Retorna (self, md)),
     Mundo.registra (EvPrint "Não foi possível ler frame.")
       (apos_leitura (Mundo.avanca_paradas w))).
Proof.
  intros Hs Hp Hf. rewrite laco_S. cbv zeta. rewrite Hp, Hs.
  rewrite iteracao_eq. cbv zeta. unfold apos_leitura.
  cbn [Mundo.leituras Mundo.n_leituras Mundo.avanca_paradas
       Mundo.relogio Mundo.n_relogio].
  destruct (Mundo.leituras w (Mundo.n_leituras w)) as [f| | |nome texto];
    [discriminate|reflexivity|reflexivity|discriminate].
Qed.

(** X8.  [run] on a configured object that is already marked stopped, or
    for which [stop()] is called before the first test of the loop:
    it starts the stream and the motion detector, stops them again (the
    stream only if it is the object's own) and returns; no frame is
    read, nothing is detected, and the object is only marked stopped. *)
Theorem run_parado_de_inicio (n : nat) (self : DetectorPessoasVideo.t)
    (w : Mundo.t) :
  configurado self ->
  stopped self = true \/ Mundo.paradas w (Mundo.n_paradas w) = true ->
  fst (run (S n) self w) = Some (Retorna (stop self))
  /\ novos w (snd (run (S n) self w)) = (inicio_de w ++ fim self)%list.
Proof.
  intros Hc Hp. rewrite (run_eq (S n) self w Hc). cbv zeta.
  set (w0 := Mundo.registra EvMovStart _).
  set (i := ModoDeteccao.__init__ _ _ _ _ w0).
  destruct (init_mundo (max_tempo_sem_deteccao self) (max_tempo_parado self)
              (usar_rastreamento self)
              ModoDeteccao.max_tempo_sem_atualizar_modo_padrao w0)
    as (Hev & _ & _ & Hpa & Hnp & _ & _).
  fold i in Hev, Hpa, Hnp. clearbody i.
  rewrite (laco_parado n self (fst i) (snd i))
    by (rewrite Hpa, Hnp; exact Hp).
  rewrite Hpa, Hnp. cbn [fst snd].
  assert (Hx : stream_externo (if Mundo.paradas w0 (Mundo.n_paradas w0)
                               then stop self else self)
               = stream_externo self)
    by (destruct (Mundo.paradas w0 _); reflexivity).
  assert (Hst : stop (if Mundo.paradas w0 (Mundo.n_paradas w0)
                      then stop self else self) = stop self)
    by (destruct (Mundo.paradas w0 _); reflexivity).
  rewrite Hx, Hst. split; [reflexivity|].
  apply novos_app. unfold fim, inicio_de, inicio.
  destruct (stream_externo self);
    cbn [Mundo.eventos Mundo.registra Mundo.avanca_paradas];
    rewrite Hev; unfold w0;
    cbn [Mundo.eventos Mundo.registra Mundo.relogio Mundo.n_relogio];
    rewrite <- ?app_assoc; reflexivity.
Qed.

(** [stop()] is called on [Cenarios.video_configurado] before [run]
    starts. *)
Lemma run_parado_de_inicio_witness :
  fst (run 5 (stop Cenarios.video_configurado) Cenarios.mundo_stream_fecha)
  = Some (Retorna (stop (stop Cenarios.video_configurado)))
  /\ novos Cenarios.mundo_stream_fecha
           (snd (run 5 (stop Cenarios.video_configurado)
                     Cenarios.mundo_stream_fecha))
     = ([EvStreamStart; EvSleep 2; EvMovStart; EvTime 100; EvTime 101;
         EvTime 102] ++ [EvMovStop; EvStreamStop])%list.
Proof.
  apply (run_parado_de_inicio 4 (stop Cenarios.video_configurado)
           Cenarios.mundo_stream_fecha).
  - split; discriminate.
  - left. reflexivity.
Defined.

(** X9.  [run] on a configured object whose stream fails at the first
    read: after starting the stream and the motion detector it reads the
    clock, fails to read, prints the message, stops what it started and
    returns; the detector is never called and the object is only marked
    stopped. *)
Theorem run_primeira_leitura_falha (n : nat)
    (self : DetectorPessoasVideo.t) (w : Mundo.t) :
  configurado self ->
  stopped self = false ->
  Mundo.paradas w (Mundo.n_paradas w) = false ->
  falhou (Mundo.leituras w (Mundo.n_leituras w)) = true ->
  fst (run (S n) self w) = Some (Retorna (stop self))
  /\ novos w (snd (run (S n) self w))
     = (inicio_de w
        ++ [EvTime (Mundo.relogio w (S (S (S (Mundo.n_relogio w)))));
            EvStreamRead (Mundo.leituras w (Mundo.n_leituras w));
            EvPrint "Não foi possível ler frame."]
        ++ fim self)%list.
Proof.
  intros Hc Hs Hp Hf. rewrite (run_eq (S n) self w Hc). cbv zeta.
  set (w0 := Mundo.registra EvMovStart _).
  set (i := ModoDeteccao.__init__ _ _ _ _ w0).
  destruct (init_mundo (max_tempo_sem_deteccao self) (max_tempo_parado self)
              (usar_rastreamento self)
              ModoDeteccao.max_tempo_sem_atualizar_modo_padrao w0)
    as (Hev & Hr & Hnr & Hpa & Hnp & Hl & Hnl).
  fold i in Hev, Hr, Hnr, Hpa, Hnp, Hl, Hnl. clearbody i.
  rewrite (laco_primeira_falha n self (fst i) (snd i))
    by (rewrite ?Hpa, ?Hnp, ?Hl, ?Hnl; assumption).
  cbn [fst snd]. split; [reflexivity|].
  apply novos_app.
  assert (Hfinal :
    Mundo.eventos
      (Mundo.registra (EvPrint "Não foi possível ler frame.")
         (apos_leitura (Mundo.avanca_paradas (snd i))))
    = (Mundo.eventos w
       ++ inicio_de w
       ++ [EvTime (Mundo.relogio w (S (S (S (Mundo.n_relogio w)))));
           EvStreamRead (Mundo.leituras w (Mundo.n_leituras w));
           EvPrint "Não foi possível ler frame."])%list).
  { unfold apos_leitura.
    cbn [Mundo.eventos Mundo.registra Mundo.avanca_paradas
         Mundo.avanca_leituras Mundo.avanca_relogio Mundo.relogio
         Mundo.n_relogio Mundo.leituras Mundo.n_leituras].
    rewrite Hev, Hr, Hnr, Hl, Hnl. unfold w0, inicio_de, inicio.
    cbn [Mundo.eventos Mundo.registra Mundo.relogio Mundo.n_relogio
         Mundo.leituras Mundo.n_leituras].
    rewrite <- ?app_assoc. reflexivity. }
  generalize dependent (Mundo.registra (EvPrint "Não foi possível ler frame.")
                          (apos_leitura (Mundo.avanca_paradas (snd i)))).
  intros wf Hwf. unfold fim.
  destruct (stream_externo self);
    cbn [Mundo.eventos Mundo.registra]; rewrite Hwf;
    rewrite <- ?app_assoc; reflexivity.
Qed.

(** A stream that is closed from the start. *)
Lemma run_primeira_leitura_falha_witness :
  fst (run 5 Cenarios.video_configurado
           (Cenarios.mundo Cenarios.relogio_segundos (fun _ => true)
              (fun _ => StreamClosedError) (fun _ => Detectou [] [])
              (fun _ => []) (fun _ => false)))
  = Some (Retorna (stop Cenarios.video_configurado))
  /\ novos (Cenarios.mundo Cenarios.relogio_segundos (fun _ => true)
              (fun _ => StreamClosedError) (fun _ => Detectou [] [])
              (fun _ => []) (fun _ => false))
           (snd (run 5 Cenarios.video_configurado
                     (Cenarios.mundo Cenarios.relogio_segundos
                        (fun _ => true) (fun _ => StreamClosedError)
                        (fun _ => Detectou [] []) (fun _ => [])
                        (fun _ => false))))
     = ([EvStreamStart; EvSleep 2; EvMovStart; EvTime 100; EvTime 101;
         EvTime 102]
        ++ [EvTime 103; EvStreamRead StreamClosedError;
            EvPrint "Não foi possível ler frame."]
        ++ [EvMovStop; EvStreamStop])%list.
Proof.
  apply (run_primeira_leitura_falha 4 Cenarios.video_configurado).
  - split; discriminate.
  - reflexivity.
  - reflexivity.
  - reflexivity.
Defined.

(** The log of [run] on a configured object: the start, then calls none
    of which stops anything, then, if [run] has returned, the stops.  An
    exception leaves [run] before anything is stopped, and with the
    object not marked stopped. *)
Lemma run_corpo (n : nat) (self : DetectorPessoasVideo.t) (w : Mundo.t) :
  configurado self ->
  exists corpo : list Evento,
    novos w (snd (run n self w))
    = (inicio_de w ++ corpo
       ++ match fst (run n self w) with
          | Some (Retorna _) => fim self
          | _ => []
          end)%list
    /\ Forall (fun e => de_encerramento e = false) corpo
    /\ match fst (run n self w) with
       | Some (Retorna self') => stopped self' = true
       | Some (Levanta _ self') => stopped self' = false
       | None => True
       end.
Proof.
  intros Hc. rewrite (run_eq n self w Hc). cbv zeta.
  set (w0 := Mundo.registra EvMovStart _).
  set (i := ModoDeteccao.__init__ _ _ _ _ w0).
  destruct (init_mundo (max_tempo_sem_deteccao self) (max_tempo_parado self)
              (usar_rastreamento self)
              ModoDeteccao.max_tempo_sem_atualizar_modo_padrao w0)
    as (Hev & _).
  fold i in Hev. clearbody i.
  assert (Hev0 : Mundo.eventos (snd i)
                 = (Mundo.eventos w ++ inicio_de w)%list).
  { rewrite Hev. unfold w0, inicio_de, inicio.
    cbn [Mundo.eventos Mundo.registra Mundo.relogio Mundo.n_relogio].
    rewrite <- ?app_assoc. reflexivity. }
  clear Hev. clearbody w0.
  pose proof (laco_casos n self (fst i) (snd i)) as Hl. cbv zeta in Hl.
  destruct Hl as (novo & Hevl & Hcaso).
  destruct (laco n self (fst i) (snd i)) as [[[[self' md']|e' self']|] w2];
    cbn [fst snd] in *.
  - destruct Hcaso as (Hx & Hcaso).
    exists novo. split; [|split; [|reflexivity]].
    + apply novos_app. unfold fim. rewrite <- Hx.
      destruct (stream_externo self');
        cbn [Mundo.eventos Mundo.registra]; rewrite Hevl, Hev0;
        rewrite <- ?app_assoc; reflexivity.
    + destruct Hcaso as [F|(antes & e & msg & -> & F & He)].
      * apply correntes_sem_encerramento, F.
      * apply Forall_app. split.
        -- apply correntes_sem_encerramento, F.
        -- constructor; [apply falha_nao_encerra, He|].
           constructor; [reflexivity|constructor].
  - destruct Hcaso as (_ & Hs & F).
    exists novo. split; [|split; [|exact Hs]].
    + apply novos_app. rewrite Hevl, Hev0, app_nil_r, <- app_assoc.
      reflexivity.
    + apply correntes_sem_encerramento, F.
  - exists novo. split; [|split; [|exact I]].
    + apply novos_app. rewrite Hevl, Hev0, app_nil_r, <- app_assoc.
      reflexivity.
    + apply correntes_sem_encerramento, Hcaso.
Qed.

Lemma sem_stream_stop (l : list Evento) :
  Forall (fun e => de_encerramento e = false) l ->
  quantos de_stream_stop l = 0%nat.
Proof.
  intros H. unfold quantos.
  induction H as [|e l He _ IH]; [reflexivity|].
  cbn. destruct e; try discriminate He; exact IH.
Qed.

(** X10.  A stream handed over with [recebe_video] is never stopped by
    [run], however [run] goes: with or without a detector configured,
    ending on [stop()], on a failure, or not yet ended. *)
Theorem stream_recebido_nunca_parado (self : DetectorPessoasVideo.t)
    (s : Objeto) (self1 : DetectorPessoasVideo.t) (n : nat)
    (w : Mundo.t) :
  recebe_video self s true = inr self1 ->
  quantos de_stream_stop (novos w (snd (run n self1 w))) = 0%nat.
Proof.
  intros H. cbn in H. injection H as <-.
  destruct (detectorPessoas self) as [d|] eqn:Hd.
  - match goal with
    | |- context [run n ?x w] => set (self1 := x)
    end.
    assert (Hc : configurado self1)
      by (split; unfold self1; cbn; discriminate).
    destruct (run_corpo n self1 w Hc) as (corpo & -> & F & _).
    rewrite !quantos_app, (sem_stream_stop corpo F).
    unfold inicio_de, inicio, fim.
    destruct (fst (run n self1 w)) as [[x|e x]|]; reflexivity.
  - unfold run. cbn [stream detectorPessoas].
    unfold bind, print, evento, ret. cbn [fst snd].
    rewrite (novos_app w _ [EvPrint
               "Erro: stream ou detector de pessoas não configurado."]);
      reflexivity.
Qed.

(** [Cenarios.video_configurado] given a stream from outside, in a world
    whose third read finds the stream closed. *)
Lemma stream_recebido_nunca_parado_witness :
  exists self1 : DetectorPessoasVideo.t,
    recebe_video Cenarios.video_configurado "camera" true = inr self1
    /\ quantos de_stream_stop
         (novos Cenarios.mundo_stream_fecha
                (snd (run 10 self1 Cenarios.mundo_stream_fecha)))
       = 0%nat.
Proof.
  eexists. split; [reflexivity|].
  eapply (stream_recebido_nunca_parado Cenarios.video_configurado "camera").
  reflexivity.
Defined.

(** X11.  A stream opened by [configura_video] is the object's own.
    When [run] returns on such an object, then, if a detector is
    configured too, the log ends with the motion detector and then the
    stream being stopped, and the stream was not stopped before; if no
    detector is configured, [run] has only printed the configuration
    error: the stream was neither started nor stopped. *)
Theorem stream_proprio_parado_no_fim (self : DetectorPessoasVideo.t)
    (s : Objeto) (w0 : Mundo.t) (self1 : DetectorPessoasVideo.t)
    (n : nat) (w : Mundo.t) (fim1 : DetectorPessoasVideo.t) :
  fst (Configuracao.configura_video self (inr s) w0) = inr self1 ->
  fst (run n self1 w) = Some (Retorna fim1) ->
  stream_externo self1 = false
  /\ (detectorPessoas self <> None ->
      exists antes : list Evento,
        novos w (snd (run n self1 w))
        = (antes ++ [EvMovStop; EvStreamStop])%list
        /\ quantos de_stream_stop antes = 0%nat)
  /\ (detectorPessoas self = None ->
      novos w (snd (run n self1 w))
      = [EvPrint "Erro: stream ou detector de pessoas não configurado."]).
Proof.
  intros H Hr. cbn in H. injection H as <-.
  match goal with
  | |- context [run n ?x w] => set (self1 := x) in *
  end.
  split; [reflexivity|]. split.
  - intros Hd.
    assert (Hc : configurado self1)
      by (split; unfold self1; cbn; [discriminate|exact Hd]).
    destruct (run_corpo n self1 w Hc) as (corpo & Hn & F & _).
    rewrite Hr in Hn.
    exists (inicio_de w ++ corpo)%list. split.
    + rewrite Hn, <- app_assoc. reflexivity.
    + rewrite quantos_app, (sem_stream_stop corpo F). reflexivity.
  - intros Hd. unfold run, self1.
    cbn [stream detectorPessoas com_stream_interno].
    rewrite Hd. unfold bind, print, evento, ret. cbn [fst snd].
    apply novos_app. reflexivity.
Qed.

(** A new object given a webcam and a detector, in a world whose third
    read finds the stream closed. *)
Lemma stream_proprio_parado_no_fim_witness :
  exists (self1 fim1 : DetectorPessoasVideo.t),
    (fst (Configuracao.configura_video
            (com_detector Cenarios.video_novo "yolo") (inr "webcam")
            Cenarios.mundo_stream_fecha) = inr self1
     /\ fst (run 10 self1 Cenarios.mundo_stream_fecha)
        = Some (Retorna fim1))
    /\ stream_externo self1 = false
    /\ (detectorPessoas (com_detector Cenarios.video_novo "yolo") <> None ->
        exists antes : list Evento,
          novos Cenarios.mundo_stream_fecha
                (snd (run 10 self1 Cenarios.mundo_stream_fecha))
          = (antes ++ [EvMovStop; EvStreamStop])%list
          /\ quantos de_stream_stop antes = 0%nat)
    /\ (detectorPessoas (com_detector Cenarios.video_novo "yolo") = None ->
        novos Cenarios.mundo_stream_fecha
              (snd (run 10 self1 Cenarios.mundo_stream_fecha))
        = [EvPrint "Erro: stream ou detector de pessoas não configurado."]).
Proof.
  eexists. eexists. split.
  - split; [reflexivity|vm_compute; reflexivity].
  - eapply (stream_proprio_parado_no_fim
              (com_detector Cenarios.video_novo "yolo") "webcam"
              Cenarios.mundo_stream_fecha).
    + reflexivity.
    + vm_compute. reflexivity.
Defined.

End ExtremosDeRun.


(** * The person detector: construction and the label it reads *)

Section ConstrucaoDoDetector.

Import DetectorPessoas.

(** X12.  [DetectorPessoas.__init__] builds a detector for the model
    type 'yolo' only.  With any other [tipo_modelo] it raises
    [ValueError], whatever the path and whatever the yolo constructor
    would do.  It returns an object exactly when [tipo_modelo] is 'yolo'
    and the yolo constructor succeeds, called on the absolute path of the
    model directory (taken under the current directory when it is not an
    existing directory) with the single label 'person'. *)
Theorem so_yolo_constroi (amb : Ambiente) (path_modelo tipo_modelo : string)
    (precisao supressao : Q) :
  (tipo_modelo <> "yolo" ->
   __init__ amb path_modelo tipo_modelo precisao supressao
   = inl (ErroValor (ValueError "Tipo do modelo invalido.")))
  /\ ((exists self : DetectorPessoas.t,
          __init__ amb path_modelo tipo_modelo precisao supressao
          = inr self)
      <-> tipo_modelo = "yolo"
          /\ exists d : Objeto,
              DetectorObjetosYolo amb
                (abspath amb
                   (if isdir amb path_modelo then path_modelo
                    else join amb (getcwd amb) path_modelo))
                ["person"] precisao supressao
              = inr d).
Proof.
  unfold __init__.
  assert (Hp : (if negb (isdir amb path_modelo)
                then join amb (getcwd amb) path_modelo else path_modelo)
               = (if isdir amb path_modelo then path_modelo
                  else join amb (getcwd amb) path_modelo))
    by (destruct (isdir amb path_modelo); reflexivity).
  rewrite Hp. split.
  - intros Ht. apply String.eqb_neq in Ht. rewrite Ht. reflexivity.
  - destruct (String.eqb_spec tipo_modelo "yolo") as [Ht|Ht].
    + destruct (DetectorObjetosYolo amb _ _ _ _) as [[nome texto]|d].
      * split; [intros [self H]; discriminate|].
        intros [_ [d H]]. discriminate.
      * split; [intros _; split; [assumption|exists d; reflexivity]|].
        intros _. eexists. reflexivity.
    + split; [intros [self H]; discriminate|].
      intros [H _]. contradiction.
Qed.

(** The type 'ssd', whose branch the source has commented out. *)
Lemma so_yolo_constroi_witness :
  "ssd" <> "yolo"
  /\ __init__ Cenarios3.ambiente "modelos/ssd" "ssd" (4 # 10) (3 # 10)
     = inl (ErroValor (ValueError "Tipo do modelo invalido.")).
Proof.
  split; [discriminate|].
  apply (proj1 (so_yolo_constroi Cenarios3.ambiente "modelos/ssd" "ssd"
                  (4 # 10) (3 # 10))).
  discriminate.
Defined.

End ConstrucaoDoDetector.

Section RotuloAusente.

Import DetectorPessoasVideo Registro Chamadas.

Local Arguments Avaliacao.modo_apos : simpl never.
Local Arguments Avaliacao.apos : simpl never.
Local Arguments Avaliacao.mundo_apos : simpl never.
Local Arguments _frame_tamanho_maximo : simpl never.

(** X13.  When the dictionary of the inner detector has no entry for
    'person', [DetectorPessoas.detectar] raises [KeyError]; an iteration
    of [run] that is in [detectando] then prints that error and breaks
    the loop, leaving the object as it was. *)
Theorem rotulo_ausente_encerra (self : DetectorPessoasVideo.t)
    (md : ModoDeteccao.t) (w : Mundo.t) (f : Frame)
    (d : DetectorPessoas.Rotulados) :
  Mundo.leituras w (Mundo.n_leituras w) = LeuFrame f ->
  Avaliacao.modo_apos md (apos_leitura w) = "detectando" ->
  Mundo.deteccoes w (Mundo.n_deteccoes w)
  = DetectorPessoas.detectar (inr d) ->
  DetectorPessoas.consulta d "person" = None ->
  fst (iteracao self md w)
  = Interrompe self (Avaliacao.apos md (apos_leitura w))
  /\ exists antes : list Evento,
      novos w (snd (iteracao self md w))
      = (antes
         ++ [EvDetectar (_frame_tamanho_maximo self f)
               (ErroDeteccao "KeyError" "'person'");
             EvPrint ("Erro de detecção:" ++ nl ++ tab
                      ++ "[KeyError]: 'person'")])%list.
Proof.
  intros Hl Hm Hd Hc.
  assert (Hk : Mundo.deteccoes w (Mundo.n_deteccoes w)
               = ErroDeteccao "KeyError" "'person'")
    by (rewrite Hd; unfold DetectorPessoas.detectar; rewrite Hc;
        reflexivity).
  rewrite iteracao_eq. cbv zeta. fold (apos_leitura w). rewrite Hl.
  set (w1 := apos_leitura w) in *.
  destruct (eventos_modo_relogio md w1) as (evm & Hevm & _ & Hdm & Hnm & _).
  assert (Hs : sensoria self (Avaliacao.apos md w1)
                 (Avaliacao.modo_apos md w1) (_frame_tamanho_maximo self f)
                 (Avaliacao.mundo_apos md w1)
               = (inr None,
                  Mundo.registra
                    (EvPrint ("Erro de detecção:" ++ nl ++ tab
                              ++ "[KeyError]: 'person'"))
                    (Mundo.registra
                       (EvDetectar (_frame_tamanho_maximo self f)
                          (ErroDeteccao "KeyError" "'person'"))
                       (Mundo.avanca_deteccoes
                          (Avaliacao.mundo_apos md w1))))).
  { unfold sensoria. rewrite Hm. cbn [String.eqb Ascii.eqb Bool.eqb].
    assert (Hk1 : Mundo.deteccoes w1 (Mundo.n_deteccoes w1)
                  = ErroDeteccao "KeyError" "'person'") by exact Hk.
    unfold bind, detectar, print, evento, ret.
    rewrite Hdm, Hnm, Hk1. reflexivity. }
  rewrite Hs. cbn [fst snd]. split; [reflexivity|].
  exists ([EvTime (Mundo.relogio w (Mundo.n_relogio w));
           EvStreamRead (LeuFrame f)] ++ evm)%list.
  apply novos_app.
  cbn [Mundo.eventos Mundo.registra Mundo.avanca_deteccoes].
  rewrite Hevm. unfold w1, apos_leitura. rewrite Hl.
  cbn [Mundo.eventos Mundo.registra Mundo.avanca_leituras
       Mundo.avanca_relogio].
  rewrite <- ?app_assoc. reflexivity.
Qed.

(** The first iteration on [Cenarios.video_configurado] when the inner
    detector knows cars only. *)
Lemma rotulo_ausente_encerra_witness :
  fst (iteracao Cenarios.video_configurado Cenarios3.modo_novo
                Cenarios3.mundo_novo)
  = Interrompe Cenarios.video_configurado
      (Avaliacao.apos Cenarios3.modo_novo
         (apos_leitura Cenarios3.mundo_novo))
  /\ exists antes : list Evento,
      novos Cenarios3.mundo_novo
            (snd (iteracao Cenarios.video_configurado Cenarios3.modo_novo
                           Cenarios3.mundo_novo))
      = (antes
         ++ [EvDetectar
               (_frame_tamanho_maximo Cenarios.video_configurado
                  (Cenarios.quadro 0))
               (ErroDeteccao "KeyError" "'person'");
             EvPrint ("Erro de detecção:" ++ nl ++ tab
                      ++ "[KeyError]: 'person'")])%list.
Proof.
  apply (rotulo_ausente_encerra Cenarios.video_configurado
           Cenarios3.modo_novo Cenarios3.mundo_novo (Cenarios.quadro 0)
           Cenarios3.so_carros).
  - reflexivity.
  - vm_compute. reflexivity.
  - reflexivity.
  - reflexivity.
Defined.

End RotuloAusente.

(** * The base class of the detectors: pairing and suppression *)

Section Pareamento.

Import BaseDetectorPessoas.

Context {Img Dados : Type} {sub : Subclasse Img Dados} {kt : Ktools Img}.

(** X14.  [detecta_pessoas] pairs the boxes and the confidences that
    [_seleciona_pessoas] returns, position by position, and stops at the
    shorter list: what is beyond is dropped without an error.  The
    pairs do not depend on [desenha_retangulos]; without drawing the
    image returned is the one given; and when the two lists have the
    same length, unpairing gives them back. *)
Theorem detecta_pessoas_pareia (self : BaseDetectorPessoas.t) (img : Img)
    (caixas : list Caixa) (precisoes : list Peso) :
  _seleciona_pessoas self img (_analisa_imagem self img)
  = (caixas, precisoes) ->
  (forall desenha : bool,
      snd (detecta_pessoas self img desenha) = combine caixas precisoes)
  /\ fst (detecta_pessoas self img false) = img
  /\ List.length (snd (detecta_pessoas self img true))
     = Nat.min (List.length caixas) (List.length precisoes)
  /\ map fst (snd (detecta_pessoas self img true))
     = firstn (List.length precisoes) caixas
  /\ (List.length caixas = List.length precisoes ->
      split (snd (detecta_pessoas self img true)) = (caixas, precisoes)).
Proof.
  intros H. unfold detecta_pessoas. rewrite H.
  split; [intros []; reflexivity|].
  split; [reflexivity|]. cbn [snd].
  split; [apply length_combine|].
  split.
  - clear H. revert precisoes.
    induction caixas as [|c cs IH]; intros [|p ps]; cbn;
      try reflexivity.
    rewrite IH. reflexivity.
  - intros Hlen. apply combine_split, Hlen.
Qed.

End Pareamento.

Section PareamentoExemplo.

Import BaseDetectorPessoas.

(** The subclass of [Cenarios3]: two boxes and three confidences give
    two pairs. *)
Lemma detecta_pessoas_pareia_witness :
  snd (@detecta_pessoas _ _ Cenarios3.subclasse_fixa Cenarios3.ktools_fixo
         (__init__ (1 # 2) (1 # 2)) (Cenarios.quadro 0) true)
  = [((0, 0, 10, 20)%Z, 9 # 10); ((5, 5, 10, 20)%Z, 8 # 10)]
  /\ List.length
       (snd (@detecta_pessoas _ _ Cenarios3.subclasse_fixa
               Cenarios3.ktools_fixo (__init__ (1 # 2) (1 # 2))
               (Cenarios.quadro 0) true))
     = Nat.min 2 3.
Proof.
  destruct (@detecta_pessoas_pareia _ _ Cenarios3.subclasse_fixa
              Cenarios3.ktools_fixo (__init__ (1 # 2) (1 # 2))
              (Cenarios.quadro 0)
              [(0, 0, 10, 20)%Z; (5, 5, 10, 20)%Z]
              [9 # 10; 8 # 10; 1 # 10] eq_refl)
    as (Hp & _ & Hl & _).
  split; [exact (Hp true)|exact Hl].
Defined.

End PareamentoExemplo.


Section Indices.

Import BaseDetectorPessoas.

Context {A : Type}.

(** The position that [l[i]] reads. *)
Let posicao (l : list A) (i : Z) : nat :=
  Z.to_nat (if (i <? 0)%Z then (i + Z.of_nat (List.length l))%Z else i).

Lemma item_valido (l : list A) (i : Z) :
  indice_valido (List.length l) i ->
  exists a : A, item l i = inr a /\ nth_error l (posicao l i) = Some a.
Proof.
  unfold indice_valido, item, posicao. intros Hi.
  set (n := Z.of_nat (List.length l)) in *.
  set (j := if (i <? 0)%Z then (i + n)%Z else i).
  assert (Hj : (0 <= j < n)%Z)
    by (unfold j; destruct (Z.ltb_spec i 0); lia).
  destruct (Z.ltb_spec j 0) as [H0|H0]; [lia|].
  destruct (Z.leb_spec n j) as [H1|H1]; [lia|]. cbn [orb].
  destruct (nth_error l (Z.to_nat j)) as [a|] eqn:E.
  - exists a. split; reflexivity.
  - apply nth_error_None in E. unfold n in Hj. lia.
Qed.

Lemma item_invalido (l : list A) (i : Z) :
  ~ indice_valido (List.length l) i ->
  item l i = inl (IndexError "list index out of range").
Proof.
  unfold indice_valido, item. intros Hi.
  set (n := Z.of_nat (List.length l)) in *.
  set (j := if (i <? 0)%Z then (i + n)%Z else i).
  assert (Hj : (j < 0 \/ n <= j)%Z)
    by (unfold j; destruct (Z.ltb_spec i 0); lia).
  destruct (Z.ltb_spec j 0) as [H0|H0]; [reflexivity|].
  destruct (Z.leb_spec n j) as [H1|H1]; [reflexivity|]. lia.
Qed.

Lemma item_inr (l : list A) (i : Z) (a : A) :
  item l i = inr a ->
  indice_valido (List.length l) i /\ nth_error l (posicao l i) = Some a.
Proof.
  intros H.
  assert (Hd : indice_valido (List.length l) i
               \/ ~ indice_valido (List.length l) i)
    by (unfold indice_valido; lia).
  destruct Hd as [Hv|Hv].
  - destruct (item_valido l i Hv) as (a' & Ha & Hn).
    split; [assumption|]. congruence.
  - rewrite (item_invalido l i Hv) in H. discriminate.
Qed.

Lemma itens_inr_iff (l : list A) (idxs : list Z) :
  (exists r : list A, itens l idxs = inr r)
  <-> Forall (indice_valido (List.length l)) idxs.
Proof.
  induction idxs as [|i idxs IH]; cbn [itens].
  - split; [constructor|]. intros _. exists []. reflexivity.
  - split.
    + intros [r H].
      destruct (item l i) as [e|a] eqn:Ei; [discriminate|].
      destruct (itens l idxs) as [e|t] eqn:Et; [discriminate|].
      constructor; [apply (item_inr l i a Ei)|].
      apply IH. exists t. reflexivity.
    + intros H. inversion H as [|? ? Hi Hr]; subst.
      destruct (item_valido l i Hi) as (a & -> & _).
      destruct (proj2 IH Hr) as [t ->]. exists (a :: t). reflexivity.
Qed.

Lemma itens_erro (l : list A) (idxs : list Z) (e : ErroIndice) :
  itens l idxs = inl e -> e = IndexError "list index out of range".
Proof.
  induction idxs as [|i idxs IH]; cbn [itens]; [discriminate|].
  destruct (item l i) as [e'|a] eqn:Ei.
  - intros H. injection H as <-. unfold item in Ei.
    destruct (_ || _); [congruence|].
    destruct (nth_error _ _); congruence.
  - destruct (itens l idxs) as [e'|t]; [|discriminate].
    intros H. injection H as <-. apply IH. reflexivity.
Qed.

End Indices.

Section IndicesEmPar.

Import BaseDetectorPessoas.

Context {A B : Type}.

Lemma nth_error_combine (la : list A) :
  forall (lb : list B) (j : nat) (a : A) (b : B),
    nth_error la j = Some a -> nth_error lb j = Some b ->
    nth_error (combine la lb) j = Some (a, b).
Proof.
  induction la as [|x la IH]; intros [|y lb] [|j] a b Ha Hb;
    cbn in *; try discriminate.
  - congruence.
  - apply IH; assumption.
Qed.

(** Reading two lists of the same length at the same indices gives
    pairs of the two lists. *)
Lemma itens_pares (la : list A) (lb : list B) (idxs : list Z) :
  List.length la = List.length lb ->
  forall (ra : list A) (rb : list B),
    itens la idxs = inr ra -> itens lb idxs = inr rb ->
    Forall (fun par => In par (combine la lb)) (combine ra rb).
Proof.
  intros Hlen.
  induction idxs as [|i idxs IH]; cbn [itens]; intros ra rb Ha Hb.
  - injection Ha as <-. constructor.
  - destruct (item la i) as [e|a] eqn:Ea; [discriminate|].
    destruct (itens la idxs) as [e|ta] eqn:Eta; [discriminate|].
    destruct (item lb i) as [e|b] eqn:Eb; [discriminate|].
    destruct (itens lb idxs) as [e|tb] eqn:Etb; [discriminate|].
    injection Ha as <-. injection Hb as <-. cbn [combine].
    constructor; [|apply IH; reflexivity].
    destruct (item_inr la i a Ea) as (_ & Na).
    destruct (item_inr lb i b Eb) as (_ & Nb).
    rewrite Hlen in Na.
    apply (nth_error_In _ _ (nth_error_combine la lb _ a b Na Nb)).
Qed.

Lemma itens_length (la : list A) (idxs : list Z) (ra : list A) :
  itens la idxs = inr ra -> List.length ra = List.length idxs.
Proof.
  revert ra. induction idxs as [|i idxs IH]; cbn [itens]; intros ra H.
  - injection H as <-. reflexivity.
  - destruct (item la i) as [e|a]; [discriminate|].
    destruct (itens la idxs) as [e|ta]; [discriminate|].
    injection H as <-. cbn. rewrite (IH ta eq_refl). reflexivity.
Qed.

End IndicesEmPar.

Section Supressao.

Import BaseDetectorPessoas.

Context {Img : Type} {kt : Ktools Img}.

(** When each index is valid or not, a list that is not all valid has an
    index that is not. *)
Lemma algum_invalido (P : Z -> Prop) (l : list Z) :
  (forall i, P i \/ ~ P i) ->
  ~ Forall P l -> Exists (fun i => ~ P i) l.
Proof.
  intros Hd. induction l as [|i l IH]; intros H.
  - exfalso. apply H. constructor.
  - destruct (Hd i) as [Hi|Hi].
    + right. apply IH. intros F. apply H. constructor; assumption.
    + left. exact Hi.
Qed.

(** X15.  [_non_maxima_suppression], on the indices that
    [ktools.non_maxima_suppression] returns, which are taken to be
    integers.  It returns lists exactly when every index is an index of
    both lists, from minus the length up to the length, excluded; and it
    raises [IndexError] exactly when some index is outside that range
    for the box list or for the confidence list. *)
Theorem supressao_indices_validos (self : BaseDetectorPessoas.t)
    (caixas : list Caixa) (precisoes : list Peso) :
  let idxs := non_maxima_suppression caixas precisoes
                (precisao_minima self) (supressao_caixas self) in
  ((exists r, _non_maxima_suppression self caixas precisoes = inr r)
   <-> Forall (fun i => indice_valido (List.length caixas) i
                        /\ indice_valido (List.length precisoes) i) idxs)
  /\ (_non_maxima_suppression self caixas precisoes
      = inl (IndexError "list index out of range")
      <-> Exists (fun i => ~ indice_valido (List.length caixas) i
                           \/ ~ indice_valido (List.length precisoes) i)
                 idxs).
Proof.
  intros idxs.
  assert (Hret :
    (exists r, _non_maxima_suppression self caixas precisoes = inr r)
    <-> Forall (fun i => indice_valido (List.length caixas) i
                         /\ indice_valido (List.length precisoes) i) idxs).
  { unfold _non_maxima_suppression. fold idxs.
    pose proof (itens_inr_iff caixas idxs) as Hc.
    pose proof (itens_inr_iff precisoes idxs) as Hp.
    split.
    - intros [r H].
      destruct (itens caixas idxs) as [e|c'] eqn:Ec; [discriminate|].
      destruct (itens precisoes idxs) as [e|p'] eqn:Ep; [discriminate|].
      pose proof (proj1 Hc (ex_intro _ c' eq_refl)) as Fc.
      pose proof (proj1 Hp (ex_intro _ p' eq_refl)) as Fp.
      rewrite Forall_forall in *. intros i Hi. split; auto.
    - intros F.
      assert (Fc : Forall (indice_valido (List.length caixas)) idxs)
        by (rewrite Forall_forall in *; intros i Hi; apply (F i Hi)).
      assert (Fp : Forall (indice_valido (List.length precisoes)) idxs)
        by (rewrite Forall_forall in *; intros i Hi; apply (F i Hi)).
      destruct (proj2 Hc Fc) as [c' ->]. destruct (proj2 Hp Fp) as [p' ->].
      eexists. reflexivity. }
  assert (Herr : forall e,
    _non_maxima_suppression self caixas precisoes = inl e ->
    e = IndexError "list index out of range").
  { unfold _non_maxima_suppression. fold idxs. intros e H.
    destruct (itens caixas idxs) as [e1|c'] eqn:Ec.
    - injection H as <-. apply (itens_erro _ _ _ Ec).
    - destruct (itens precisoes idxs) as [e2|p'] eqn:Ep; [|discriminate].
      injection H as <-. apply (itens_erro _ _ _ Ep). }
  split; [exact Hret|]. split.
  - intros H.
    assert (Hn : ~ Forall (fun i => indice_valido (List.length caixas) i
                                    /\ indice_valido
                                         (List.length precisoes) i) idxs).
    { intros F. destruct (proj2 Hret F) as [r Hr]. congruence. }
    apply algum_invalido in Hn.
    + apply Exists_exists in Hn. destruct Hn as (i & Hi & Hv).
      apply Exists_exists. exists i. split; [exact Hi|].
      unfold indice_valido in *. lia.
    + intros i. unfold indice_valido. lia.
  - intros H.
    destruct (_non_maxima_suppression self caixas precisoes)
      as [e|r] eqn:E.
    + rewrite (Herr e eq_refl). reflexivity.
    + exfalso. apply Exists_exists in H. destruct H as (i & Hi & Hv).
      pose proof (proj1 Hret (ex_intro _ r eq_refl)) as F.
      rewrite Forall_forall in F. destruct (F i Hi) as (F1 & F2).
      destruct Hv as [Hv|Hv]; contradiction.
Qed.

(** X16.  What [_non_maxima_suppression] returns: one box and one
    confidence for each index, in the order of the indices; and when the
    box list and the confidence list given have the same length, each
    box comes out with its own confidence: every pair returned is a pair
    of the input, at one position. *)
Theorem supressao_mantem_pares (self : BaseDetectorPessoas.t)
    (caixas : list Caixa) (precisoes : list Peso)
    (caixas' : list Caixa) (precisoes' : list Peso) :
  _non_maxima_suppression self caixas precisoes
  = inr (caixas', precisoes') ->
  let idxs := non_maxima_suppression caixas precisoes
                (precisao_minima self) (supressao_caixas self) in
  List.length caixas' = List.length idxs
  /\ List.length precisoes' = List.length idxs
  /\ (List.length caixas = List.length precisoes ->
      Forall (fun par => In par (combine caixas precisoes))
             (combine caixas' precisoes')).
Proof.
  intros H idxs. unfold _non_maxima_suppression in H. fold idxs in H.
  destruct (itens caixas idxs) as [e|c'] eqn:Ec; [discriminate|].
  destruct (itens precisoes idxs) as [e|p'] eqn:Ep; [discriminate|].
  injection H as <- <-.
  split; [apply (itens_length caixas idxs c' Ec)|].
  split; [apply (itens_length precisoes idxs p' Ep)|].
  intros Hlen. apply (itens_pares caixas precisoes idxs Hlen c' p' Ec Ep).
Qed.

End Supressao.

Section SupressaoExemplo.

Import BaseDetectorPessoas.

(** [Cenarios3.ktools_fixo] with minimum 0.5 keeps indices 0 and 1 of
    three boxes. *)
Lemma supressao_mantem_pares_witness :
  let caixas := [(0, 0, 10, 20)%Z; (5, 5, 10, 20)%Z; (7, 7, 1, 1)%Z] in
  let precisoes := [9 # 10; 8 # 10; 1 # 10] in
  let self := __init__ (1 # 2) (1 # 2) in
  @_non_maxima_suppression _ Cenarios3.ktools_fixo self caixas precisoes
  = inr ([(0, 0, 10, 20)%Z; (5, 5, 10, 20)%Z], [9 # 10; 8 # 10])
  /\ (List.length caixas = List.length precisoes ->
      Forall (fun par => In par (combine caixas precisoes))
             (combine [(0, 0, 10, 20)%Z; (5, 5, 10, 20)%Z]
                      [9 # 10; 8 # 10])).
Proof.
  cbv zeta. split; [reflexivity|].
  apply (@supressao_mantem_pares _ Cenarios3.ktools_fixo
           (__init__ (1 # 2) (1 # 2))
           [(0, 0, 10, 20)%Z; (5, 5, 10, 20)%Z; (7, 7, 1, 1)%Z]
           [9 # 10; 8 # 10; 1 # 10]
           [(0, 0, 10, 20)%Z; (5, 5, 10, 20)%Z] [9 # 10; 8 # 10]
           eq_refl).
Defined.

End SupressaoExemplo.


(** * More on the loop: [stop()], the tracker that is never called, and
      the exceptions that leave [run] *)

Section QuadroDaIteracao.

Import DetectorPessoasVideo Registro Chamadas.

Local Arguments Avaliacao.modo_apos : simpl never.
Local Arguments Avaliacao.apos : simpl never.
Local Arguments Avaliacao.mundo_apos : simpl never.
Local Arguments sensoria : simpl never.
Local Arguments registra_iteracao : simpl never.
Local Arguments chamadas_sensoria : simpl never.
Local Arguments _frame_tamanho_maximo : simpl never.

(** An evaluation of the mode leaves alone what the world says about
    [stop()] and about frames. *)
Lemma paradas_de_apos (md : ModoDeteccao.t) (w : Mundo.t) :
  Mundo.paradas (Avaliacao.mundo_apos md w) = Mundo.paradas w
  /\ Mundo.n_paradas (Avaliacao.mundo_apos md w) = Mundo.n_paradas w.
Proof.
  unfold Avaliacao.mundo_apos, ModoDeteccao.atualiza_modo, bind,
    time_time, houve_mudanca, ret.
  cbn -[andb orb ModoDeteccao.escolhe_modo].
  match goal with
  | |- context [ModoDeteccao.escolhe_modo ?a ?b ?c ?d ?e ?f] =>
      generalize (ModoDeteccao.escolhe_modo a b c d e f); intros m
  end.
  destruct (m =? "parado"); destruct (ModoDeteccao.modo md =? "parado");
    destruct (m =? "detectando"); cbn; split; reflexivity.
Qed.

(** The branch on the mode leaves alone what the world says about
    [stop()] and the exceptions it has in store; an exception it lets
    through is one of these. *)
Lemma paradas_de_sensoria (self : DetectorPessoasVideo.t)
    (md : ModoDeteccao.t) (m : string) (f : Frame) (w : Mundo.t) :
  let s := sensoria self md m f w in
  Mundo.paradas (snd s) = Mundo.paradas w
  /\ Mundo.n_paradas (snd s) = Mundo.n_paradas w
  /\ Mundo.excecoes (snd s) = Mundo.excecoes w
  /\ forall e : Levantada,
      fst s = inl e -> exists j : nat, Mundo.excecoes w j = Some e.
Proof.
  unfold sensoria.
  destruct (m =? "detectando").
  { unfold bind, detectar, print, evento, ret. cbn.
    destruct (Mundo.deteccoes w (Mundo.n_deteccoes w));
      repeat (split; [reflexivity|]); intros e H; discriminate H. }
  destruct (m =? "rastreando");
    [|repeat (split; [reflexivity|]); intros e H; discriminate H].
  destruct (ModoDeteccao.mudou_modo md);
    repeat (avanca; try caso_excecao);
    cbn in *; repeat (split; [reflexivity|]);
    intros e H; try discriminate H; injection H as <-;
    eexists; eassumption.
Qed.

(** The same for the end of an iteration. *)
Lemma excecoes_de_registra (self : DetectorPessoasVideo.t)
    (md : ModoDeteccao.t) (t0 : Q) (f : Frame) (m : string)
    (cx : list Caixa) (ps : list Peso) (w : Mundo.t) :
  let r := registra_iteracao self md t0 f m cx ps w in
  Mundo.excecoes (snd r) = Mundo.excecoes w
  /\ forall (e : Levantada) (self' : DetectorPessoasVideo.t)
            (md' : ModoDeteccao.t),
      fst r = Escapa e self' md' ->
      exists j : nat, Mundo.excecoes w j = Some e.
Proof.
  cbv zeta. unfold registra_iteracao. avanca.
  destruct (Qgtb _ _);
    repeat (avanca; try caso_excecao);
    cbn in *; (split; [reflexivity|]);
    intros e self' md' H; try discriminate H; injection H as <- _ _;
    eexists; eassumption.
Qed.

Lemma filter_vazio (p : Evento -> bool) (l : list Evento) :
  Forall (fun e => p e = false) l -> filter p l = [].
Proof.
  intros H. induction H as [|e l He _ IH]; [reflexivity|].
  cbn. rewrite He. exact IH.
Qed.

Lemma fecho_sem_rastreador (t0 t1 : Q) (cx : list Caixa) (ps : list Peso)
    (b : bool) (n : nat) (t2 : Q) :
  Forall (fun e => de_rastreador e = false) (fecho t0 t1 cx ps b n t2).
Proof. unfold fecho. destruct (lenta t0 t1); repeat constructor. Qed.

(** Any pass through the loop body: it leaves alone what the world says
    about [stop()] and the exceptions it has in store; the mode object it
    leaves is the one it was given if no frame was read, the evaluated
    one otherwise; and its calls on the tracker are the first ones of
    the branch on the mode. *)
Lemma iteracao_quadro (self : DetectorPessoasVideo.t)
    (md : ModoDeteccao.t) (w : Mundo.t) :
  let r := iteracao self md w in
  let w1 := apos_leitura w in
  Mundo.paradas (snd r) = Mundo.paradas w
  /\ Mundo.n_paradas (snd r) = Mundo.n_paradas w
  /\ Mundo.excecoes (snd r) = Mundo.excecoes w
  /\ match Mundo.leituras w (Mundo.n_leituras w) with
     | LeuFrame f0 =>
         modo_do_passo (fst r) = Avaliacao.apos md w1
         /\ exists k : nat,
             filter de_rastreador (novos w (snd r))
             = filter de_rastreador
                 (firstn k
                    (chamadas_sensoria self (Avaliacao.apos md w1)
                       (Avaliacao.modo_apos md w1)
                       (_frame_tamanho_maximo self f0)
                       (Avaliacao.mundo_apos md w1)))
     | _ =>
         modo_do_passo (fst r) = md
         /\ filter de_rastreador (novos w (snd r)) = []
     end.
Proof.
  cbv zeta. rewrite iteracao_eq. cbv zeta. fold (apos_leitura w).
  set (t0 := Mundo.relogio w (Mundo.n_relogio w)).
  assert (Hev1 : Mundo.eventos (apos_leitura w)
                 = (Mundo.eventos w
                    ++ [EvTime t0;
                        EvStreamRead
                          (Mundo.leituras w (Mundo.n_leituras w))])%list).
  { unfold apos_leitura. cbn. rewrite <- app_assoc. reflexivity. }
  assert (Hp1 : Mundo.paradas (apos_leitura w) = Mundo.paradas w)
    by reflexivity.
  assert (Hn1 : Mundo.n_paradas (apos_leitura w) = Mundo.n_paradas w)
    by reflexivity.
  assert (Hx1 : Mundo.excecoes (apos_leitura w) = Mundo.excecoes w)
    by reflexivity.
  set (w1 := apos_leitura w) in *.
  destruct (Mundo.leituras w (Mundo.n_leituras w))
    as [f0| | |nome texto] eqn:El.
  - destruct (eventos_modo_relogio md w1) as (evm & Hevm & Fevm & _).
    destruct (paradas_de_apos md w1) as (Hpm & Hnm).
    pose proof (excecoes_de_apos md w1) as Hxm.
    pose proof (sensoria_chamadas self (Avaliacao.apos md w1)
                  (Avaliacao.modo_apos md w1)
                  (_frame_tamanho_maximo self f0)
                  (Avaliacao.mundo_apos md w1)) as Hevs.
    cbv zeta in Hevs. destruct Hevs as ((k & Hevs) & _).
    pose proof (paradas_de_sensoria self (Avaliacao.apos md w1)
                  (Avaliacao.modo_apos md w1) (_frame_tamanho_maximo self f0)
                  (Avaliacao.mundo_apos md w1)) as Hps.
    cbv zeta in Hps. destruct Hps as (Hps & Hns & Hxs & _).
    set (cs := chamadas_sensoria _ _ _ _ _) in *.
    assert (Fm : filter de_rastreador evm = [])
      by (apply (filter_nenhum de_rastreador de_relogio_ou_movimento);
          [intros [] He; try discriminate He; reflexivity|exact Fevm]).
    destruct (sensoria _ _ _ _ _) as [s w3]. cbn [fst snd] in *.
    assert (Hw3 : filter de_rastreador (novos w w3)
                  = filter de_rastreador (firstn k cs)).
    { rewrite (novos_app w w3
                 ([EvTime t0; EvStreamRead (LeuFrame f0)] ++ evm
                  ++ firstn k cs))
        by (rewrite Hevs, Hevm, Hev1; rewrite <- ?app_assoc; reflexivity).
      cbn [app filter de_rastreador de_semeadura de_rastreio orb].
      rewrite !filter_app, Fm. reflexivity. }
    destruct s as [e|[[cx ps]|]]; cbn [fst snd modo_do_passo].
    + do 3 (split; [congruence|]). split; [reflexivity|].
      exists k. exact Hw3.
    + pose proof (registra_iteracao_casos self (Avaliacao.apos md w1) t0
                    (_frame_tamanho_maximo self f0)
                    (Avaliacao.modo_apos md w1) cx ps w3) as Hr.
      pose proof (excecoes_de_registra self (Avaliacao.apos md w1) t0
                    (_frame_tamanho_maximo self f0)
                    (Avaliacao.modo_apos md w1) cx ps w3) as Hxr.
      cbv zeta in Hr, Hxr.
      destruct Hr as (_ & _ & Hpr & Hnr & (k' & Hevr) & Hr).
      destruct Hxr as (Hxr & _).
      destruct (registra_iteracao _ _ _ _ _ _ _ _) as [p w4].
      cbn [fst snd] in *.
      do 3 (split; [congruence|]). split.
      * destruct p as [self' md'|self' md'|e self' md'];
          cbn [modo_do_passo]; [apply Hr|contradiction|apply Hr].
      * exists k.
        rewrite (novos_app w w4
                   ([EvTime t0; EvStreamRead (LeuFrame f0)] ++ evm
                    ++ firstn k cs
                    ++ firstn k'
                         (fecho t0 (Mundo.relogio w3 (Mundo.n_relogio w3))
                            cx ps (Avaliacao.modo_apos md w1 =? "parado")
                            (List.length
                               (fst (fst
                                  (CaixasObjetos.atualizar
                                     (if lenta t0
                                           (Mundo.relogio w3
                                              (Mundo.n_relogio w3))
                                      then CaixasObjetos.reiniciar
                                             (pessoas_registradas self)
                                      else pessoas_registradas self)
                                     cx ps
                                     (Avaliacao.modo_apos md w1
                                      =? "parado")))))
                            (Mundo.relogio w3 (S (Mundo.n_relogio w3))))))
          by (rewrite Hevr, Hevs, Hevm, Hev1; rewrite <- ?app_assoc;
              reflexivity).
        cbn [app filter de_rastreador de_semeadura de_rastreio orb].
        rewrite !filter_app, Fm.
        rewrite (filter_vazio de_rastreador (firstn k' _))
          by (apply Forall_primeiros, fecho_sem_rastreador).
        rewrite app_nil_r. reflexivity.
    + do 3 (split; [congruence|]). split; [reflexivity|].
      exists k. exact Hw3.
  - cbn [fst snd modo_do_passo]. do 4 (split; [reflexivity|]).
    rewrite (novos_app w _ [EvTime t0; EvStreamRead StreamClosedError;
                            EvPrint "Não foi possível ler frame."]);
      [reflexivity|].
    cbn [Mundo.eventos Mundo.registra]. rewrite Hev1.
    rewrite <- app_assoc. reflexivity.
  - cbn [fst snd modo_do_passo]. do 4 (split; [reflexivity|]).
    rewrite (novos_app w _ [EvTime t0; EvStreamRead StreamStoppedError;
                            EvPrint "Não foi possível ler frame."]);
      [reflexivity|].
    cbn [Mundo.eventos Mundo.registra]. rewrite Hev1.
    rewrite <- app_assoc. reflexivity.
  - cbn [fst snd modo_do_passo]. do 4 (split; [reflexivity|]).
    rewrite (novos_app w _ [EvTime t0;
                            EvStreamRead (OutraExcecao nome texto)]);
      [reflexivity|].
    exact Hev1.
Qed.


End QuadroDaIteracao.

Section ParadaERastreador.

Import DetectorPessoasVideo Registro Chamadas.

Lemma iteracao_estende (self : DetectorPessoasVideo.t)
    (md : ModoDeteccao.t) (w : Mundo.t) :
  exists l : list Evento,
    Mundo.eventos (snd (iteracao self md w)) = (Mundo.eventos w ++ l)%list.
Proof.
  destruct (iteracao_casos self md w) as (_ & _ & H).
  destruct (fst (iteracao self md w)) as [s m|s m|e s m].
  - destruct H as (_ & _ & _ & _ & antes & t1 & t2 & cx & ps & Hev & _).
    eexists. exact Hev.
  - destruct H as (_ & antes & e & msg & Hev & _).
    eexists. exact Hev.
  - destruct H as (_ & _ & _ & novo & Hev & _).
    eexists. exact Hev.
Qed.





(** The branch on the mode calls the tracker in [rastreando] only. *)
Lemma chamadas_sem_rastreador (self : DetectorPessoasVideo.t)
    (md : ModoDeteccao.t) (m : string) (f : Frame) (w : Mundo.t) :
  m <> "rastreando" ->
  Forall (fun e => de_rastreador e = false)
         (chamadas_sensoria self md m f w).
Proof.
  intros Hm. unfold chamadas_sensoria.
  destruct (m =? "detectando").
  { destruct (Mundo.deteccoes _ _); repeat constructor. }
  apply String.eqb_neq in Hm. rewrite Hm. constructor.
Qed.

(** The loop with a mode object that has tracking disabled. *)
Lemma laco_sem_rastreador (n : nat) :
  forall (self : DetectorPessoasVideo.t) (md : ModoDeteccao.t)
         (w : Mundo.t),
    ModoDeteccao.usar_rastreamento md = false ->
    ModoDeteccao.modo md <> "rastreando" ->
    exists l : list Evento,
      Mundo.eventos (snd (laco n self md w)) = (Mundo.eventos w ++ l)%list
      /\ filter de_rastreador l = [].
Proof.
  induction n as [|n IH]; intros self md w Hu Hm.
  - exists []. cbn. rewrite app_nil_r. split; reflexivity.
  - rewrite laco_S. cbv zeta.
    set (self1 := if Mundo.paradas w (Mundo.n_paradas w) then stop self
                  else self).
    set (w1 := Mundo.avanca_paradas w).
    assert (Hw1 : Mundo.eventos w1 = Mundo.eventos w) by reflexivity.
    destruct (stopped self1).
    { exists []. cbn [fst snd]. rewrite Hw1, app_nil_r.
      split; reflexivity. }
    destruct (iteracao_estende self1 md w1) as (l1 & Hl1).
    pose proof (iteracao_quadro self1 md w1) as Hq. cbv zeta in Hq.
    destruct Hq as (_ & _ & _ & Hq).
    rewrite (novos_app w1 _ l1 Hl1) in Hq.
    pose proof (sem_rastreamento_passo md (apos_leitura w1) Hu Hm) as Hp.
    assert (Hf1 : filter de_rastreador l1 = []
                  /\ ModoDeteccao.usar_rastreamento
                       (modo_do_passo (fst (iteracao self1 md w1))) = false
                  /\ ModoDeteccao.modo
                       (modo_do_passo (fst (iteracao self1 md w1)))
                     <> "rastreando").
    { destruct (Mundo.leituras w1 (Mundo.n_leituras w1))
        as [f0| | |nome texto].
      - destruct Hq as (-> & k & ->). split; [|split].
        + apply filter_vazio, Forall_primeiros, chamadas_sem_rastreador.
          destruct Hp as [-> | ->]; discriminate.
        + destruct (config_de_apos md (apos_leitura w1))
            as (_ & _ & _ & ->). exact Hu.
        + rewrite modo_de_apos. destruct Hp as [-> | ->]; discriminate.
      - destruct Hq as (-> & ->). auto.
      - destruct Hq as (-> & ->). auto.
      - destruct Hq as (-> & ->). auto. }
    destruct Hf1 as (Hf1 & Hu2 & Hm2).
    destruct (iteracao self1 md w1)
      as [[self2 md2|self2 md2|e2 self2 md2] w2];
      cbn [fst snd modo_do_passo] in *.
    + destruct (IH self2 md2 w2 Hu2 Hm2) as (l2 & Hl2 & Hf2).
      exists (l1 ++ l2)%list. split.
      * rewrite Hl2, Hl1, Hw1, app_assoc. reflexivity.
      * rewrite filter_app, Hf1, Hf2. reflexivity.
    + exists l1. split; [rewrite Hl1, Hw1; reflexivity|exact Hf1].
    + exists l1. split; [rewrite Hl1, Hw1; reflexivity|exact Hf1].
Qed.

(** X18.  With [usar_rastreamento] false, as it is by default, [run]
    never calls the tracker: it is neither reset, nor given boxes, nor
    advanced, however long the loop runs and however it ends. *)
Theorem run_sem_rastreador (n : nat) (self : DetectorPessoasVideo.t)
    (w : Mundo.t) :
  configurado self ->
  usar_rastreamento self = false ->
  filter de_rastreador (novos w (snd (run n self w))) = [].
Proof.
  intros Hc Hu. rewrite (run_eq n self w Hc). cbv zeta.
  set (w0 := Mundo.registra EvMovStart _).
  set (i := ModoDeteccao.__init__ _ _ _ _ w0).
  assert (Hui : ModoDeteccao.usar_rastreamento (fst i) = false)
    by exact Hu.
  assert (Hmi : ModoDeteccao.modo (fst i) <> "rastreando")
    by (cbn; discriminate).
  destruct (init_mundo (max_tempo_sem_deteccao self) (max_tempo_parado self)
              (usar_rastreamento self)
              ModoDeteccao.max_tempo_sem_atualizar_modo_padrao w0)
    as (Hev & _).
  fold i in Hev. clearbody i.
  destruct (laco_sem_rastreador n self (fst i) (snd i) Hui Hmi)
    as (l & Hl & Hf).
  assert (Hw0 : Mundo.eventos w0
                = (Mundo.eventos w
                   ++ [EvStreamStart; EvSleep 2; EvMovStart])%list)
    by (unfold w0; cbn; rewrite <- !app_assoc; reflexivity).
  clearbody w0.
  destruct (laco n self (fst i) (snd i)) as [[[[self' md']|e' self']|] w2];
    cbn [fst snd] in *; [| |].
  - match goal with
    | |- context [novos w ?x] => set (wf := x)
    end.
    assert (Hwf : exists fim_evs,
               Mundo.eventos wf
               = (Mundo.eventos w
                  ++ [EvStreamStart; EvSleep 2; EvMovStart]
                  ++ [EvTime (Mundo.relogio w0 (Mundo.n_relogio w0));
                      EvTime (Mundo.relogio w0 (S (Mundo.n_relogio w0)));
                      EvTime (Mundo.relogio w0
                                (S (S (Mundo.n_relogio w0))))]
                  ++ l ++ fim_evs)%list
               /\ filter de_rastreador fim_evs = []).
    { unfold wf. destruct (stream_externo self'); eexists;
        (split; [cbn [Mundo.eventos Mundo.registra];
                 rewrite Hl, Hev, Hw0; rewrite <- ?app_assoc;
                 reflexivity|reflexivity]). }
    destruct Hwf as (fim_evs & Hwf & Hff).
    rewrite (novos_app w wf _ Hwf).
    rewrite !filter_app, Hf, Hff. reflexivity.
  - rewrite (novos_app w w2
               ([EvStreamStart; EvSleep 2; EvMovStart]
                ++ [EvTime (Mundo.relogio w0 (Mundo.n_relogio w0));
                    EvTime (Mundo.relogio w0 (S (Mundo.n_relogio w0)));
                    EvTime (Mundo.relogio w0 (S (S (Mundo.n_relogio w0))))]
                ++ l))
      by (rewrite Hl, Hev, Hw0; rewrite <- ?app_assoc; reflexivity).
    rewrite !filter_app, Hf. reflexivity.
  - rewrite (novos_app w w2
               ([EvStreamStart; EvSleep 2; EvMovStart]
                ++ [EvTime (Mundo.relogio w0 (Mundo.n_relogio w0));
                    EvTime (Mundo.relogio w0 (S (Mundo.n_relogio w0)));
                    EvTime (Mundo.relogio w0 (S (S (Mundo.n_relogio w0))))]
                ++ l))
      by (rewrite Hl, Hev, Hw0; rewrite <- ?app_assoc; reflexivity).
    rewrite !filter_app, Hf. reflexivity.
Qed.

(** The defaults of [DetectorPessoasVideo] with a webcam and a detector,
    in a world with motion all the time, eight tests of the loop. *)
Lemma run_sem_rastreador_witness :
  let self := com_detector (com_stream_interno Cenarios.video_novo "webcam")
                           "yolo" in
  usar_rastreamento self = false
  /\ filter de_rastreador
       (novos Cenarios.mundo_detector_falha
              (snd (run 8 self Cenarios.mundo_detector_falha)))
     = [].
Proof.
  cbv zeta. split; [reflexivity|].
  apply run_sem_rastreador.
  - split; discriminate.
  - reflexivity.
Defined.

End ParadaERastreador.

Section ExcecaoQueEscapa.

Import DetectorPessoasVideo Registro Chamadas.



End ExcecaoQueEscapa.
